(** * readxl: the xlsx reader of iron_pylightxl, embedded in Rocq

    The development follows [_src/readxl.py], read as CPython 3.7 or later
    runs it (a dictionary keeps the order of insertion, [int] accepts
    underscores between digits).  Python text is modelled as [string], one
    [ascii] per character, which covers text within the first 256 code
    points; Python dictionaries as stdpp's [gmap], Python lists as [list],
    and a call that may raise as a value of [result]: either [Ok v] or
    [Raise e], where [e] names the Python exception.  A loop of the source
    is a [Fixpoint] over the list it iterates, named after what it does. *)

From Stdlib Require Import ZArith Ascii String List Lia.
From stdpp Require Import base option list gmap strings.

Local Open Scope Z_scope.

(** ** Exceptions and the error monad *)

(** The exceptions the module can raise.  [ValueError msg] is a [ValueError]
    raised by the module itself with message [msg]; [ValueError_int tok] is
    the one [int(tok)] raises; [KeyError_int k] comes from indexing the
    shared-string dictionary, [KeyError_name n] from opening an archive entry
    that does not exist; [IndexError] from indexing or popping a list out of
    range; [FileNotFoundError] from opening a path that is no file. *)
Inductive exception : Type :=
| IndexError
| FileNotFoundError
| KeyError_int (k : Z)
| KeyError_name (n : string)
| ValueError (msg : string)
| ValueError_int (tok : string).

Inductive result (A : Type) : Type :=
| Ok (a : A)
| Raise (e : exception).
Arguments Ok {A} a.
Arguments Raise {A} e.

Global Instance result_ret : MRet result := fun A a => Ok a.
Global Instance result_bind : MBind result := fun A B f m =>
  match m with
  | Ok a => f a
  | Raise e => Raise e
  end.
Global Instance result_fmap : FMap result := fun A B f m =>
  match m with
  | Ok a => Ok (f a)
  | Raise e => Raise e
  end.

(** [o or_raise e]: the value of [o], or exception [e] when there is none. *)
Definition or_raise {A : Type} (o : option A) (e : exception) : result A :=
  match o with
  | Some a => Ok a
  | None => Raise e
  end.

Definition is_Ok {A : Type} (r : result A) : Prop := ∃ a, r = Ok a.

(** ** Python string primitives *)

(** Python source text is full of double quotes; [dq] writes such a text with
    apostrophes in their place: [dq "t='s'"] is the five characters
    [t], [=], double quote, [s], double quote. *)
Definition quote : ascii := "034"%char.

Fixpoint dq (s : string) : string :=
  match s with
  | "" => ""
  | String c s' => String (if Ascii.eqb c "'" then quote else c) (dq s')
  end.

(** [a] occurs in [s]. *)
Fixpoint occurs (a : ascii) (s : string) : bool :=
  match s with
  | "" => false
  | String c s' => Ascii.eqb a c || occurs a s'
  end.

Module Py.

(** [s.startswith(p)] *)
Fixpoint startswith (p s : string) : bool :=
  match p, s with
  | "", _ => true
  | String _ _, "" => false
  | String a p', String b s' => Ascii.eqb a b && startswith p' s'
  end.

(** [s[n:]] *)
Fixpoint skip (n : nat) (s : string) : string :=
  match n, s with
  | O, _ => s
  | S _, "" => ""
  | S n', String _ s' => skip n' s'
  end.

(** [sub in s] *)
Fixpoint contains (sub s : string) : bool :=
  startswith sub s ||
  match s with
  | "" => false
  | String _ s' => contains sub s'
  end.

(** Puts character [c] in front of the first piece of a split. *)
Definition cons_first (c : ascii) (l : list string) : list string :=
  match l with
  | [] => [String c ""]
  | x :: xs => String c x :: xs
  end.

(** [s.split(sep)] for a non-empty [sep] (also [re.split] on a pattern
    that is a plain literal): the occurrences of [sep] are taken from left
    to right without overlap.  Every step consumes a character, so
    [length s + 1] steps are enough. *)
Fixpoint split_go (fuel : nat) (sep s : string) : list string :=
  match fuel with
  | O => [s]
  | S fuel' =>
      if startswith sep s
      then "" :: split_go fuel' sep (skip (String.length sep) s)
      else match s with
           | "" => [""]
           | String c s' => cons_first c (split_go fuel' sep s')
           end
  end.

Definition split (sep s : string) : list string :=
  split_go (S (String.length s)) sep s.

(** [l[:-1]] *)
Definition but_last {A : Type} (l : list A) : list A := removelast l.

(** [l.index(x)]: position of the first occurrence, if any. *)
Fixpoint index (x : string) (l : list string) : option nat :=
  match l with
  | [] => None
  | y :: l' => if String.eqb x y then Some O else S <$> index x l'
  end.

(** [l.pop(i)] for [i >= 0], keeping only the list that remains;
    [None] stands for [IndexError]. *)
Fixpoint pop (i : nat) (l : list string) {struct l}
  : option (list string) :=
  match l, i with
  | [], _ => None
  | _ :: l', O => Some l'
  | y :: l', S i' => cons y <$> pop i' l'
  end.

(** White space as [int] sees it in a [str], among the first 256 code
    points: tab, line feed, vertical tab, form feed, carriage return and
    space, and the two that lie above the ASCII range, NEL and no-break
    space. *)
Definition isspace (c : ascii) : bool :=
  match c with
  | "009" | "010" | "011" | "012" | "013" | " " | "133" | "160" => true
  | _ => false
  end%char.

(** The value of a decimal digit. *)
Definition digit (c : ascii) : option Z := Z.of_nat <$> Ascii.is_nat c.

Fixpoint lstrip (s : string) : string :=
  match s with
  | "" => ""
  | String c s' => if isspace c then lstrip s' else s
  end.

Fixpoint rstrip (s : string) : string :=
  match s with
  | "" => ""
  | String c s' =>
      match rstrip s' with
      | "" => if isspace c then "" else String c ""
      | r => String c r
      end
  end.

(** The digits of an integer literal after its first digit: digits, with
    single underscores allowed between two digits. [after_us] tells that
    the previous character was an underscore. *)
Fixpoint int_digits (acc : Z) (after_us : bool) (s : string) : option Z :=
  match s with
  | "" => if after_us then None else Some acc
  | String c s' =>
      match digit c with
      | Some d => int_digits (10 * acc + d) false s'
      | None =>
          if Ascii.eqb c "_" && negb after_us
          then int_digits acc true s'
          else None
      end
  end.

Definition int_unsigned (s : string) : option Z :=
  match s with
  | "" => None
  | String c s' =>
      match digit c with
      | Some d => int_digits d false s'
      | None => None
      end
  end.

(** [int(s)] for a [str] (CPython 3, base 10): surrounding white space is
    dropped, then an optional sign, then decimal digits, where single
    underscores may separate digits.  [None] stands for [ValueError]. *)
Definition int (s : string) : option Z :=
  match rstrip (lstrip s) with
  | "" => None
  | String c r as body =>
      if Ascii.eqb c "-" then Z.opp <$> int_unsigned r
      else if Ascii.eqb c "+" then int_unsigned r
      else int_unsigned body
  end.

(** The characters a text that [int] accepts is made of. *)
Definition int_char (c : ascii) : bool :=
  bool_decide (is_Some (digit c)) || Ascii.eqb c "_" || Ascii.eqb c "-"
  || Ascii.eqb c "+" || isspace c.

End Py.

(** ** The regular expressions of the module

    Each pattern the module compiles is written out as the function its
    matching computes.  In all of them [.] is any character but a line feed
    (the patterns are compiled without flags), and [findall] tries the
    pattern at every position from left to right. *)

Module Re.

Definition newline : ascii := "010"%char.

(** A greedy dot-star followed by the lookahead for [close], tried at the
    start of [s]: the longest run of characters up to a line feed or the
    end that is followed by [close]. *)
Fixpoint greedy_upto (close s : string) : option string :=
  match s with
  | "" => if Py.startswith close "" then Some "" else None
  | String c s' =>
      match (if Ascii.eqb c newline then None else greedy_upto close s') with
      | Some cap => Some (String c cap)
      | None => if Py.startswith close s then Some "" else None
      end
  end.

(** Element 0 of [findall] for a pattern made of a lookbehind for [open],
    a greedy dot-star group and a lookahead for [close], with [None] where
    [findall] returns the empty list: the match at the first position that
    follows an occurrence of [open] and from which the dot-star finds
    [close]. *)
Fixpoint first_between (open close s : string) : option string :=
  match (if Py.startswith open s
         then greedy_upto close (Py.skip (String.length open) s)
         else None) with
  | Some cap => Some cap
  | None =>
      match s with
      | "" => None
      | String _ s' => first_between open close s'
      end
  end.

(** A lazy dot-star followed by [close], tried at the start of [s]: the
    shortest run of characters other than line feed that is followed by
    [close]; the group and the text left after [close]. *)
Fixpoint lazy_upto (close s : string) : option (string * string) :=
  if Py.startswith close s
  then Some ("", Py.skip (String.length close) s)
  else match s with
       | "" => None
       | String c s' =>
           if Ascii.eqb c newline then None
           else prod_map (String c) id <$> lazy_upto close s'
       end.

(** [findall] for a pattern made of [open], a lazy dot-star group and
    [close]: a match is looked for at each position in turn, and the scan
    goes on after the end of a match. *)
Fixpoint findall_between_go (fuel : nat) (open close s : string)
  : list string :=
  match fuel with
  | O => []
  | S fuel' =>
      match (if Py.startswith open s
             then lazy_upto close (Py.skip (String.length open) s)
             else None) with
      | Some (cap, rest) => cap :: findall_between_go fuel' open close rest
      | None =>
          match s with
          | "" => []
          | String _ s' => findall_between_go fuel' open close s'
          end
      end
  end.

Definition findall_between (open close s : string) : list string :=
  findall_between_go (S (String.length s)) open close s.

(** The negated class that opens the cell-address pattern: any character
    but [<], [r], space, [c], [=] and the double quote. *)
Definition address_start (c : ascii) : bool :=
  match c with
  | "<" | "r" | " " | "c" | "=" | "034" => false
  | _ => true
  end%char.

(** The longest run of characters other than the double quote. *)
Fixpoint upto_quote (s : string) : string :=
  match s with
  | "" => ""
  | String c s' => if Ascii.eqb c quote then "" else String c (upto_quote s')
  end.

(** The first match of the cell-address pattern in [s]: a character of
    [address_start] followed by one or more characters that are not a
    double quote; [None] where [findall] returns the empty list. *)
Fixpoint first_cell_address (s : string) : option string :=
  match s with
  | "" => None
  | String c s' =>
      match s' with
      | String d _ =>
          if address_start c && negb (Ascii.eqb d quote)
          then Some (String c (upto_quote s'))
          else first_cell_address s'
      | "" => None
      end
  end.

End Re.

(** ** Data *)

(** A sheet grid: cell address to cell value (a Python dict of strings). *)
Abbreviation grid := (gmap string string).

(** The shared-string dictionary: index to string. *)
Abbreviation shared := (gmap Z string).

(** Modelled from the spec: the class [Database] of [_src/database.py], which
    is not among the sources.  The spec gives it as a mapping from sheet name
    to sheet grid that owns all grids. *)
Abbreviation Database := (gmap string grid).

(** Modelled from the spec: the method [Database.add_ws] of
    [_src/database.py].  It inserts the grid keyed by the sheet's display
    name. *)
Definition add_ws (sheetname : string) (data : grid) (db : Database)
  : Database :=
  <[sheetname := data]> db.

(** A dictionary after one insertion per pair, in turn. *)
Definition put_all {V : Type} (m : gmap string V) (kvs : list (string * V))
  : gmap string V :=
  foldl (λ d kv, <[kv.1 := kv.2]> d) m kvs.

(** The grid after [update] with each cell in turn. *)
Definition put_cells (data : grid) (cells : list (string * string)) : grid :=
  put_all data cells.

(** An opened archive: [NameToInfo], entry name to entry, in the order in
    which the archive lists its entries; an entry is given by its decoded
    text.  The names of a dictionary are distinct; no property below needs
    it. *)
Definition archive : Type := list (string * string).

Definition NameToInfo_keys (f_zip : archive) : list string := f_zip.*1.

(** [f_zip.open(name)] followed by [read().decode()] *)
Fixpoint zip_read (f_zip : archive) (name : string) : result string :=
  match f_zip with
  | [] => Raise (KeyError_name name)
  | (n, text) :: f_zip' =>
      if String.eqb n name then Ok text else zip_read f_zip' name
  end.

(** ** get_sheetnames *)

(** The loop of [get_sheetnames]: the text between the first two double
    quotes of each line, appended in turn. *)
Fixpoint sheetnames_of_lines (sheet_lines : list string) : result (list string) :=
  match sheet_lines with
  | [] => Ok []
  | sheet_line :: rest =>
      name ← or_raise (Py.split (dq "'") sheet_line !! 1%nat) IndexError;
      names ← sheetnames_of_lines rest;
      Ok (name :: names)
  end.

Definition get_sheetnames (text : string) : result (list string) :=
  sheet_section ← or_raise (Re.first_between "<sheets>" "</sheets>" text) IndexError;
  let sheet_lines := Py.but_last (Py.split "/>" sheet_section) in
  sheetnames_of_lines sheet_lines.

(** ** get_zipsheetnames *)

Definition get_zipsheetnames (f_zip : archive) : list string :=
  List.filter (Py.contains "sheet") (NameToInfo_keys f_zip).

(** ** get_sharedStrings *)

(** [for i, val in enumerate(vals): d.update({i: val})], counting from [i]. *)
Fixpoint update_enumerated (i : Z) (vals : list string) (d : shared) : shared :=
  match vals with
  | [] => d
  | val :: vals' => update_enumerated (i + 1) vals' (<[i := val]> d)
  end.

Definition get_sharedStrings (text : string) : shared :=
  let tag_t_vals := Re.findall_between "<t>" "</t>" text in
  update_enumerated 0 tag_t_vals ∅.

(** ** scrape_worksheetxml *)

(** The marker of a cell whose value is a shared-string index. *)
Definition string_marker : string := dq "t='s'".

(** The body of the loop over [tag_cr_lines]: address and value of one
    cell. *)
Definition cell_of_line (sharedString : shared) (tag_cr_line : string)
  : result (string * string) :=
  cell_address ← or_raise (Re.first_cell_address tag_cr_line) IndexError;
  let cell_string := Py.contains string_marker tag_cr_line in
  cell_val ← or_raise (Re.first_between "<v>" "</v>" tag_cr_line) IndexError;
  cell_val ← (if cell_string
              then i ← or_raise (Py.int cell_val) (ValueError_int cell_val);
                   or_raise (sharedString !! i) (KeyError_int i)
              else Ok cell_val);
  Ok (cell_address, cell_val).

Fixpoint scrape_lines (sharedString : shared) (tag_cr_lines : list string)
  (data : grid) : result grid :=
  match tag_cr_lines with
  | [] => Ok data
  | tag_cr_line :: rest =>
      cell ← cell_of_line sharedString tag_cr_line;
      scrape_lines sharedString rest (<[cell.1 := cell.2]> data)
  end.

Definition scrape_worksheetxml (text : string) (sharedString : option shared)
  : result grid :=
  let sharedString := default ∅ sharedString in
  sheetdata_section ←
    or_raise (Re.first_between "<sheetData>" "</sheetData>" text) IndexError;
  let tag_cr_lines := tail (Py.split "<c r=" sheetdata_section) in
  scrape_lines sharedString tag_cr_lines ∅.

(** ** check_excelfile and readxl *)

(** The file system: the paths that are files, each with the archive found
    there.  A path is a [str] by its type here, so the first test of
    [check_excelfile] has no counterpart. *)
Abbreviation filesystem := (gmap string archive).

Definition check_excelfile (fs : filesystem) (fn : string) : result unit :=
  if bool_decide (fs !! fn = None)
  then Raise (ValueError ("Error - File (" +:+ fn +:+ ") does not exit."))
  else
    let extension := List.last (Py.split "." fn) "" in
    if bool_decide (extension ∈ ["xlsx"; "xlsm"])
    then Ok ()
    else Raise (ValueError ("Error - Incorrect Excel file extension ("
                            +:+ extension
                            +:+ "). File extension supported: .xlsx .xlsm")).

(** The loop over the requested [sheetnames]: the worksheet part found at
    the position of each requested name is popped from [zip_sheetnames]. *)
Fixpoint pop_sheetnames (sh_names zip_sheetnames sheetnames : list string)
  : result (list string) :=
  match sheetnames with
  | [] => Ok zip_sheetnames
  | sn :: rest =>
      match Py.index sn sh_names with
      | None =>
          Raise (ValueError ("Error - Sheetname (" +:+ sn
                             +:+ ") is not in the workbook."))
      | Some pop_index =>
          zip_sheetnames' ← or_raise (Py.pop pop_index zip_sheetnames) IndexError;
          pop_sheetnames sh_names zip_sheetnames' rest
      end
  end.

(** The shared-string table [readxl] works with. *)
Definition load_sharedStrings (f_zip : archive) : result shared :=
  if bool_decide ("xl/sharedStrings.xml" ∈ NameToInfo_keys f_zip)
  then get_sharedStrings <$> zip_read f_zip "xl/sharedStrings.xml"
  else Ok ∅.

Section readxl.

(** The function [scrape] that [readxl] imports from the compiled module
    [readxl_scrape], which is not among the sources: any function from the
    text of a worksheet part and the shared-string table to a grid. *)
Variable scrape : string → shared → result grid.

(** The loop over [enumerate(zip_sheetnames)], from index [i] on. *)
Fixpoint add_sheets (f_zip : archive) (sh_names : list string)
  (sharedString : shared) (i : nat) (zip_sheetnames : list string)
  (db : Database) : result Database :=
  match zip_sheetnames with
  | [] => Ok db
  | zip_sheetname :: rest =>
      text ← zip_read f_zip zip_sheetname;
      sheetname ← or_raise (sh_names !! i) IndexError;
      data ← scrape text sharedString;
      add_sheets f_zip sh_names sharedString (S i) rest
        (add_ws sheetname data db)
  end.

Definition readxl (fs : filesystem) (fn : string) (sheetnames : list string)
  : result Database :=
  let db : Database := ∅ in
  _ ← check_excelfile fs fn;
  f_zip ← or_raise (fs !! fn) FileNotFoundError;
  sh_names ← zip_read f_zip "xl/workbook.xml" ≫= get_sheetnames;
  let zip_sheetnames := get_zipsheetnames f_zip in
  zip_sheetnames ← pop_sheetnames sh_names zip_sheetnames sheetnames;
  sharedString ← load_sharedStrings f_zip;
  add_sheets f_zip sh_names sharedString 0 zip_sheetnames db.

End readxl.

(** Part [part] of the archive is read and scraped to grid [g]. *)
Definition scraped (scrape : string → shared → result grid) (f_zip : archive)
  (ss : shared) (part : string) (g : grid) : Prop :=
  ∃ text, zip_read f_zip part = Ok text ∧ scrape text ss = Ok g.

(** ** Following the spec's words

    The spec speaks of every substring delimited by the text-value tags, in
    order of appearance, with no word on line breaks or on attributes of
    the opening tag.  [text_values] reads that as the format has it: the
    text of every text-value element, whether its opening tag is bare or
    carries attributes; it is compared with what [get_sharedStrings] finds.
    The spec speaks of the entries whose name matches the worksheet-part
    naming convention; [worksheet_part] reads that as the format's
    convention, which the comment of [readxl] on the parts it scrapes gives
    too: the directory of the worksheets, then sheet, a number and the
    extension. *)

Module Spec.

(** The text up to the first [close], and the text left after it. *)
Fixpoint upto (close s : string) : option (string * string) :=
  if Py.startswith close s
  then Some ("", Py.skip (String.length close) s)
  else match s with
       | "" => None
       | String c s' => prod_map (String c) id <$> upto close s'
       end.

(** White space inside a tag. *)
Definition xml_space (c : ascii) : bool :=
  match c with
  | " " | "009" | "010" | "013" => true
  | _ => false
  end%char.

(** [c] is the last character of [s]. *)
Fixpoint last_is (c : ascii) (s : string) : bool :=
  match s with
  | "" => false
  | String a "" => Ascii.eqb a c
  | String _ s' => last_is c s'
  end.

(** The text that follows an opening text-value tag at the start of [s]:
    the bare tag, or the tag name, white space and attributes up to the
    closing angle bracket.  An element closed in its own tag delimits no
    text. *)
Definition after_open_tag (s : string) : option string :=
  if Py.startswith "<t" s
  then match Py.skip 2 s with
       | "" => None
       | String c r =>
           if Ascii.eqb c ">" then Some r
           else if xml_space c
                then match upto ">" r with
                     | Some (attrs, body) =>
                         if last_is "/" attrs then None else Some body
                     | None => None
                     end
                else None
       end
  else None.

Fixpoint text_values_go (fuel : nat) (s : string) : list string :=
  match fuel with
  | O => []
  | S fuel' =>
      match (match after_open_tag s with
             | Some body => upto "</t>" body
             | None => None
             end) with
      | Some (cap, rest) => cap :: text_values_go fuel' rest
      | None =>
          match s with
          | "" => []
          | String _ s' => text_values_go fuel' s'
          end
      end
  end.

(** The texts of the text-value elements of [s], in order of appearance. *)
Definition text_values (s : string) : list string :=
  text_values_go (S (String.length s)) s.

(** No opening text-value tag of [s] carries an attribute. *)
Definition attribute_free (s : string) : bool :=
  forallb (λ c, negb (Py.contains (String "<" (String "t" (String c ""))) s))
          [" "; "009"; "010"; "013"]%char.

(** One digit or more, then [suffix] and nothing else. *)
Fixpoint digits_then (suffix s : string) : bool :=
  match s with
  | "" => false
  | String c s' =>
      match Ascii.is_nat c with
      | Some _ => String.eqb s' suffix || digits_then suffix s'
      | None => false
      end
  end.

(** The name of a worksheet part: [xl/worksheets/sheet], a number and
    [.xml]. *)
Definition worksheet_part (name : string) : bool :=
  Py.startswith "xl/worksheets/sheet" name
  && digits_then ".xml" (Py.skip (String.length "xl/worksheets/sheet") name).

(** The first quoted attribute value of a fragment: the text after its
    first double quote, up to the next double quote. *)
Fixpoint first_quoted (s : string) : option string :=
  match s with
  | "" => None
  | String c s' =>
      if Ascii.eqb c quote then Some (Re.upto_quote s') else first_quoted s'
  end.

End Spec.

(** A manifest text around a list of sheet declarations: each declaration is
    the text of a self-closing [sheet] element up to its terminator. *)
Fixpoint join_decls (decls : list string) : string :=
  match decls with
  | [] => ""
  | d :: rest => d +:+ "/>" +:+ join_decls rest
  end.

Definition manifest (pre : string) (decls : list string) (post : string)
  : string :=
  pre +:+ "<sheets>" +:+ join_decls decls +:+ "</sheets>" +:+ post.

(** [s] holds no line feed. *)
Fixpoint single_line (s : string) : bool :=
  match s with
  | "" => true
  | String c s' => negb (Ascii.eqb c Re.newline) && single_line s'
  end.

(** ** Sample inputs *)

(** A worksheet part with the given markup in its sheet data. *)
Definition worksheet (rows : string) : string :=
  dq ("<worksheet><sheetData>" +:+ rows +:+ "</sheetData></worksheet>").

(** A worksheet part with the single cell A1 of literal value [v]. *)
Definition sheet_xml (v : string) : string :=
  worksheet ("<row r='1'><c r='A1'><v>" +:+ v +:+ "</v></c></row>").

(** The declaration of a sheet of the given name, without its terminator. *)
Definition sheet_decl (name : string) : string :=
  dq "<sheet name='" +:+ name +:+ dq "' sheetId='1' r:id='rId1'".

Definition workbook_xml (names : list string) : string :=
  manifest "<workbook>" (sheet_decl <$> names) "</workbook>".

(** A workbook of three sheets, whose cell A1 holds 1, 2 and 3. *)
Definition book3 : archive :=
  [("[Content_Types].xml", "<Types/>");
   ("xl/workbook.xml", workbook_xml ["Sheet1"; "Sheet2"; "Sheet3"]);
   ("xl/worksheets/sheet1.xml", sheet_xml "1");
   ("xl/worksheets/sheet2.xml", sheet_xml "2");
   ("xl/worksheets/sheet3.xml", sheet_xml "3")].

(** A workbook that declares two sheets and holds one worksheet part. *)
Definition book_short : archive :=
  [("xl/workbook.xml", workbook_xml ["Sheet1"; "Sheet2"]);
   ("xl/worksheets/sheet1.xml", sheet_xml "1")].

(** A workbook that declares one sheet and holds two worksheet parts. *)
Definition book_long : archive :=
  [("xl/workbook.xml", workbook_xml ["Sheet1"]);
   ("xl/worksheets/sheet1.xml", sheet_xml "1");
   ("xl/worksheets/sheet2.xml", sheet_xml "2")].

(** The file system with the one file book.xlsx. *)
Definition disk (f_zip : archive) : filesystem := {[ "book.xlsx" := f_zip ]}.

(** The scraper of the module itself in the place of the compiled
    [scrape]. *)
Definition scrape_py (text : string) (sharedString : shared) : result grid :=
  scrape_worksheetxml text (Some sharedString).

(** A worksheet part whose second cell refers to shared string 5. *)
Definition sheet_unresolved : string :=
  worksheet "<row r='1'><c r='A1'><v>7</v></c><c r='B1' t='s'><v>5</v></c></row>".

(** A worksheet part whose second cell is string-typed with the token 1.5. *)
Definition sheet_fraction : string :=
  worksheet "<row r='1'><c r='A1'><v>7</v></c><c r='B1' t='s'><v>1.5</v></c></row>".

(** A workbook with three shared strings whose sheet refers to string 5. *)
Definition book_unresolved : archive :=
  [("xl/workbook.xml", workbook_xml ["Sheet1"]);
   ("xl/sharedStrings.xml",
    "<sst><si><t>Alice</t></si><si><t>Bob</t></si><si><t>Carol</t></si></sst>");
   ("xl/worksheets/sheet1.xml", sheet_unresolved)].

(** A shared-strings part with two entries. *)
Definition sst_two : string :=
  "<sst><si><t>Alice</t></si><si><t>Bob</t></si></sst>".

(** A shared-strings part whose first entry runs over two lines. *)
Definition sst_two_lines : string :=
  "<sst><si><t>a" +:+ String Re.newline "b</t></si><si><t>c</t></si></sst>".

(** A manifest with its markers on lines of their own. *)
Definition manifest_three_lines : string :=
  "<workbook><sheets>" +:+ String Re.newline (sheet_decl "Sheet1" +:+ "/>")
  +:+ String Re.newline "</sheets></workbook>".

(** A worksheet part in which cell A1 is declared twice. *)
Definition sheet_twice : string :=
  worksheet ("<row r='1'><c r='A1'><v>1</v></c><c r='B1'><v>2</v></c>"
             +:+ "<c r='A1'><v>3</v></c></row>").

(** A scraper that differs from [scrape_py] on the content-types entry
    only: it returns the empty grid there, where [scrape_py] raises. *)
Definition scrape_other (text : string) (sharedString : shared) : result grid :=
  if String.eqb text "<Types/>" then Ok ∅
  else scrape_py text sharedString.

(** A shared-strings part whose first entry keeps its leading space. *)
Definition sst_preserve : string :=
  dq "<sst><si><t xml:space='preserve'> x</t></si><si><t>y</t></si></sst>".

(** A workbook of one sheet whose worksheet part has a relationships
    entry, as a sheet with a hyperlink or a drawing has. *)
Definition book_rels : archive :=
  [("xl/workbook.xml", workbook_xml ["Sheet1"]);
   ("xl/worksheets/sheet1.xml", sheet_xml "1");
   ("xl/worksheets/_rels/sheet1.xml.rels", "<Relationships/>")].

(** A workbook that declares two sheets and holds one worksheet part and a
    document whose name holds sheet. *)
Definition book_cheatsheet : archive :=
  [("xl/workbook.xml", workbook_xml ["Sheet1"; "Sheet2"]);
   ("xl/worksheets/sheet1.xml", sheet_xml "1");
   ("docs/cheatsheet.txt", sheet_xml "9")].

Definition two_names : shared := <[0 := "Alice"]> (<[1 := "Bob"]> ∅).

Definition three_names : shared := <[2 := "Carol"]> two_names.

(** ** Tactics *)

(** Membership in a list that is written out, case by case. *)
Ltac each_part H :=
  repeat (apply elem_of_cons in H as [->|H]); [..|by apply elem_of_nil in H].

(** * Written workbooks

    Texts and archives as a writer of the format lays them out, for the
    properties that read them back. *)

(** ** Joining and building texts *)

(** [sep.join(l)] *)
Fixpoint join (sep : string) (l : list string) : string :=
  match l with
  | [] => ""
  | [x] => x
  | x :: rest => x +:+ sep +:+ join sep rest
  end.

(** The file names [check_excelfile] lets through: the extension alone, or a
    stem, a dot and the extension. *)
Definition has_extension (ext fn : string) : Prop :=
  fn = ext ∨ ∃ stem, fn = stem +:+ "." +:+ ext.

(** A shared-strings part that lists the given strings, each as the text of
    one string item. *)
Fixpoint sst_items (vals : list string) : string :=
  match vals with
  | [] => ""
  | v :: rest => "<si><t>" +:+ v +:+ "</t></si>" +:+ sst_items rest
  end.

Definition sst_xml (vals : list string) : string :=
  "<sst>" +:+ sst_items vals +:+ "</sst>".

(** A cell as a worksheet writes it: its address, whether it carries the
    string marker, and its value token. *)
Record cell : Type := Cell {
  address : string;
  shared_string : bool;
  token : string
}.

(** The cell element without its opening marker: the quoted address, the
    string marker where the cell has one, and the value element. *)
Definition cell_line (c : cell) : string :=
  String quote
    (address c +:+
     String quote
       ((if shared_string c then " " +:+ string_marker else "") +:+
        "><v>" +:+ token c +:+ "</v></c>")).

Fixpoint cells_xml (cells : list cell) : string :=
  match cells with
  | [] => ""
  | c :: rest => "<c r=" +:+ cell_line c +:+ cells_xml rest
  end.

(** A worksheet part whose sheet data is the given cells, on one line. *)
Definition sheet_of (cells : list cell) : string :=
  "<worksheet><sheetData>" +:+ cells_xml cells +:+ "</sheetData></worksheet>".

(** The cells [sheet_of] is read back for: an address of two characters or
    more that the address pattern can start at, address and token on one
    line and without double quote or opening angle bracket in the address
    and without opening angle bracket in the token, and no string marker
    inside the token of a cell that has none. *)
Definition cell_ok (c : cell) : bool :=
  match address c with
  | String a (String _ _) => Re.address_start a
  | _ => false
  end
  && negb (occurs quote (address c))
  && negb (occurs "<" (address c))
  && single_line (address c)
  && negb (occurs "<" (token c))
  && single_line (token c)
  && (shared_string c || negb (Py.contains string_marker (token c))).

(** What the cell stands for, given the shared-string table. *)
Definition cell_entry (sharedString : shared) (c : cell)
  : result (string * string) :=
  if shared_string c
  then match Py.int (token c) with
       | None => Raise (ValueError_int (token c))
       | Some i =>
           match sharedString !! i with
           | None => Raise (KeyError_int i)
           | Some v => Ok (address c, v)
           end
       end
  else Ok (address c, token c).

(** The sheet names [workbook_xml] is read back for: on one line, without
    double quote or declaration terminator. *)
Definition name_ok (name : string) : bool :=
  negb (occurs quote name) && single_line name
  && negb (Py.contains "/>" name).

(** An archive with a manifest that declares the given names, a
    shared-strings part that lists the given strings, and the given
    worksheet parts, each a part name with the cells of the sheet. *)
Definition workbook_of (names strings : list string)
  (parts : list (string * list cell)) : archive :=
  ("xl/workbook.xml", workbook_xml names)
  :: ("xl/sharedStrings.xml", sst_xml strings)
  :: (prod_map id sheet_of <$> parts).

(** * Properties *)

(** ** Strings *)

Lemma app_cons (c : ascii) (s t : string) : String c s +:+ t = String c (s +:+ t).
Proof. reflexivity. Qed.

Lemma app_empty_l (s : string) : "" +:+ s = s.
Proof. reflexivity. Qed.

Lemma app_empty_r (s : string) : s +:+ "" = s.
Proof. induction s as [|c s IH]; [done|]. by rewrite app_cons, IH. Qed.

Lemma app_assoc' (s t u : string) : (s +:+ t) +:+ u = s +:+ t +:+ u.
Proof. induction s as [|c s IH]; [done|]. by rewrite !app_cons, IH. Qed.

Lemma startswith_app (p t : string) : Py.startswith p (p +:+ t) = true.
Proof.
  induction p as [|c p IH]; [done|].
  rewrite app_cons. simpl. by rewrite Ascii.eqb_refl, IH.
Qed.

Lemma startswith_inv (p s : string) :
  Py.startswith p s = true → ∃ t, s = p +:+ t.
Proof.
  revert s. induction p as [|c p IH]; intros s H.
  - by exists s.
  - destruct s as [|d s]; [done|]. simpl in H.
    apply andb_true_iff in H as [Hc Hp]. apply Ascii.eqb_eq in Hc as ->.
    destruct (IH _ Hp) as [t ->]. by exists t.
Qed.

Lemma skip_app (p t : string) : Py.skip (String.length p) (p +:+ t) = t.
Proof. induction p as [|c p IH]; [by destruct t|]. by rewrite app_cons. Qed.

Lemma skip_length_le (n : nat) (s : string) :
  (String.length (Py.skip n s) ≤ String.length s)%nat.
Proof.
  revert s. induction n as [|n IH]; intros [|c s]; simpl; try lia.
  specialize (IH s). lia.
Qed.

Lemma contains_inv (sub s : string) :
  Py.contains sub s = true → ∃ a b, s = a +:+ sub +:+ b.
Proof.
  induction s as [|c s IH]; simpl; intros H.
  - rewrite orb_false_r in H. destruct (startswith_inv _ _ H) as [t ->].
    by exists "", t.
  - apply orb_true_iff in H as [H|H].
    + destruct (startswith_inv _ _ H) as [t ->]. by exists "", t.
    + destruct (IH H) as (a & b & ->). by exists (String c a), b.
Qed.

Lemma contains_intro (sub a b : string) : Py.contains sub (a +:+ sub +:+ b) = true.
Proof.
  induction a as [|c a IH].
  - rewrite app_empty_l. destruct (sub +:+ b) eqn:E; simpl;
      rewrite <- E, startswith_app; done.
  - rewrite app_cons. simpl. rewrite IH. by rewrite orb_true_r.
Qed.

Lemma startswith_contains (p s : string) :
  Py.startswith p s = true → Py.contains p s = true.
Proof. intros H. destruct s; simpl; by rewrite H. Qed.

Lemma contains_cons (p : string) (c : ascii) (s : string) :
  Py.contains p s = true → Py.contains p (String c s) = true.
Proof. intros H. simpl. by rewrite H, orb_true_r. Qed.

Lemma contains_skip (p : string) (n : nat) (s : string) :
  Py.contains p (Py.skip n s) = true → Py.contains p s = true.
Proof.
  revert s. induction n as [|n IH]; intros [|c s]; simpl; try done.
  intros H. rewrite (IH _ H). apply orb_true_r.
Qed.

(** ** The shared-string table *)

Lemma update_enumerated_lookup (vals : list string) (i k : Z) (d : shared) :
  update_enumerated i vals d !! k =
    if bool_decide (i ≤ k < i + Z.of_nat (length vals))
    then vals !! Z.to_nat (k - i)
    else d !! k.
Proof.
  revert i d. induction vals as [|v vals IH]; intros i d; simpl.
  - rewrite bool_decide_eq_false_2; [done | lia].
  - rewrite IH. destruct (decide (k = i)) as [->|Hne].
    + rewrite bool_decide_eq_false_2 by lia.
      rewrite bool_decide_eq_true_2 by lia.
      rewrite lookup_insert_eq. by rewrite Z.sub_diag.
    + rewrite lookup_insert_ne by done.
      case_bool_decide as H1; case_bool_decide as H2; try lia; [|done].
      replace (Z.to_nat (k - i)) with (S (Z.to_nat (k - (i + 1)))) by lia.
      done.
Qed.

Lemma lazy_upto_sound (close s cap rest : string) :
  Re.lazy_upto close s = Some (cap, rest) →
  s = cap +:+ close +:+ rest ∧ single_line cap = true ∧
  Spec.upto close s = Some (cap, rest).
Proof.
  revert cap. induction s as [|c s IH]; intros cap; simpl.
  - destruct (Py.startswith close "") eqn:E; [|done].
    intros [= <- <-]. destruct close; done.
  - destruct (Py.startswith close (String c s)) eqn:E.
    + intros [= <- <-]. destruct (startswith_inv _ _ E) as [t Ht].
      rewrite Ht at 1 2. by rewrite skip_app.
    + destruct (Ascii.eqb c Re.newline) eqn:Ec; [done|].
      destruct (Re.lazy_upto close s) as [[cap' rest']|] eqn:El; [|done].
      intros [= <- <-]. destruct (IH _ eq_refl) as (-> & Hs & ->).
      simpl. by rewrite Ec.
Qed.

Lemma lazy_upto_complete (close s cap rest : string) :
  Spec.upto close s = Some (cap, rest) → single_line cap = true →
  Re.lazy_upto close s = Some (cap, rest).
Proof.
  revert cap. induction s as [|c s IH]; intros cap; simpl.
  - by destruct (Py.startswith close "").
  - destruct (Py.startswith close (String c s)); [done|].
    destruct (Spec.upto close s) as [[cap' rest']|] eqn:Eu; [|done].
    intros [= <- <-]. simpl. intros [Hc Hs]%andb_true_iff.
    apply negb_true_iff in Hc. rewrite Hc. by rewrite (IH _ eq_refl Hs).
Qed.

Lemma lazy_upto_none (close s : string) :
  Spec.upto close s = None → Re.lazy_upto close s = None.
Proof.
  intros Hu. destruct (Re.lazy_upto close s) as [[cap rest]|] eqn:El; [|done].
  apply lazy_upto_sound in El as (_ & _ & El). congruence.
Qed.

Lemma findall_between_single_line (fuel : nat) (open close s : string) :
  Forall (λ v, single_line v = true) (Re.findall_between_go fuel open close s).
Proof.
  revert s. induction fuel as [|fuel IH]; intros s; simpl; [constructor|].
  destruct (if Py.startswith open s then _ else None) as [[cap rest]|] eqn:E.
  - destruct (Py.startswith open s); [|done].
    apply lazy_upto_sound in E as (_ & Hs & _). by constructor.
  - destruct s; [constructor | apply IH].
Qed.

Lemma upto_skip (close s cap rest : string) :
  Spec.upto close s = Some (cap, rest) → ∃ n, rest = Py.skip n s.
Proof.
  revert cap. induction s as [|c s IH]; intros cap; simpl.
  - destruct (Py.startswith close ""); [|done].
    intros [= <- <-]. by exists (String.length close).
  - destruct (Py.startswith close (String c s)).
    + intros [= <- <-]. by exists (String.length close).
    + destruct (Spec.upto close s) as [[cap' rest']|] eqn:E; [|done].
      intros [= <- <-]. destruct (IH _ eq_refl) as [n ->]. by exists (S n).
Qed.

Lemma attribute_free_skip (n : nat) (s : string) :
  Spec.attribute_free s = true → Spec.attribute_free (Py.skip n s) = true.
Proof.
  unfold Spec.attribute_free. rewrite !forallb_forall. intros H c Hc.
  specialize (H c Hc). apply negb_true_iff in H. apply negb_true_iff.
  destruct (Py.contains _ (Py.skip n s)) eqn:E; [|done].
  by rewrite (contains_skip _ _ _ E) in H.
Qed.

Lemma xml_space_inv (c : ascii) :
  Spec.xml_space c = true → In c [" "; "009"; "010"; "013"]%char.
Proof.
  destruct c as [[] [] [] [] [] [] [] []]; intros H; try discriminate H;
    simpl; auto 6.
Qed.

(** Where no opening tag carries an attribute, the opening tags of the
    spec's reading are the occurrences of the bare tag. *)
Lemma after_open_tag_bare (s : string) :
  Spec.attribute_free s = true →
  Spec.after_open_tag s
  = if Py.startswith "<t>" s then Some (Py.skip 3 s) else None.
Proof.
  intros Hfree. unfold Spec.after_open_tag.
  destruct s as [|a [|b [|c r]]]; cbn [Py.startswith Py.skip].
  - done.
  - destruct (Ascii.eqb "<" a); done.
  - destruct (Ascii.eqb "<" a); [|done]. destruct (Ascii.eqb "t" b); done.
  - destruct (Ascii.eqb "<" a) eqn:Ea; cbn [andb]; [|done].
    destruct (Ascii.eqb "t" b) eqn:Eb; cbn [andb]; [|done].
    rewrite (Ascii.eqb_sym ">" c).
    destruct (Ascii.eqb c ">") eqn:Ec; cbn [andb]; [done|].
    destruct (Spec.xml_space c) eqn:Ews; [|done]. exfalso.
    apply Ascii.eqb_eq in Ea, Eb. subst a b. apply xml_space_inv in Ews.
    unfold Spec.attribute_free in Hfree. rewrite forallb_forall in Hfree.
    specialize (Hfree c Ews). apply negb_true_iff in Hfree.
    rewrite startswith_contains in Hfree; [done|].
    cbn [Py.startswith]. by rewrite !Ascii.eqb_refl.
Qed.

Lemma findall_text_values (fuel : nat) (s : string) :
  Spec.attribute_free s = true →
  Forall (λ v, single_line v = true) (Spec.text_values_go fuel s) →
  Re.findall_between_go fuel "<t>" "</t>" s = Spec.text_values_go fuel s.
Proof.
  revert s. induction fuel as [|fuel IH]; intros s Hfree; [done|].
  cbn [Re.findall_between_go Spec.text_values_go].
  rewrite (after_open_tag_bare s Hfree). change (String.length "<t>") with 3%nat.
  destruct (Py.startswith "<t>" s).
  - destruct (Spec.upto "</t>" (Py.skip 3 s)) as [[cap rest]|] eqn:Eu.
    + intros [Hcap Hrest]%Forall_cons.
      rewrite (lazy_upto_complete _ _ _ _ Eu Hcap). f_equal.
      apply IH; [|done]. destruct (upto_skip _ _ _ _ Eu) as [n ->].
      by do 2 apply attribute_free_skip.
    + rewrite (lazy_upto_none _ _ Eu). destruct s as [|c s]; [done|].
      apply IH. apply (attribute_free_skip 1 (String c s) Hfree).
  - destruct s as [|c s]; [done|].
    apply IH. apply (attribute_free_skip 1 (String c s) Hfree).
Qed.

(** ** readxl *)

Lemma add_sheets_table_free (scrape : string → shared → result grid)
  (f_zip : archive) (sh_names : list string) (sharedString : shared)
  (zip_sheetnames : list string) (i : nat) (db : Database) :
  add_sheets (λ text _, scrape text ∅) f_zip sh_names sharedString i zip_sheetnames db
  = add_sheets scrape f_zip sh_names ∅ i zip_sheetnames db.
Proof.
  revert i db. induction zip_sheetnames as [|z zs IH]; intros i db; simpl; [done|].
  destruct (zip_read f_zip z); simpl; [|done].
  destruct (sh_names !! i); simpl; [|done].
  destruct (scrape _ ∅); simpl; [apply IH | done].
Qed.

Lemma load_sharedStrings_absent (f_zip : archive) :
  "xl/sharedStrings.xml" ∉ NameToInfo_keys f_zip → load_sharedStrings f_zip = Ok ∅.
Proof. intros H. unfold load_sharedStrings. by rewrite bool_decide_eq_false_2. Qed.

(** C5 (at the failing inputs, and the part that holds).
    [get_sharedStrings] gives each match of the text-value pattern, in order
    of appearance, the zero-based index equal to its rank, so that the keys
    of the table are exactly 0..n-1, and no match holds a line feed.  The
    matches are all the texts of the text-value elements of the part when no
    opening tag carries an attribute and no text holds a line feed.  For an
    archive with no shared-strings part, [readxl] does not fail on that
    account and runs with the empty table.  On a part whose first string
    runs over two lines, and on a part whose first string keeps its space
    with an attribute of the opening tag, the first string is left out and
    the second gets index 0. *)
Theorem get_sharedStrings_rank :
  (∀ text : string,
     let tag_t_vals := Re.findall_between "<t>" "</t>" text in
     (∀ i : nat, get_sharedStrings text !! Z.of_nat i = tag_t_vals !! i) ∧
     (∀ k : Z, is_Some (get_sharedStrings text !! k)
               ↔ 0 ≤ k < Z.of_nat (length tag_t_vals)) ∧
     Forall (λ v, single_line v = true) tag_t_vals ∧
     (Spec.attribute_free text = true →
      Forall (λ v, single_line v = true) (Spec.text_values text) →
      tag_t_vals = Spec.text_values text)) ∧
  (∀ (scrape : string → shared → result grid) (fs : filesystem)
     (fn : string) (sheetnames : list string) (f_zip : archive),
     fs !! fn = Some f_zip →
     "xl/sharedStrings.xml" ∉ NameToInfo_keys f_zip →
     load_sharedStrings f_zip = Ok ∅ ∧
     readxl scrape fs fn sheetnames
     = readxl (λ text _, scrape text ∅) fs fn sheetnames) ∧
  (Spec.text_values sst_two_lines = ["a" +:+ String Re.newline "b"; "c"] ∧
   get_sharedStrings sst_two_lines = {[ 0 := "c" ]}) ∧
  (Spec.text_values sst_preserve = [" x"; "y"] ∧
   get_sharedStrings sst_preserve = {[ 0 := "y" ]}).
Proof.
  split_and!; [| |by vm_compute..].
  - intros text vals. split_and!.
    + intros i. unfold get_sharedStrings. fold vals.
      rewrite update_enumerated_lookup, lookup_empty.
      case_bool_decide as H.
      * f_equal. lia.
      * symmetry. apply lookup_ge_None. lia.
    + intros k. unfold get_sharedStrings. fold vals.
      rewrite update_enumerated_lookup, lookup_empty.
      case_bool_decide as H.
      * split; [lia|]. intros _. apply lookup_lt_is_Some. lia.
      * split; [by intros [? ?] | lia].
    + apply findall_between_single_line.
    + apply findall_text_values.
  - intros scrape fs fn sheetnames f_zip Hfs Habsent.
    pose proof (load_sharedStrings_absent _ Habsent) as Hload.
    split; [done|].
    unfold readxl. destruct (check_excelfile fs fn); simpl; [|done].
    rewrite Hfs. simpl.
    destruct (zip_read f_zip "xl/workbook.xml" ≫= get_sheetnames); simpl; [|done].
    destruct (pop_sheetnames _ _ _); simpl; [|done].
    rewrite Hload. simpl. by rewrite add_sheets_table_free.
Qed.

(** ** Splitting *)

Lemma split_go_fuel (a : ascii) (sep' : string) (n m : nat) (s : string) :
  (String.length s < n)%nat → (String.length s < m)%nat →
  Py.split_go n (String a sep') s = Py.split_go m (String a sep') s.
Proof.
  revert m s. induction n as [|n IH]; intros m s Hn Hm; [lia|].
  destruct m as [|m]; [lia|]. simpl.
  destruct s as [|c s]; [done|].
  destruct (Ascii.eqb a c && Py.startswith sep' s).
  - f_equal. pose proof (skip_length_le (String.length sep') s).
    simpl in Hn, Hm. apply IH; lia.
  - f_equal. simpl in Hn, Hm. apply IH; lia.
Qed.

(** The equation [split] satisfies: the loop of [str.split]. *)
Lemma split_eq (a : ascii) (sep' s : string) :
  Py.split (String a sep') s =
    if Py.startswith (String a sep') s
    then "" :: Py.split (String a sep') (Py.skip (String.length (String a sep')) s)
    else match s with
         | "" => [""]
         | String c s' => Py.cons_first c (Py.split (String a sep') s')
         end.
Proof.
  unfold Py.split at 1. cbn [Py.split_go].
  destruct (Py.startswith (String a sep') s) eqn:E.
  - f_equal. destruct s as [|c s]; [done|].
    pose proof (skip_length_le (String.length sep') s).
    apply split_go_fuel; simpl; lia.
  - by destruct s as [|c s].
Qed.

(** A pattern whose first character does not occur again in it cannot
    start inside an earlier text and run over into an occurrence of
    itself. *)
Lemma startswith_tail_cut (a : ascii) (q u w : string) :
  occurs a q = false →
  Py.startswith q (u +:+ String a w) = true → Py.startswith q u = true.
Proof.
  revert u. induction q as [|b q IH]; intros u Hq H; [done|].
  simpl in Hq. apply orb_false_iff in Hq as [Hab Hq].
  destruct u as [|d u].
  - rewrite app_empty_l in H. simpl in H.
    apply andb_true_iff in H as [H _]. rewrite Ascii.eqb_sym in H. congruence.
  - rewrite app_cons in H. simpl in *.
    apply andb_true_iff in H as [-> H]. simpl. by apply IH.
Qed.

Lemma startswith_cut (a : ascii) (sep' u r : string) (c : ascii) :
  occurs a sep' = false →
  Py.startswith (String a sep') (String c u +:+ String a sep' +:+ r)
  = Py.startswith (String a sep') (String c u).
Proof.
  intros Hocc. rewrite app_cons. simpl.
  destruct (Ascii.eqb a c); [|done]. simpl.
  destruct (Py.startswith sep' u) eqn:E.
  - destruct (startswith_inv _ _ E) as [t ->].
    rewrite app_assoc'. apply startswith_app.
  - destruct (Py.startswith sep' (u +:+ _)) eqn:E'; [|done].
    rewrite app_cons in E'. apply startswith_tail_cut in E'; congruence.
Qed.

Lemma contains_false_inv (sub : string) (c : ascii) (s : string) :
  Py.contains sub (String c s) = false →
  Py.startswith sub (String c s) = false ∧ Py.contains sub s = false.
Proof. simpl. by intros [? ?]%orb_false_iff. Qed.

(** Splitting a text at the first occurrence of the separator. *)
Lemma split_app (a : ascii) (sep' u r : string) :
  occurs a sep' = false →
  Py.contains (String a sep') u = false →
  Py.split (String a sep') (u +:+ String a sep' +:+ r)
  = u :: Py.split (String a sep') r.
Proof.
  intros Hocc. induction u as [|c u IH]; intros Hu.
  - by rewrite app_empty_l, split_eq, startswith_app, skip_app.
  - apply contains_false_inv in Hu as [Hs Hu].
    rewrite split_eq, startswith_cut, Hs by done.
    by rewrite app_cons, IH.
Qed.

(** ** Sections between two markers *)

Lemma single_line_app (s t : string) :
  single_line (s +:+ t) = single_line s && single_line t.
Proof.
  induction s as [|c s IH]; [done|].
  rewrite app_cons. simpl. by rewrite IH, andb_assoc.
Qed.

Lemma greedy_upto_absent (close w : string) :
  Py.contains close w = false → Re.greedy_upto close w = None.
Proof.
  induction w as [|c w IH]; simpl.
  - rewrite orb_false_r. by intros ->.
  - intros [Hs Hw]%orb_false_iff. rewrite (IH Hw), Hs.
    by destruct (Ascii.eqb c Re.newline).
Qed.

Lemma contains_after (a : ascii) (p' q w : string) :
  occurs a q = false →
  Py.contains (String a p') (q +:+ w) = Py.contains (String a p') w.
Proof.
  induction q as [|b q IH]; [done|]. simpl.
  intros [Hab Hq]%orb_false_iff. rewrite Hab. simpl. by apply IH.
Qed.

(** The greedy dot-star stops at a closing marker when the line holds no
    later one. *)
Lemma greedy_upto_section (b : ascii) (close' sec post : string) :
  occurs b close' = false →
  single_line sec = true →
  Py.contains (String b close') post = false →
  Re.greedy_upto (String b close') (sec +:+ String b close' +:+ post) = Some sec.
Proof.
  intros Hocc Hsec Hpost. induction sec as [|c sec IH].
  - rewrite app_empty_l, app_cons. cbn [Re.greedy_upto].
    rewrite greedy_upto_absent by (by rewrite contains_after).
    rewrite <- app_cons, startswith_app.
    by destruct (Ascii.eqb b Re.newline).
  - simpl in Hsec. apply andb_true_iff in Hsec as [Hc Hsec].
    apply negb_true_iff in Hc.
    rewrite app_cons. cbn [Re.greedy_upto]. by rewrite Hc, (IH Hsec).
Qed.

Lemma first_between_cons (open close : string) (c : ascii) (s : string) :
  Re.first_between open close (String c s) =
    match (if Py.startswith open (String c s)
           then Re.greedy_upto close (Py.skip (String.length open) (String c s))
           else None) with
    | Some cap => Some cap
    | None => Re.first_between open close s
    end.
Proof. reflexivity. Qed.

Lemma first_between_section (a : ascii) (open' close pre body : string) :
  occurs a open' = false →
  Py.contains (String a open') pre = false →
  is_Some (Re.greedy_upto close body) →
  Re.first_between (String a open') close (pre +:+ String a open' +:+ body)
  = Re.greedy_upto close body.
Proof.
  intros Hocc Hpre [sec Hbody]. induction pre as [|c pre IH].
  - rewrite app_empty_l. destruct (String a open' +:+ body) eqn:E;
      cbn [Re.first_between]; rewrite <- E, startswith_app, skip_app, Hbody; done.
  - apply contains_false_inv in Hpre as [Hs Hpre].
    rewrite app_cons, first_between_cons, <- app_cons.
    rewrite startswith_cut, Hs by done. by apply IH.
Qed.

(** ** The manifest *)

Lemma split_quote_head (s : string) :
  ∃ rest, Py.split (String quote "") s = Re.upto_quote s :: rest.
Proof.
  induction s as [|c s [rest IH]]; [by exists []|].
  rewrite split_eq. cbn [Py.startswith Re.upto_quote].
  rewrite (Ascii.eqb_sym quote c), andb_true_r.
  destruct (Ascii.eqb c quote); [by eexists|].
  rewrite IH. by eexists.
Qed.

(** Element 1 of a split at the double quote is the first quoted text. *)
Lemma split_quote_second (s : string) :
  Py.split (String quote "") s !! 1%nat = Spec.first_quoted s.
Proof.
  induction s as [|c s IH]; [done|].
  rewrite split_eq. cbn [Py.startswith Spec.first_quoted].
  rewrite (Ascii.eqb_sym quote c), andb_true_r.
  destruct (Ascii.eqb c quote).
  - cbn [Py.skip String.length]. by destruct (split_quote_head s) as [rest ->].
  - destruct (split_quote_head s) as [rest E]. rewrite E in *. done.
Qed.

Lemma sheetnames_of_lines_spec (sheet_lines names : list string) :
  sheetnames_of_lines sheet_lines = Ok names
  ↔ Forall2 (λ line name, Spec.first_quoted line = Some name) sheet_lines names.
Proof.
  revert names. induction sheet_lines as [|l ls IH]; intros names; simpl.
  - split; [by intros [= <-]; constructor | by inversion 1].
  - change (dq "'") with (String quote ""). rewrite split_quote_second.
    destruct (Spec.first_quoted l) as [n|] eqn:Hl; simpl.
    + destruct (sheetnames_of_lines ls) as [ns|e]; simpl.
      * split.
        -- intros [= <-]. constructor; [done | by apply IH].
        -- inversion 1 as [|? ? ? ? Hn Hns]; simplify_eq.
           apply IH in Hns. by simplify_eq.
      * split; [done|]. inversion 1 as [|? ? ? ? Hn Hns]; simplify_eq.
        by apply IH in Hns.
    + split; [done|]. inversion 1; simplify_eq.
Qed.

Lemma sheetnames_of_lines_raise (sheet_lines : list string) (e : exception) :
  sheetnames_of_lines sheet_lines = Raise e → e = IndexError.
Proof.
  induction sheet_lines as [|l ls IH]; simpl; [done|].
  destruct (Py.split _ l !! 1%nat); simpl; [|by intros [= <-]].
  destruct (sheetnames_of_lines ls); simpl; [done|]. intros [= <-]. by apply IH.
Qed.

Lemma split_nonempty (sep s : string) : Py.split sep s ≠ [].
Proof.
  unfold Py.split. generalize (S (String.length s)) as fuel.
  intros [|fuel]; simpl; [done|].
  destruct (Py.startswith sep s); [done|].
  destruct s as [|c s]; [done|]. by destruct (Py.split_go fuel sep s).
Qed.

Lemma split_join_decls (decls : list string) :
  Forall (λ d, single_line d = true ∧ Py.contains "/>" d = false) decls →
  Py.but_last (Py.split "/>" (join_decls decls)) = decls ∧
  single_line (join_decls decls) = true.
Proof.
  unfold Py.but_last. induction 1 as [|d ds [Hl Hd] _ [IH1 IH2]]; [done|].
  cbn [join_decls]. split.
  - rewrite split_app by done.
    destruct (Py.split "/>" (join_decls ds)) eqn:E;
      [by apply split_nonempty in E|].
    change (removelast (d :: s :: l)) with (d :: removelast (s :: l)).
    by rewrite IH1.
  - by rewrite !single_line_app, Hl, IH2.
Qed.

(** C6 (amended).  When the pattern finds the sheets section -- an opening
    marker followed on the same line by a closing marker -- [get_sheetnames]
    returns names exactly when every self-closing fragment of the section
    holds a double quote, and then gives one name per fragment, in the order
    of the fragments, each the text between the first double quote of its
    fragment and the next one.  A manifest made of sheet declarations on one
    line, with the markers once, is such a text, and its fragments are the
    declarations in declaration order.  When the pattern finds no section
    the call raises [IndexError], the only exception it ever raises. *)
Theorem get_sheetnames_in_order :
  (∀ text sec names : _,
     Re.first_between "<sheets>" "</sheets>" text = Some sec →
     get_sheetnames text = Ok names
     ↔ Forall2 (λ line name, Spec.first_quoted line = Some name)
               (Py.but_last (Py.split "/>" sec)) names) ∧
  (∀ (pre post : string) (decls : list string),
     Py.contains "<sheets>" pre = false →
     Py.contains "</sheets>" post = false →
     Forall (λ d, single_line d = true ∧ Py.contains "/>" d = false) decls →
     Re.first_between "<sheets>" "</sheets>" (manifest pre decls post)
     = Some (join_decls decls) ∧
     Py.but_last (Py.split "/>" (join_decls decls)) = decls ∧
     ∀ names, get_sheetnames (manifest pre decls post) = Ok names
              ↔ Forall2 (λ d name, Spec.first_quoted d = Some name) decls names) ∧
  (∀ text : string,
     Re.first_between "<sheets>" "</sheets>" text = None →
     get_sheetnames text = Raise IndexError) ∧
  (∀ (text : string) (e : exception),
     get_sheetnames text = Raise e → e = IndexError).
Proof.
  assert (∀ text sec names,
     Re.first_between "<sheets>" "</sheets>" text = Some sec →
     get_sheetnames text = Ok names
     ↔ Forall2 (λ line name, Spec.first_quoted line = Some name)
               (Py.but_last (Py.split "/>" sec)) names) as HA.
  { intros text sec names Hsec. unfold get_sheetnames. rewrite Hsec. simpl.
    apply sheetnames_of_lines_spec. }
  split_and!; [done | | | ].
  - intros pre post decls Hpre Hpost Hdecls.
    destruct (split_join_decls _ Hdecls) as [Hsplit Hline].
    assert (Re.first_between "<sheets>" "</sheets>" (manifest pre decls post)
            = Some (join_decls decls)) as Hsec.
    { unfold manifest.
      pose proof (greedy_upto_section "<" "/sheets>" (join_decls decls) post
                    eq_refl Hline Hpost) as Hg.
      rewrite first_between_section; [done..|]. by rewrite Hg. }
    split_and!; [done..|]. intros names. rewrite (HA _ _ _ Hsec). by rewrite Hsplit.
  - intros text Hnone. unfold get_sheetnames. by rewrite Hnone.
  - intros text e. unfold get_sheetnames.
    destruct (Re.first_between _ _ text); simpl; [|by intros [= <-]].
    apply sheetnames_of_lines_raise.
Qed.

(** ** Cells *)

Lemma first_between_contains (open close s cap : string) :
  Re.first_between open close s = Some cap → Py.contains open s = true.
Proof.
  induction s as [|c s IH].
  - simpl. by destruct (Py.startswith open "").
  - rewrite first_between_cons. cbn [Py.contains].
    destruct (Py.startswith open (String c s)); [done|].
    intros H. simpl. by apply IH.
Qed.

Lemma first_cell_address_found (a : string) (c d : ascii) (r : string) :
  Re.address_start c = true → Ascii.eqb d quote = false →
  is_Some (Re.first_cell_address (a +:+ String c (String d r))).
Proof.
  intros Hc Hd. induction a as [|x a IH].
  - rewrite app_empty_l. simpl. by rewrite Hc, Hd.
  - rewrite app_cons. cbn [Re.first_cell_address].
    destruct (a +:+ String c (String d r)) as [|y t] eqn:E; [by destruct a|].
    by destruct (Re.address_start x && negb (Ascii.eqb y quote)).
Qed.

(** A line with a value token always yields an address: the [v] of the
    value tag can start one. *)
Lemma value_gives_address (line tok : string) :
  Re.first_between "<v>" "</v>" line = Some tok →
  is_Some (Re.first_cell_address line).
Proof.
  intros H. apply first_between_contains, contains_inv in H as (a & b & ->).
  replace (a +:+ "<v>" +:+ b) with ((a +:+ "<") +:+ String "v" (String ">" b))
    by (by rewrite app_assoc').
  by apply first_cell_address_found.
Qed.

Lemma cell_of_line_string (ss : shared) (line addr tok : string) :
  Re.first_cell_address line = Some addr →
  Re.first_between "<v>" "</v>" line = Some tok →
  Py.contains string_marker line = true →
  cell_of_line ss line =
    match Py.int tok with
    | None => Raise (ValueError_int tok)
    | Some i =>
        match ss !! i with
        | None => Raise (KeyError_int i)
        | Some v => Ok (addr, v)
        end
    end.
Proof.
  intros Ha Hv Hm. unfold cell_of_line. rewrite Ha, Hv, Hm. simpl.
  destruct (Py.int tok) as [i|]; simpl; [|done]. by destruct (ss !! i).
Qed.

Lemma cell_of_line_literal (ss : shared) (line addr tok : string) :
  Re.first_cell_address line = Some addr →
  Re.first_between "<v>" "</v>" line = Some tok →
  Py.contains string_marker line = false →
  cell_of_line ss line = Ok (addr, tok).
Proof. intros Ha Hv Hm. unfold cell_of_line. by rewrite Ha, Hv, Hm. Qed.

Lemma cell_of_line_address (ss : shared) (line : string) (cell : string * string) :
  cell_of_line ss line = Ok cell → Re.first_cell_address line = Some cell.1.
Proof.
  unfold cell_of_line. destruct (Re.first_cell_address line) as [a|]; [|done].
  simpl. destruct (Re.first_between _ _ line) as [tok|]; [|done]. simpl.
  destruct (if Py.contains string_marker line then _ else _); [|done].
  simpl. by intros [= <-].
Qed.

(** ** The grid *)

Lemma scrape_lines_spec (ss : shared) (lines : list string) (data g : grid) :
  scrape_lines ss lines data = Ok g
  ↔ ∃ cells, Forall2 (λ line cell, cell_of_line ss line = Ok cell) lines cells
             ∧ g = put_cells data cells.
Proof.
  revert data g. induction lines as [|l ls IH]; intros data g; simpl.
  - split.
    + intros [= <-]. exists []. by split; [constructor|].
    + intros (cells & Hc & ->). by inversion Hc.
  - destruct (cell_of_line ss l) as [cell|e] eqn:El; simpl.
    + rewrite IH. split.
      * intros (cells & Hc & ->). exists (cell :: cells).
        split; [by constructor | reflexivity].
      * intros (cells & Hc & ->). inversion Hc as [|? c' ? cs' Hl Hcs]; subst.
        rewrite El in Hl. injection Hl as <-.
        exists cs'. split; [done | reflexivity].
    + split; [done|]. intros (cells & Hc & _).
      inversion Hc as [|? c' ? cs' Hl Hcs]; subst. congruence.
Qed.

Lemma scrape_lines_raise (ss : shared) (before after : list string)
  (line : string) (e : exception) (data : grid) :
  cell_of_line ss line = Raise e →
  (∃ e', scrape_lines ss (before ++ line :: after) data = Raise e') ∧
  (Forall (λ l, is_Ok (cell_of_line ss l)) before →
   scrape_lines ss (before ++ line :: after) data = Raise e).
Proof.
  intros Hl. revert data. induction before as [|b bs IH]; intros data; simpl.
  - rewrite Hl. simpl. eauto.
  - destruct (cell_of_line ss b) as [cell|e0] eqn:Eb; simpl.
    + destruct (IH (<[cell.1 := cell.2]> data)) as [H1 H2]. split; [done|].
      intros [_ Hbs]%Forall_cons. by apply H2.
    + split; [eauto|]. intros [[? ?] _]%Forall_cons. congruence.
Qed.

Lemma put_all_dom {V : Type} (kvs : list (string * V)) (m : gmap string V) :
  dom (put_all m kvs) = dom m ∪ list_to_set kvs.*1.
Proof.
  revert m. induction kvs as [|c cs IH]; intros m; simpl.
  - by rewrite (right_id_L ∅ (∪)).
  - unfold put_all in *. simpl.
    by rewrite IH, dom_insert_L, (comm_L (∪) {[c.1]}), (assoc_L (∪)).
Qed.

Lemma put_all_lookup_other {V : Type} (kvs : list (string * V))
  (m : gmap string V) (a : string) :
  a ∉ kvs.*1 → put_all m kvs !! a = m !! a.
Proof.
  revert m. induction kvs as [|c cs IH]; intros m Ha; [done|].
  apply not_elem_of_cons in Ha as [Hc Ha].
  unfold put_all in *. simpl. rewrite IH by done.
  by apply lookup_insert_ne.
Qed.

(** The last pair with a given key decides the value at it. *)
Lemma put_all_last_wins {V : Type} (kvs : list (string * V))
  (m : gmap string V) (i : nat) (kv : string * V) :
  kvs !! i = Some kv →
  (∀ j kv', (i < j)%nat → kvs !! j = Some kv' → kv'.1 ≠ kv.1) →
  put_all m kvs !! kv.1 = Some kv.2.
Proof.
  revert m i. induction kvs as [|c cs IH]; intros m i Hi Hlater; [done|].
  unfold put_all in *. simpl. destruct i as [|i]; simpl in Hi.
  - simplify_eq. fold (put_all (<[kv.1 := kv.2]> m) cs).
    rewrite put_all_lookup_other; [by rewrite lookup_insert_eq|].
    intros (j & Hj)%list_elem_of_lookup_1. rewrite list_lookup_fmap in Hj.
    destruct (cs !! j) as [kv'|] eqn:E; simplify_eq/=.
    by eapply (Hlater (S j) kv'); [lia | done |].
  - apply (IH _ i); [done|]. intros j kv' Hj. apply (Hlater (S j)). lia.
Qed.

Lemma size_list_to_set_remove_dups (l : list string) :
  size (list_to_set (C := gset string) l) = length (remove_dups l).
Proof.
  induction l as [|x l IH]; [done|]. simpl. case_decide as Hx.
  - rewrite <- IH. f_equal.
    apply (elem_of_list_to_set (C := gset string)) in Hx.
    apply set_eq. intros y. rewrite elem_of_union, elem_of_singleton.
    split; [by intros [->|?] | by right].
  - simpl. rewrite <- IH, size_union, size_singleton; [done|].
    intros y ->%elem_of_singleton Hy. by apply elem_of_list_to_set in Hy.
Qed.

(** C3.  In [scrape_worksheetxml] the type of a cell is decided by the
    marker in its fragment.  With the marker, the value stored at the cell's
    address is the entry of the shared-string table at the integer value of
    the value token; without it, the value token itself.  With the table
    Alice, Bob, a cell A1 with the marker and token 1 gives A1 = Bob; a cell
    B2 without the marker and with token 42 gives B2 = 42. *)
Theorem cell_type_by_marker :
  (∀ (ss : shared) (line addr tok : string),
     Re.first_cell_address line = Some addr →
     Re.first_between "<v>" "</v>" line = Some tok →
     (Py.contains string_marker line = true →
      ∀ i v, Py.int tok = Some i → ss !! i = Some v →
             cell_of_line ss line = Ok (addr, v)) ∧
     (Py.contains string_marker line = false →
      cell_of_line ss line = Ok (addr, tok))) ∧
  (∀ (ss : shared) (lines : list string) (line : string) (data g : grid)
     (cell : string * string),
     scrape_lines ss (lines ++ [line]) data = Ok g →
     cell_of_line ss line = Ok cell → g !! cell.1 = Some cell.2) ∧
  scrape_worksheetxml
    (worksheet "<row r='1'><c r='A1' t='s'><v>1</v></c></row>") (Some two_names)
  = Ok {[ "A1" := "Bob" ]} ∧
  scrape_worksheetxml
    (worksheet "<row r='2'><c r='B2'><v>42</v></c></row>") (Some two_names)
  = Ok {[ "B2" := "42" ]}.
Proof.
  split_and!.
  - intros ss line addr tok Ha Hv. split.
    + intros Hm i v Hi Hss. rewrite (cell_of_line_string _ _ _ _ Ha Hv Hm).
      by rewrite Hi, Hss.
    + intros Hm. by apply cell_of_line_literal.
  - intros ss lines line data g cell (cells & Hcells & ->)%scrape_lines_spec Hl.
    apply Forall2_app_inv_l in Hcells as (cs & c1 & Hcs & Hc1 & ->).
    inversion Hc1 as [|? c ? c2 Hc Hc2]; subst. inversion Hc2; subst.
    rewrite Hl in Hc. injection Hc as <-.
    apply (put_all_last_wins _ _ (length cs)).
    + by rewrite list_lookup_middle.
    + intros j cell' Hj Hlook. apply lookup_lt_Some in Hlook.
      rewrite length_app in Hlook. simpl in Hlook. lia.
  - vm_compute. reflexivity.
  - vm_compute. reflexivity.
Qed.

Lemma upto_quote_app (x rest : string) :
  occurs quote x = false → Re.upto_quote (x +:+ String quote rest) = x.
Proof.
  induction x as [|c x IH]; [done|].
  rewrite app_cons. cbn [occurs Re.upto_quote].
  intros [Hc Hx]%orb_false_iff. rewrite Ascii.eqb_sym, Hc. by rewrite IH.
Qed.

(** The address found in a fragment that opens with a quoted address of two
    characters or more, the first of which may start an address, is that
    address. *)
Lemma first_cell_address_quoted (a b : ascii) (r rest : string) :
  Re.address_start a = true →
  occurs quote (String a (String b r)) = false →
  Re.first_cell_address
    (String quote (String a (String b r) +:+ String quote rest))
  = Some (String a (String b r)).
Proof.
  intros Ha Hq. pose proof (upto_quote_app _ rest Hq) as Hu.
  cbn [occurs] in Hq. apply orb_false_iff in Hq as [Hqa [Hqb _]%orb_false_iff].
  rewrite !app_cons in *. cbn [Re.upto_quote] in Hu.
  rewrite (Ascii.eqb_sym a quote), Hqa in Hu. injection Hu as Hu.
  cbn [Re.first_cell_address]. change (Re.address_start quote) with false.
  rewrite Ha, (Ascii.eqb_sym b quote), Hqb. cbn [andb negb Re.upto_quote].
  by rewrite Hu.
Qed.

(** C4.  The grid [scrape_worksheetxml] returns for a worksheet part has as
    many entries as there are distinct cell addresses among the cell
    fragments of the part's sheet data, its keys are these addresses, and at
    each address it holds the value of the last fragment with that address.
    The address of a fragment is the one its cell declares, for an address
    of two characters or more that does not start with one of the
    characters the address pattern leaves out. *)
Theorem scrape_count_distinct (text : string) (ss : option shared)
  (sec : string) (g : grid) :
  Re.first_between "<sheetData>" "</sheetData>" text = Some sec →
  scrape_worksheetxml text ss = Ok g →
  (∃ cells : list (string * string),
     Forall2 (λ line cell, cell_of_line (default ∅ ss) line = Ok cell
                           ∧ Re.first_cell_address line = Some cell.1)
             (tail (Py.split "<c r=" sec)) cells ∧
     size g = length (remove_dups cells.*1) ∧
     dom g = list_to_set cells.*1 ∧
     ∀ i cell, cells !! i = Some cell →
               (∀ j cell', (i < j)%nat → cells !! j = Some cell' →
                           cell'.1 ≠ cell.1) →
               g !! cell.1 = Some cell.2) ∧
  (∀ (a b : ascii) (r rest : string),
     Re.address_start a = true →
     occurs quote (String a (String b r)) = false →
     Re.first_cell_address
       (String quote (String a (String b r) +:+ String quote rest))
     = Some (String a (String b r))).
Proof.
  intros Hsec. unfold scrape_worksheetxml. rewrite Hsec. simpl.
  intros (cells & Hcells & ->)%scrape_lines_spec.
  split; [|apply first_cell_address_quoted]. exists cells. split_and!.
  - eapply Forall2_impl; [done|]. intros line cell Hl. simpl in Hl.
    split; [done|]. by eapply cell_of_line_address.
  - rewrite <- size_list_to_set_remove_dups, <- size_dom. f_equal.
    unfold put_cells. by rewrite put_all_dom, dom_empty_L, (left_id_L ∅ (∪)).
  - unfold put_cells. by rewrite put_all_dom, dom_empty_L, (left_id_L ∅ (∪)).
  - intros i cell. apply put_all_last_wins.
Qed.

(** ** Integer tokens *)

Lemma lstrip_occurs (c : ascii) (s : string) :
  occurs c s = true → occurs c (Py.lstrip s) = true ∨ Py.isspace c = true.
Proof.
  induction s as [|x s IH]; [done|]. cbn [Py.lstrip].
  destruct (Py.isspace x) eqn:Ex; [|by left].
  cbn [occurs]. intros [Hc|Hs]%orb_true_iff; [|by apply IH].
  apply Ascii.eqb_eq in Hc as ->. by right.
Qed.

Lemma rstrip_occurs (c : ascii) (s : string) :
  occurs c s = true → occurs c (Py.rstrip s) = true ∨ Py.isspace c = true.
Proof.
  induction s as [|x s IH]; [done|]. cbn [Py.rstrip occurs].
  intros [Hc|Hs]%orb_true_iff.
  - apply Ascii.eqb_eq in Hc as ->.
    destruct (Py.rstrip s); [|by left; simpl; rewrite Ascii.eqb_refl].
    destruct (Py.isspace x) eqn:Ex; [by right|].
    left. simpl. by rewrite Ascii.eqb_refl.
  - destruct (IH Hs) as [Hr|?]; [|by right]. left.
    destruct (Py.rstrip s); [done|]. cbn [occurs] in *. by rewrite Hr, orb_true_r.
Qed.

Lemma int_digits_chars (s : string) (acc z : Z) (us : bool) (c : ascii) :
  Py.int_digits acc us s = Some z → occurs c s = true →
  is_Some (Py.digit c) ∨ Ascii.eqb c "_" = true.
Proof.
  revert acc us. induction s as [|x s IH]; intros acc us; [done|].
  cbn [Py.int_digits occurs]. intros H [Hc|Hs]%orb_true_iff.
  - apply Ascii.eqb_eq in Hc as ->. destruct (Py.digit x); [by left; eexists|].
    destruct (Ascii.eqb x "_"); [by right | done].
  - destruct (Py.digit x); [by eapply IH|].
    destruct (Ascii.eqb x "_" && negb us); [by eapply IH | done].
Qed.

Lemma int_unsigned_chars (s : string) (z : Z) (c : ascii) :
  Py.int_unsigned s = Some z → occurs c s = true →
  is_Some (Py.digit c) ∨ Ascii.eqb c "_" = true.
Proof.
  destruct s as [|x s]; [done|]. cbn [Py.int_unsigned occurs].
  destruct (Py.digit x) eqn:Ex; [|done]. intros H [Hc|Hs]%orb_true_iff.
  - apply Ascii.eqb_eq in Hc as ->. left. by eexists.
  - by eapply int_digits_chars.
Qed.

(** A text that [int] accepts is made of digits, underscores, signs and
    white space only. *)
Lemma int_chars (tok : string) (z : Z) (c : ascii) :
  Py.int tok = Some z → occurs c tok = true → Py.int_char c = true.
Proof.
  unfold Py.int, Py.int_char. intros Hint Hc.
  destruct (lstrip_occurs _ _ Hc) as [Hl|Hsp]; [|by rewrite Hsp, orb_true_r].
  destruct (rstrip_occurs _ _ Hl) as [Hr|Hsp]; [|by rewrite Hsp, orb_true_r].
  destruct (Py.rstrip (Py.lstrip tok)) as [|x r] eqn:E; [done|].
  assert (∀ s z', Py.int_unsigned s = Some z' → occurs c s = true →
                  bool_decide (is_Some (Py.digit c)) || Ascii.eqb c "_" = true)
    as Hun.
  { intros s z' Hs Hocc. destruct (int_unsigned_chars _ _ _ Hs Hocc) as [Hd| ->].
    - by rewrite bool_decide_eq_true_2.
    - by rewrite orb_true_r. }
  destruct (Ascii.eqb x "-") eqn:Em; [|destruct (Ascii.eqb x "+") eqn:Ep].
  - apply Ascii.eqb_eq in Em as ->. cbn [occurs] in Hr.
    apply orb_true_iff in Hr as [->|Hr]; [by rewrite !orb_true_r|].
    destruct (Py.int_unsigned r) as [z'|] eqn:Eu; [|done].
    by rewrite (Hun _ _ Eu Hr).
  - apply Ascii.eqb_eq in Ep as ->. cbn [occurs] in Hr.
    apply orb_true_iff in Hr as [->|Hr]; [by rewrite !orb_true_r|].
    by rewrite (Hun _ _ Hint Hr).
  - by rewrite (Hun _ _ Hint Hr).
Qed.

(** ** Running readxl *)

Lemma add_sheets_scrape_raise (scrape : string → shared → result grid)
  (f_zip : archive) (sh_names : list string) (ss : shared)
  (parts : list string) (i : nat) (db : Database)
  (part text : string) (e : exception) :
  part ∈ parts → zip_read f_zip part = Ok text → scrape text ss = Raise e →
  ∃ e', add_sheets scrape f_zip sh_names ss i parts db = Raise e'.
Proof.
  intros Hin Hread Hscrape. revert i db.
  induction parts as [|p ps IH]; intros i db; [by apply elem_of_nil in Hin|].
  simpl. destruct (zip_read f_zip p) as [t|] eqn:Ep; simpl; [|eauto].
  destruct (sh_names !! i); simpl; [|eauto].
  destruct (scrape t ss) eqn:Es; simpl; [|eauto].
  apply elem_of_cons in Hin as [->|Hin]; [congruence | by apply IH].
Qed.

(** [readxl] once the file is checked and opened and the manifest is read. *)
Lemma readxl_opened (scrape : string → shared → result grid) (fs : filesystem)
  (fn : string) (sheetnames : list string) (f_zip : archive)
  (sh_names : list string) :
  check_excelfile fs fn = Ok () →
  fs !! fn = Some f_zip →
  zip_read f_zip "xl/workbook.xml" ≫= get_sheetnames = Ok sh_names →
  readxl scrape fs fn sheetnames =
    (parts ← pop_sheetnames sh_names (get_zipsheetnames f_zip) sheetnames;
     ss ← load_sharedStrings f_zip;
     add_sheets scrape f_zip sh_names ss 0 parts ∅).
Proof.
  intros Hcheck Hfs Hnames. unfold readxl.
  rewrite Hcheck. simpl. rewrite Hfs. simpl. by rewrite Hnames.
Qed.

(** A failure of the scraper on a part that is read makes [readxl] fail. *)
Lemma readxl_scrape_raise (scrape : string → shared → result grid)
  (fs : filesystem) (fn : string) (sheetnames : list string) (f_zip : archive)
  (sh_names parts : list string) (ss : shared) (part text : string)
  (e : exception) :
  fs !! fn = Some f_zip →
  zip_read f_zip "xl/workbook.xml" ≫= get_sheetnames = Ok sh_names →
  pop_sheetnames sh_names (get_zipsheetnames f_zip) sheetnames = Ok parts →
  load_sharedStrings f_zip = Ok ss →
  part ∈ parts → zip_read f_zip part = Ok text → scrape text ss = Raise e →
  ∃ e', readxl scrape fs fn sheetnames = Raise e'.
Proof.
  intros Hfs Hnames Hpop Hload Hin Hread Hscrape. unfold readxl.
  destruct (check_excelfile fs fn); simpl; [|eauto].
  rewrite Hfs. simpl. rewrite Hnames. simpl. rewrite Hpop. simpl.
  rewrite Hload. simpl. by eapply add_sheets_scrape_raise.
Qed.

Lemma scrape_worksheetxml_raise (text : string) (ss : shared) (sec : string)
  (before after : list string) (line : string) (e : exception) :
  Re.first_between "<sheetData>" "</sheetData>" text = Some sec →
  tail (Py.split "<c r=" sec) = before ++ line :: after →
  cell_of_line ss line = Raise e →
  (∃ e', scrape_worksheetxml text (Some ss) = Raise e') ∧
  (Forall (λ l, is_Ok (cell_of_line ss l)) before →
   scrape_worksheetxml text (Some ss) = Raise e).
Proof.
  intros Hsec Hlines Hline. unfold scrape_worksheetxml.
  rewrite Hsec. simpl. rewrite Hlines. by apply scrape_lines_raise.
Qed.

(** C7.  A string-typed cell whose value token is an integer that is no key
    of the shared-string table makes the scrape fail with the [KeyError] of
    the lookup: the worksheet yields no grid, the error is that [KeyError]
    when the cells before it scrape, and a [readxl] that reads the part
    returns no Database.  Index 5 with a table of three entries is such a
    case. *)
Theorem unresolved_shared_string_raises :
  (∀ (ss : shared) (line tok : string) (i : Z),
     Re.first_between "<v>" "</v>" line = Some tok →
     Py.contains string_marker line = true →
     Py.int tok = Some i → ss !! i = None →
     cell_of_line ss line = Raise (KeyError_int i)) ∧
  (∀ (text : string) (ss : shared) (sec : string) (before after : list string)
     (line tok : string) (i : Z),
     Re.first_between "<sheetData>" "</sheetData>" text = Some sec →
     tail (Py.split "<c r=" sec) = before ++ line :: after →
     Re.first_between "<v>" "</v>" line = Some tok →
     Py.contains string_marker line = true →
     Py.int tok = Some i → ss !! i = None →
     (∃ e, scrape_worksheetxml text (Some ss) = Raise e) ∧
     (Forall (λ l, is_Ok (cell_of_line ss l)) before →
      scrape_worksheetxml text (Some ss) = Raise (KeyError_int i))) ∧
  (∀ (scrape : string → shared → result grid) (fs : filesystem) (fn : string)
     (sheetnames : list string) (f_zip : archive) (sh_names parts : list string)
     (ss : shared) (part text : string) (e : exception),
     fs !! fn = Some f_zip →
     zip_read f_zip "xl/workbook.xml" ≫= get_sheetnames = Ok sh_names →
     pop_sheetnames sh_names (get_zipsheetnames f_zip) sheetnames = Ok parts →
     load_sharedStrings f_zip = Ok ss →
     part ∈ parts → zip_read f_zip part = Ok text → scrape text ss = Raise e →
     ∃ e', readxl scrape fs fn sheetnames = Raise e') ∧
  scrape_worksheetxml
    (worksheet "<row r='1'><c r='A1' t='s'><v>5</v></c></row>") (Some three_names)
  = Raise (KeyError_int 5).
Proof.
  assert (∀ (ss : shared) (line tok : string) (i : Z),
     Re.first_between "<v>" "</v>" line = Some tok →
     Py.contains string_marker line = true →
     Py.int tok = Some i → ss !! i = None →
     cell_of_line ss line = Raise (KeyError_int i)) as Hcell.
  { intros ss line tok i Hv Hm Hi Hss.
    destruct (value_gives_address _ _ Hv) as [addr Ha].
    rewrite (cell_of_line_string _ _ _ _ Ha Hv Hm). by rewrite Hi, Hss. }
  split_and!; [done | | | by vm_compute].
  - intros text ss sec before after line tok i Hsec Hlines Hv Hm Hi Hss.
    eapply scrape_worksheetxml_raise; [done..|]. by eapply Hcell.
  - intros. by eapply readxl_scrape_raise.
Qed.

(** C10.  A string-typed cell whose value token [int] does not accept makes
    the scrape fail with the [ValueError] of the conversion, whatever the
    shared-string table holds: the token is not stored as a literal and no
    [KeyError] is raised for it.  A token that holds any character other
    than a digit, an underscore, a sign or white space, and the empty token,
    are not accepted. *)
Theorem non_integer_token_raises :
  (∀ (ss : shared) (line tok : string),
     Re.first_between "<v>" "</v>" line = Some tok →
     Py.contains string_marker line = true →
     Py.int tok = None →
     cell_of_line ss line = Raise (ValueError_int tok)) ∧
  (∀ (text : string) (ss : shared) (sec : string) (before after : list string)
     (line tok : string),
     Re.first_between "<sheetData>" "</sheetData>" text = Some sec →
     tail (Py.split "<c r=" sec) = before ++ line :: after →
     Re.first_between "<v>" "</v>" line = Some tok →
     Py.contains string_marker line = true →
     Py.int tok = None →
     (∃ e, scrape_worksheetxml text (Some ss) = Raise e) ∧
     (Forall (λ l, is_Ok (cell_of_line ss l)) before →
      scrape_worksheetxml text (Some ss) = Raise (ValueError_int tok))) ∧
  (∀ (tok : string) (c : ascii),
     occurs c tok = true → Py.int_char c = false → Py.int tok = None) ∧
  Py.int "" = None ∧
  scrape_worksheetxml
    (worksheet "<row r='1'><c r='A1' t='s'><v>1.5</v></c></row>") (Some two_names)
  = Raise (ValueError_int "1.5").
Proof.
  assert (∀ (ss : shared) (line tok : string),
     Re.first_between "<v>" "</v>" line = Some tok →
     Py.contains string_marker line = true →
     Py.int tok = None →
     cell_of_line ss line = Raise (ValueError_int tok)) as Hcell.
  { intros ss line tok Hv Hm Hi.
    destruct (value_gives_address _ _ Hv) as [addr Ha].
    rewrite (cell_of_line_string _ _ _ _ Ha Hv Hm). by rewrite Hi. }
  split_and!; [done | | | done | by vm_compute].
  - intros text ss sec before after line tok Hsec Hlines Hv Hm Hi.
    eapply scrape_worksheetxml_raise; [done..|]. by eapply Hcell.
  - intros tok c Hocc Hc. destruct (Py.int tok) as [z|] eqn:E; [|done].
    pose proof (int_chars _ _ _ E Hocc). congruence.
Qed.

(** ** Worksheet parts *)

Lemma get_zipsheetnames_elem (f_zip : archive) (name : string) :
  name ∈ get_zipsheetnames f_zip
  ↔ name ∈ NameToInfo_keys f_zip ∧ Py.contains "sheet" name = true.
Proof.
  unfold get_zipsheetnames. rewrite !list_elem_of_In. apply filter_In.
Qed.

Lemma get_zipsheetnames_sublist (f_zip : archive) :
  sublist (get_zipsheetnames f_zip) (NameToInfo_keys f_zip).
Proof.
  unfold get_zipsheetnames. induction (NameToInfo_keys f_zip) as [|n ns IH]; simpl.
  - constructor.
  - destruct (Py.contains "sheet" n); by constructor.
Qed.

Lemma pop_sublist (i : nat) (l l' : list string) :
  Py.pop i l = Some l' → sublist l' l.
Proof.
  revert i l'. induction l as [|y l IH]; intros i l'; [done|].
  destruct i as [|i]; simpl.
  - intros [= <-]. by apply sublist_cons.
  - destruct (Py.pop i l) as [l0|] eqn:E; [|done]. intros [= <-].
    apply sublist_skip. by eapply IH.
Qed.

Lemma pop_sheetnames_sublist (sh_names parts sheetnames parts' : list string) :
  pop_sheetnames sh_names parts sheetnames = Ok parts' → sublist parts' parts.
Proof.
  revert parts. induction sheetnames as [|sn sns IH]; intros parts; simpl.
  - by intros [= <-].
  - destruct (Py.index sn sh_names) as [i|]; [|done].
    destruct (Py.pop i parts) as [ps|] eqn:E; [|done]. simpl. intros H.
    etrans; [by apply IH | by eapply pop_sublist].
Qed.

Lemma zip_read_key (f_zip : archive) (name : string) :
  name ∈ NameToInfo_keys f_zip → is_Ok (zip_read f_zip name).
Proof.
  unfold NameToInfo_keys. induction f_zip as [|[n t] f IH]; simpl.
  - by intros ?%elem_of_nil.
  - destruct (String.eqb n name) eqn:E; [by eexists|].
    apply String.eqb_neq in E. intros [?|?]%elem_of_cons; [congruence | auto].
Qed.

Lemma load_sharedStrings_ok (f_zip : archive) : is_Ok (load_sharedStrings f_zip).
Proof.
  unfold load_sharedStrings. case_bool_decide as H; [|by eexists].
  destruct (zip_read_key _ _ H) as [t ->]. by eexists.
Qed.

Lemma add_sheets_ext (scrape1 scrape2 : string → shared → result grid)
  (f_zip : archive) (sh_names : list string) (ss : shared)
  (parts : list string) (i : nat) (db : Database) :
  (∀ part text, part ∈ parts → zip_read f_zip part = Ok text →
                scrape1 text ss = scrape2 text ss) →
  add_sheets scrape1 f_zip sh_names ss i parts db
  = add_sheets scrape2 f_zip sh_names ss i parts db.
Proof.
  revert i db. induction parts as [|p ps IH]; intros i db Hext; [done|].
  simpl. destruct (zip_read f_zip p) as [t|] eqn:Ep; simpl; [|done].
  destruct (sh_names !! i); simpl; [|done].
  rewrite (Hext p t) by (done || by left).
  destruct (scrape2 t ss); simpl; [|done].
  apply IH. intros part text Hin. apply Hext. by right.
Qed.

Lemma worksheet_part_sheet (name : string) :
  Spec.worksheet_part name = true → Py.contains "sheet" name = true.
Proof.
  unfold Spec.worksheet_part. intros [Hstart _]%andb_true_iff.
  destruct (startswith_inv _ _ Hstart) as [t ->].
  change ("xl/worksheets/sheet" +:+ t)
    with ("xl/work" +:+ "sheet" +:+ ("s/sheet" +:+ t)).
  apply contains_intro.
Qed.

Lemma worksheet_parts_selected (names : list string) :
  sublist (List.filter Spec.worksheet_part names)
          (List.filter (Py.contains "sheet") names).
Proof.
  induction names as [|name names IH]; [done|]. cbn [List.filter].
  destruct (Spec.worksheet_part name) eqn:Hpart.
  - rewrite (worksheet_part_sheet name Hpart). by apply sublist_skip.
  - destruct (Py.contains "sheet" name); [by apply sublist_cons | done].
Qed.

Lemma worksheet_parts_only (names : list string) :
  (∀ name, name ∈ names → Py.contains "sheet" name = true →
           Spec.worksheet_part name = true) →
  List.filter (Py.contains "sheet") names
  = List.filter Spec.worksheet_part names.
Proof.
  induction names as [|name names IH]; intros Hall; [done|]. cbn [List.filter].
  rewrite IH by (intros n Hn; apply Hall; by right).
  destruct (Py.contains "sheet" name) eqn:Hsheet.
  - rewrite (Hall name) by (done || by left). done.
  - destruct (Spec.worksheet_part name) eqn:Hpart; [|done].
    by rewrite (worksheet_part_sheet name Hpart) in Hsheet.
Qed.

(** C9 (at the failing inputs, and the part that holds).  The entries
    [get_zipsheetnames] selects are entries of the archive in the order in
    which the archive lists them, and every entry with the name of a
    worksheet part is among them, in that order; they are exactly the
    entries with the name of a worksheet part when no other entry name holds
    the text sheet.  The parts [readxl] goes on to scrape are among the
    selected ones, in that order, and the outcome of [readxl] depends on the
    scraper only through what it does on these entries.  The relationships
    entry of a worksheet part is selected, though it has not the name of a
    worksheet part, and [readxl] then fails with [IndexError] on a workbook
    of one sheet; a document whose name holds sheet is selected and comes
    back as the second sheet of a workbook. *)
Theorem get_zipsheetnames_selects :
  (∀ f_zip : archive,
     sublist (get_zipsheetnames f_zip) (NameToInfo_keys f_zip) ∧
     sublist (List.filter Spec.worksheet_part (NameToInfo_keys f_zip))
             (get_zipsheetnames f_zip) ∧
     ((∀ name, name ∈ NameToInfo_keys f_zip → Py.contains "sheet" name = true →
               Spec.worksheet_part name = true) →
      get_zipsheetnames f_zip
      = List.filter Spec.worksheet_part (NameToInfo_keys f_zip))) ∧
  (∀ (f_zip : archive) (sh_names sheetnames parts : list string),
     pop_sheetnames sh_names (get_zipsheetnames f_zip) sheetnames = Ok parts →
     sublist parts (get_zipsheetnames f_zip)) ∧
  (∀ (scrape1 scrape2 : string → shared → result grid) (fs : filesystem)
     (fn : string) (sheetnames : list string) (f_zip : archive),
     fs !! fn = Some f_zip →
     (∀ name text ss, name ∈ get_zipsheetnames f_zip →
                      zip_read f_zip name = Ok text →
                      scrape1 text ss = scrape2 text ss) →
     readxl scrape1 fs fn sheetnames = readxl scrape2 fs fn sheetnames) ∧
  (get_zipsheetnames book_rels
   = ["xl/worksheets/sheet1.xml"; "xl/worksheets/_rels/sheet1.xml.rels"] ∧
   Spec.worksheet_part "xl/worksheets/_rels/sheet1.xml.rels" = false ∧
   readxl scrape_py (disk book_rels) "book.xlsx" [] = Raise IndexError) ∧
  (get_zipsheetnames book_cheatsheet
   = ["xl/worksheets/sheet1.xml"; "docs/cheatsheet.txt"] ∧
   Spec.worksheet_part "docs/cheatsheet.txt" = false ∧
   readxl scrape_py (disk book_cheatsheet) "book.xlsx" []
   = Ok (<["Sheet1" := {["A1" := "1"]}]> {["Sheet2" := {["A1" := "9"]}]})).
Proof.
  split_and!; try by vm_compute.
  - intros f_zip. split_and!.
    + apply get_zipsheetnames_sublist.
    + apply worksheet_parts_selected.
    + apply worksheet_parts_only.
  - intros f_zip sh_names sheetnames parts. apply pop_sheetnames_sublist.
  - intros scrape1 scrape2 fs fn sheetnames f_zip Hfs Hext. unfold readxl.
    destruct (check_excelfile fs fn); simpl; [|done]. rewrite Hfs. simpl.
    destruct (zip_read f_zip "xl/workbook.xml" ≫= get_sheetnames); simpl; [|done].
    destruct (pop_sheetnames _ _ _) as [parts|] eqn:Hpop; simpl; [|done].
    destruct (load_sharedStrings f_zip) as [ss|]; simpl; [|done].
    apply add_sheets_ext. intros part text Hin. apply Hext.
    eapply elem_of_sublist; [done | by eapply pop_sheetnames_sublist].
Qed.

(** ** Assembly *)

Section assembly.

Context (scrape : string → shared → result grid) (f_zip : archive)
  (sh_names : list string) (ss : shared).

Lemma add_sheets_ok (parts : list string) (i : nat) (db : Database) :
  (i + length parts ≤ length sh_names)%nat →
  (∀ part, part ∈ parts → ∃ g, scraped scrape f_zip ss part g) →
  ∃ grids, Forall2 (scraped scrape f_zip ss) parts grids ∧
    add_sheets scrape f_zip sh_names ss i parts db
    = Ok (put_all db (zip (take (length parts) (drop i sh_names)) grids)).
Proof.
  revert i db. induction parts as [|p ps IH]; intros i db Hlen Hall.
  - exists []. split; [constructor|]. by rewrite take_0.
  - destruct (Hall p) as (g & text & Hread & Hscrape); [by left|].
    simpl in Hlen. destruct (lookup_lt_is_Some_2 sh_names i) as [name Hname]; [lia|].
    destruct (IH (S i) (add_ws name g db)) as (grids & Hgrids & Hrun).
    { lia. } { intros part Hin. apply Hall. by right. }
    exists (g :: grids). split; [constructor; [by exists text | done]|].
    simpl. rewrite Hread. simpl. rewrite Hname. simpl. rewrite Hscrape. simpl.
    rewrite Hrun. by rewrite (drop_S _ _ _ Hname).
Qed.

Lemma add_sheets_short (parts : list string) (i : nat) (db : Database) :
  (i ≤ length sh_names < i + length parts)%nat →
  ∃ e, add_sheets scrape f_zip sh_names ss i parts db = Raise e.
Proof.
  revert i db. induction parts as [|p ps IH]; intros i db Hlen; simpl in *; [lia|].
  destruct (zip_read f_zip p); simpl; [|eauto].
  destruct (sh_names !! i) eqn:Hi; simpl; [|eauto].
  destruct (scrape _ ss); simpl; [|eauto].
  apply lookup_lt_Some in Hi. apply IH. lia.
Qed.

Lemma add_sheets_IndexError (parts : list string) (i : nat) (db : Database) :
  (i ≤ length sh_names < i + length parts)%nat →
  (∀ part, part ∈ parts → is_Ok (zip_read f_zip part)) →
  (∀ part text, part ∈ take (length sh_names - i) parts →
                zip_read f_zip part = Ok text → is_Ok (scrape text ss)) →
  add_sheets scrape f_zip sh_names ss i parts db = Raise IndexError.
Proof.
  revert i db. induction parts as [|p ps IH]; intros i db Hlen Hread Hscrape;
    simpl in *; [lia|].
  destruct (Hread p) as [text Hp]; [by left|]. rewrite Hp. simpl.
  destruct (sh_names !! i) eqn:Hi; simpl; [|done].
  apply lookup_lt_Some in Hi.
  destruct (Hscrape p text) as [g Hg]; [|done|].
  { destruct (length sh_names - i)%nat eqn:E; [lia|]. by left. }
  rewrite Hg. simpl. apply IH.
  - lia.
  - intros part Hin. apply Hread. by right.
  - intros part t Hin. apply Hscrape.
    replace (length sh_names - i)%nat with (S (length sh_names - S i)) by lia.
    by right.
Qed.

End assembly.

Lemma zip_fst_take {V : Type} (names : list string) (grids : list V) (n : nat) :
  length grids = n → (n ≤ length names)%nat →
  (zip (take n names) grids).*1 = take n names.
Proof.
  intros Hg Hn. apply fst_zip. rewrite length_take. lia.
Qed.

(** C2 (amended).  [readxl] compares no lengths before it assembles.  Asked
    for all sheets of an archive with more worksheet parts than declared
    names, it returns no Database, and raises [IndexError] when the parts
    that have a name scrape; with fewer parts than names, all of which
    scrape, it returns a Database whose sheet names are the first declared
    names, as many as there are parts. *)
Theorem readxl_unequal_lengths (scrape : string → shared → result grid)
  (fs : filesystem) (fn : string) (f_zip : archive) (sh_names : list string)
  (ss : shared) :
  check_excelfile fs fn = Ok () →
  fs !! fn = Some f_zip →
  zip_read f_zip "xl/workbook.xml" ≫= get_sheetnames = Ok sh_names →
  load_sharedStrings f_zip = Ok ss →
  let parts := get_zipsheetnames f_zip in
  ((length sh_names < length parts)%nat →
   (∃ e, readxl scrape fs fn [] = Raise e) ∧
   ((∀ part text, part ∈ take (length sh_names) parts →
                  zip_read f_zip part = Ok text → is_Ok (scrape text ss)) →
    readxl scrape fs fn [] = Raise IndexError)) ∧
  ((length parts < length sh_names)%nat →
   (∀ part text, part ∈ parts →
                 zip_read f_zip part = Ok text → is_Ok (scrape text ss)) →
   ∃ db, readxl scrape fs fn [] = Ok db ∧
         dom db = list_to_set (take (length parts) sh_names)).
Proof.
  intros Hcheck Hfs Hnames Hload parts. subst parts.
  rewrite (readxl_opened _ _ _ _ _ _ Hcheck Hfs Hnames). simpl.
  rewrite Hload. simpl.
  assert (∀ part, part ∈ get_zipsheetnames f_zip → is_Ok (zip_read f_zip part))
    as Hread.
  { intros part [Hin _]%get_zipsheetnames_elem. by apply zip_read_key. }
  revert Hread. generalize (get_zipsheetnames f_zip).
  intros parts Hread. split.
  - intros Hlen. split.
    + apply add_sheets_short. lia.
    + intros Hscrape. apply add_sheets_IndexError; [lia | done |].
      by rewrite Nat.sub_0_r.
  - intros Hlen Hscrape.
    destruct (add_sheets_ok scrape f_zip sh_names ss parts 0 ∅)
      as (grids & Hgrids & ->).
    { simpl. lia. }
    { intros part Hin. destruct (Hread part Hin) as [text Hpart].
      destruct (Hscrape part text Hin Hpart) as [g Hg]. by exists g, text. }
    eexists. split; [done|].
    rewrite put_all_dom, dom_empty_L, (left_id_L ∅ (∪)), drop_0.
    rewrite zip_fst_take; [done | | lia].
    symmetry. by eapply Forall2_length.
Qed.

(** Asked for all sheets of an archive with one worksheet part per declared
    name and no name declared twice, [readxl] returns every declared sheet,
    each with the grid of the part at its position. *)
Lemma readxl_all_sheets (scrape : string → shared → result grid)
  (fs : filesystem) (fn : string) (f_zip : archive) (sh_names : list string)
  (ss : shared) :
  check_excelfile fs fn = Ok () →
  fs !! fn = Some f_zip →
  zip_read f_zip "xl/workbook.xml" ≫= get_sheetnames = Ok sh_names →
  load_sharedStrings f_zip = Ok ss →
  length (get_zipsheetnames f_zip) = length sh_names →
  NoDup sh_names →
  (∀ part text, part ∈ get_zipsheetnames f_zip →
                zip_read f_zip part = Ok text → is_Ok (scrape text ss)) →
  ∃ db, readxl scrape fs fn [] = Ok db ∧
        dom db = list_to_set sh_names ∧
        size db = length sh_names ∧
        ∀ i name part text,
          sh_names !! i = Some name →
          get_zipsheetnames f_zip !! i = Some part →
          zip_read f_zip part = Ok text →
          ∃ g, scrape text ss = Ok g ∧ db !! name = Some g.
Proof.
  intros Hcheck Hfs Hnames Hload Hlen Hnodup Hscrape.
  rewrite (readxl_opened _ _ _ _ _ _ Hcheck Hfs Hnames). simpl.
  rewrite Hload. simpl.
  assert (∀ part, part ∈ get_zipsheetnames f_zip → is_Ok (zip_read f_zip part))
    as Hread.
  { intros part [Hin _]%get_zipsheetnames_elem. by apply zip_read_key. }
  revert Hlen Hscrape Hread. generalize (get_zipsheetnames f_zip).
  intros parts Hlen Hscrape Hread.
  destruct (add_sheets_ok scrape f_zip sh_names ss parts 0 ∅)
    as (grids & Hgrids & ->).
  { simpl. lia. }
  { intros part Hin. destruct (Hread part Hin) as [text Hpart].
    destruct (Hscrape part text Hin Hpart) as [g Hg]. by exists g, text. }
  pose proof (Forall2_length _ _ _ Hgrids) as Hglen.
  rewrite drop_0, Hlen, firstn_all.
  assert ((zip sh_names grids).*1 = sh_names) as Hfst by (apply fst_zip; lia).
  eexists. split; [done|]. split_and!.
  - by rewrite put_all_dom, dom_empty_L, (left_id_L ∅ (∪)), Hfst.
  - rewrite <- size_dom, put_all_dom, dom_empty_L, (left_id_L ∅ (∪)), Hfst.
    by apply size_list_to_set.
  - intros i name part text Hname Hpart Htext.
    destruct (Forall2_lookup_l _ _ _ _ _ Hgrids Hpart) as (g & Hg & text' & Ht' & Hs).
    exists g. split; [congruence|].
    apply (put_all_last_wins _ _ i (name, g)).
    + apply lookup_zip_with_Some. eauto.
    + intros j [name' g'] Hij (_ & _ & [= <- <-] & Hj & _)%lookup_zip_with_Some.
      simpl. intros ->. pose proof (NoDup_lookup _ _ _ _ Hnodup Hname Hj). lia.
Qed.

(** C1 (at the failing input, and the part that holds).  Asked for Sheet2 of
    a workbook of three sheets, [readxl] returns Sheet1 with the grid of the
    first part and Sheet2 with the grid of the third part: the part at the
    position of a requested name is the one left out.  Asked for no sheet in
    particular, of an archive with one worksheet part per declared name and
    no name declared twice, it returns every declared sheet, each with the
    grid of the part at its position. *)
Theorem readxl_requested_sheets :
  readxl scrape_py (disk book3) "book.xlsx" ["Sheet2"]
  = Ok (<["Sheet1" := {["A1" := "1"]}]> {["Sheet2" := {["A1" := "3"]}]}) ∧
  (∀ (scrape : string → shared → result grid) (fs : filesystem) (fn : string)
     (f_zip : archive) (sh_names : list string) (ss : shared),
     check_excelfile fs fn = Ok () →
     fs !! fn = Some f_zip →
     zip_read f_zip "xl/workbook.xml" ≫= get_sheetnames = Ok sh_names →
     load_sharedStrings f_zip = Ok ss →
     length (get_zipsheetnames f_zip) = length sh_names →
     NoDup sh_names →
     (∀ part text, part ∈ get_zipsheetnames f_zip →
                   zip_read f_zip part = Ok text → is_Ok (scrape text ss)) →
     ∃ db, readxl scrape fs fn [] = Ok db ∧
           dom db = list_to_set sh_names ∧
           size db = length sh_names ∧
           ∀ i name part text,
             sh_names !! i = Some name →
             get_zipsheetnames f_zip !! i = Some part →
             zip_read f_zip part = Ok text →
             ∃ g, scrape text ss = Ok g ∧ db !! name = Some g).
Proof. split; [by vm_compute | apply readxl_all_sheets]. Qed.

(** ** Requested names *)

Lemma index_None (sn : string) (l : list string) :
  Py.index sn l = None ↔ sn ∉ l.
Proof.
  induction l as [|y l IH]; simpl.
  - split; [intros _; apply not_elem_of_nil | done].
  - rewrite not_elem_of_cons. destruct (String.eqb sn y) eqn:E.
    + apply String.eqb_eq in E. split; [done | tauto].
    + apply String.eqb_neq in E. destruct (Py.index sn l); simpl.
      * split; [done|]. intros [_ H]. by apply IH in H.
      * split; [|done]. intros _. split; [done | by apply IH].
Qed.

Lemma pop_sheetnames_undeclared (sh_names parts sheetnames : list string)
  (sn : string) :
  sn ∈ sheetnames → sn ∉ sh_names →
  ∃ e, pop_sheetnames sh_names parts sheetnames = Raise e.
Proof.
  intros Hin Hout. revert parts.
  induction sheetnames as [|x xs IH]; intros parts; [by apply elem_of_nil in Hin|].
  simpl. destruct (Py.index x sh_names) as [i|] eqn:Ex; [|eauto].
  destruct (Py.pop i parts); simpl; [|eauto].
  apply elem_of_cons in Hin as [->|Hin]; [|by apply IH].
  apply index_None in Hout. congruence.
Qed.

Lemma pop_sheetnames_app (sh_names parts before rest : list string) :
  pop_sheetnames sh_names parts (before ++ rest)
  = pop_sheetnames sh_names parts before
      ≫= λ parts', pop_sheetnames sh_names parts' rest.
Proof.
  revert parts. induction before as [|x xs IH]; intros parts; [done|].
  simpl. destruct (Py.index x sh_names); [|done].
  destruct (Py.pop _ parts); simpl; [apply IH | done].
Qed.

(** C8 (what holds, and the failing input).  When a requested name is not
    declared, [readxl] returns no Database; it raises the [ValueError] that
    names the sheet when the names requested before it pop their parts.
    Asked for Sheet1, Sheet3 and an undeclared name of a workbook of three
    sheets, it raises [IndexError] at Sheet3 instead. *)
Theorem undeclared_sheetname_fails :
  (∀ (scrape : string → shared → result grid) (fs : filesystem) (fn : string)
     (sheetnames : list string) (f_zip : archive) (sh_names : list string)
     (sn : string),
     fs !! fn = Some f_zip →
     zip_read f_zip "xl/workbook.xml" ≫= get_sheetnames = Ok sh_names →
     sn ∈ sheetnames → sn ∉ sh_names →
     ∃ e, readxl scrape fs fn sheetnames = Raise e) ∧
  (∀ (scrape : string → shared → result grid) (fs : filesystem) (fn : string)
     (f_zip : archive) (sh_names before after parts : list string)
     (sn : string),
     check_excelfile fs fn = Ok () →
     fs !! fn = Some f_zip →
     zip_read f_zip "xl/workbook.xml" ≫= get_sheetnames = Ok sh_names →
     pop_sheetnames sh_names (get_zipsheetnames f_zip) before = Ok parts →
     sn ∉ sh_names →
     readxl scrape fs fn (before ++ sn :: after)
     = Raise (ValueError ("Error - Sheetname (" +:+ sn
                          +:+ ") is not in the workbook."))) ∧
  readxl scrape_py (disk book3) "book.xlsx" ["Sheet1"; "Sheet3"; "Nope"]
  = Raise IndexError.
Proof.
  split_and!; [| | by vm_compute].
  - intros scrape fs fn sheetnames f_zip sh_names sn Hfs Hnames Hin Hout.
    unfold readxl. destruct (check_excelfile fs fn); simpl; [|eauto].
    rewrite Hfs. simpl. rewrite Hnames. simpl.
    destruct (pop_sheetnames_undeclared sh_names (get_zipsheetnames f_zip)
                sheetnames sn Hin Hout) as [e ->].
    simpl. eauto.
  - intros scrape fs fn f_zip sh_names before after parts sn
      Hcheck Hfs Hnames Hpop Hout.
    rewrite (readxl_opened _ _ _ _ _ _ Hcheck Hfs Hnames).
    rewrite pop_sheetnames_app, Hpop. simpl.
    apply index_None in Hout. by rewrite Hout.
Qed.

(** * The theorems at sample inputs *)

(** The three-sheet workbook read whole: every declared sheet comes back
    with the grid of the part at its position. *)
Lemma readxl_requested_sheets_witness :
  ∃ db, readxl scrape_py (disk book3) "book.xlsx" [] = Ok db ∧
        dom db = list_to_set ["Sheet1"; "Sheet2"; "Sheet3"] ∧
        size db = 3%nat ∧
        ∀ i name part text,
          ["Sheet1"; "Sheet2"; "Sheet3"] !! i = Some name →
          get_zipsheetnames book3 !! i = Some part →
          zip_read book3 part = Ok text →
          ∃ g, scrape_py text ∅ = Ok g ∧ db !! name = Some g.
Proof.
  apply (proj2 readxl_requested_sheets scrape_py (disk book3) "book.xlsx" book3
           ["Sheet1"; "Sheet2"; "Sheet3"] ∅); try by vm_compute.
  - compute_done.
  - intros part text Hin Hread. vm_compute in Hin. each_part Hin;
      vm_compute in Hread; injection Hread as <-; eexists; by vm_compute.
Defined.

(** Against a length check before assembly: on an archive that declares two
    sheets and holds one worksheet part, the lengths differ and a Database
    is returned. *)
Lemma readxl_unequal_lengths_counterexample :
  zip_read book_short "xl/workbook.xml" ≫= get_sheetnames = Ok ["Sheet1"; "Sheet2"] ∧
  get_zipsheetnames book_short = ["xl/worksheets/sheet1.xml"] ∧
  length ["Sheet1"; "Sheet2"] ≠ length (get_zipsheetnames book_short) ∧
  readxl scrape_py (disk book_short) "book.xlsx" []
  = Ok {[ "Sheet1" := {[ "A1" := "1" ]} ]}.
Proof. split_and!; [by vm_compute.. | vm_compute; lia | by vm_compute]. Qed.

(** One name and two parts: [IndexError]; two names and one part: a
    Database with the first name only. *)
Lemma readxl_unequal_lengths_witness :
  ((∃ e, readxl scrape_py (disk book_long) "book.xlsx" [] = Raise e) ∧
   readxl scrape_py (disk book_long) "book.xlsx" [] = Raise IndexError) ∧
  ∃ db, readxl scrape_py (disk book_short) "book.xlsx" [] = Ok db ∧
        dom db = list_to_set (take 1 ["Sheet1"; "Sheet2"]).
Proof.
  split.
  - destruct (readxl_unequal_lengths scrape_py (disk book_long) "book.xlsx"
                book_long ["Sheet1"] ∅) as [Hmore _]; try by vm_compute.
    destruct Hmore as [Hfail Hindex]; [vm_compute; lia|].
    split; [done|]. apply Hindex.
    intros part text Hin Hread. vm_compute in Hin. each_part Hin.
    vm_compute in Hread. injection Hread as <-. eexists. by vm_compute.
  - destruct (readxl_unequal_lengths scrape_py (disk book_short) "book.xlsx"
                book_short ["Sheet1"; "Sheet2"] ∅) as [_ Hok]; try by vm_compute.
    apply Hok; [vm_compute; lia|].
    intros part text Hin Hread. vm_compute in Hin. each_part Hin.
    vm_compute in Hread. injection Hread as <-. eexists. by vm_compute.
Defined.

(** A string-typed cell, a literal cell, and the value stored for the last
    of two cells. *)
Lemma cell_type_by_marker_witness :
  cell_of_line two_names (dq "'A1' t='s'><v>1</v></c></row>") = Ok ("A1", "Bob") ∧
  cell_of_line two_names (dq "'B2'><v>42</v></c></row>") = Ok ("B2", "42") ∧
  (<["A1" := "Bob"]> {[ "B1" := "7" ]} : grid) !! "A1" = Some "Bob".
Proof.
  destruct cell_type_by_marker as (Hcell & Hlast & _ & _). split_and!.
  - destruct (Hcell two_names (dq "'A1' t='s'><v>1</v></c></row>") "A1" "1")
      as [Hstring _]; [by vm_compute..|].
    refine (Hstring _ 1 "Bob" _ _); by vm_compute.
  - destruct (Hcell two_names (dq "'B2'><v>42</v></c></row>") "B2" "42")
      as [_ Hliteral]; [by vm_compute..|].
    apply Hliteral. by vm_compute.
  - apply (Hlast two_names [dq "'B1'><v>7</v></c>"]
             (dq "'A1' t='s'><v>1</v></c></row>") ∅ _ ("A1", "Bob"));
      by vm_compute.
Defined.

(** A sheet that declares A1, B1 and A1 again: two entries, A1 with the
    later value. *)
Lemma scrape_count_distinct_witness :
  (∃ cells : list (string * string),
     Forall2 (λ line cell, cell_of_line ∅ line = Ok cell
                           ∧ Re.first_cell_address line = Some cell.1)
             [dq "'A1'><v>1</v></c>"; dq "'B1'><v>2</v></c>";
              dq "'A1'><v>3</v></c></row>"] cells ∧
     size (<["A1" := "3"]> {[ "B1" := "2" ]} : grid)
     = length (remove_dups cells.*1) ∧
     dom (<["A1" := "3"]> {[ "B1" := "2" ]} : grid) = list_to_set cells.*1 ∧
     ∀ i cell, cells !! i = Some cell →
               (∀ j cell', (i < j)%nat → cells !! j = Some cell' →
                           cell'.1 ≠ cell.1) →
               (<["A1" := "3"]> {[ "B1" := "2" ]} : grid) !! cell.1
               = Some cell.2) ∧
  Re.first_cell_address (dq "'A1'><v>3</v></c></row>") = Some "A1".
Proof.
  destruct (scrape_count_distinct sheet_twice None
              (dq ("<row r='1'><c r='A1'><v>1</v></c><c r='B1'><v>2</v></c>"
                   +:+ "<c r='A1'><v>3</v></c></row>"))
              (<["A1" := "3"]> {[ "B1" := "2" ]}))
    as [Hcells Haddr]; [by vm_compute..|].
  split; [exact Hcells|].
  apply (Haddr "A"%char "1"%char "" "><v>3</v></c></row>"); by vm_compute.
Defined.

(** Two shared strings on one line, and a workbook with no shared-strings
    part. *)
Lemma get_sharedStrings_rank_witness :
  get_sharedStrings sst_two !! Z.of_nat 1 = Some "Bob" ∧
  Re.findall_between "<t>" "</t>" sst_two = ["Alice"; "Bob"] ∧
  load_sharedStrings book3 = Ok ∅ ∧
  readxl scrape_py (disk book3) "book.xlsx" ["Sheet1"]
  = readxl (λ text _, scrape_py text ∅) (disk book3) "book.xlsx" ["Sheet1"].
Proof.
  destruct get_sharedStrings_rank as (Htext & Hread & _ & _).
  destruct (Htext sst_two) as (Hrank & _ & _ & Hall). split_and!.
  - by rewrite Hrank.
  - rewrite Hall; [by vm_compute | by vm_compute |].
    vm_compute. by repeat constructor.
  - apply (Hread scrape_py (disk book3) "book.xlsx" [] book3); compute_done.
  - apply (Hread scrape_py (disk book3) "book.xlsx" ["Sheet1"] book3); compute_done.
Defined.

(** Against names for every manifest that holds the markers: on a manifest
    with each marker on a line of its own, no names are returned. *)
Lemma get_sheetnames_in_order_counterexample :
  Py.contains "<sheets>" manifest_three_lines = true ∧
  Py.contains "</sheets>" manifest_three_lines = true ∧
  get_sheetnames manifest_three_lines = Raise IndexError ∧
  ¬ is_Ok (get_sheetnames manifest_three_lines).
Proof.
  split_and!; [by vm_compute..|]. intros [names H].
  vm_compute in H. discriminate H.
Qed.

(** A manifest of two sheets, and a manifest with no sheets section. *)
Lemma get_sheetnames_in_order_witness :
  get_sheetnames (workbook_xml ["Sheet1"; "Sheet2"]) = Ok ["Sheet1"; "Sheet2"] ∧
  get_sheetnames
    (manifest "<workbook>" [sheet_decl "Sheet1"; sheet_decl "Sheet2"] "</workbook>")
  = Ok ["Sheet1"; "Sheet2"] ∧
  get_sheetnames "<workbook><sheet/></workbook>" = Raise IndexError.
Proof.
  destruct get_sheetnames_in_order as (Hfound & Hbuilt & Hnone & _). split_and!.
  - apply (Hfound _ (join_decls (sheet_decl <$> ["Sheet1"; "Sheet2"])));
      [by vm_compute|].
    vm_compute. by repeat constructor.
  - destruct (Hbuilt "<workbook>" "</workbook>"
                [sheet_decl "Sheet1"; sheet_decl "Sheet2"]) as (_ & _ & Hiff);
      [by vm_compute | by vm_compute | by repeat constructor |].
    apply Hiff. by repeat constructor.
  - apply Hnone. by vm_compute.
Defined.

(** Shared string 5 of a table of three, after a literal cell. *)
Lemma unresolved_shared_string_raises_witness :
  cell_of_line three_names (dq "'B1' t='s'><v>5</v></c></row>")
  = Raise (KeyError_int 5) ∧
  ((∃ e, scrape_worksheetxml sheet_unresolved (Some three_names) = Raise e) ∧
   (Forall (λ l, is_Ok (cell_of_line three_names l)) [dq "'A1'><v>7</v></c>"] →
    scrape_worksheetxml sheet_unresolved (Some three_names)
    = Raise (KeyError_int 5))) ∧
  ∃ e, readxl scrape_py (disk book_unresolved) "book.xlsx" [] = Raise e.
Proof.
  destruct unresolved_shared_string_raises as (Hcell & Hsheet & Hread & _).
  split; [|split].
  - apply (Hcell three_names _ "5" 5); by vm_compute.
  - apply (Hsheet _ three_names
             (dq "<row r='1'><c r='A1'><v>7</v></c><c r='B1' t='s'><v>5</v></c></row>")
             [dq "'A1'><v>7</v></c>"] []
             (dq "'B1' t='s'><v>5</v></c></row>") "5" 5); by vm_compute.
  - apply (Hread scrape_py (disk book_unresolved) "book.xlsx" [] book_unresolved
             ["Sheet1"] ["xl/worksheets/sheet1.xml"] three_names
             "xl/worksheets/sheet1.xml" sheet_unresolved (KeyError_int 5));
      compute_done.
Defined.

(** The token 1.5 in a string-typed cell, after a literal cell. *)
Lemma non_integer_token_raises_witness :
  cell_of_line two_names (dq "'B1' t='s'><v>1.5</v></c></row>")
  = Raise (ValueError_int "1.5") ∧
  ((∃ e, scrape_worksheetxml sheet_fraction (Some two_names) = Raise e) ∧
   (Forall (λ l, is_Ok (cell_of_line two_names l)) [dq "'A1'><v>7</v></c>"] →
    scrape_worksheetxml sheet_fraction (Some two_names)
    = Raise (ValueError_int "1.5"))) ∧
  Py.int "1e3" = None.
Proof.
  destruct non_integer_token_raises as (Hcell & Hsheet & Hchar & _).
  split; [|split].
  - apply (Hcell two_names _ "1.5"); by vm_compute.
  - apply (Hsheet _ two_names
             (dq "<row r='1'><c r='A1'><v>7</v></c><c r='B1' t='s'><v>1.5</v></c></row>")
             [dq "'A1'><v>7</v></c>"] []
             (dq "'B1' t='s'><v>1.5</v></c></row>") "1.5"); by vm_compute.
  - apply (Hchar "1e3" "e"%char); by vm_compute.
Defined.

(** An undeclared name after a declared one. *)
Lemma undeclared_sheetname_fails_witness :
  (∃ e, readxl scrape_py (disk book3) "book.xlsx" ["Sheet2"; "Nope"] = Raise e) ∧
  readxl scrape_py (disk book3) "book.xlsx" (["Sheet1"] ++ "Nope" :: ["Sheet2"])
  = Raise (ValueError "Error - Sheetname (Nope) is not in the workbook.").
Proof.
  destruct undeclared_sheetname_fails as (Hfail & Hvalue & _). split.
  - apply (Hfail scrape_py (disk book3) "book.xlsx" _ book3
             ["Sheet1"; "Sheet2"; "Sheet3"] "Nope"); compute_done.
  - apply (Hvalue scrape_py (disk book3) "book.xlsx" book3
             ["Sheet1"; "Sheet2"; "Sheet3"] ["Sheet1"] ["Sheet2"]
             ["xl/worksheets/sheet2.xml"; "xl/worksheets/sheet3.xml"] "Nope");
      compute_done.
Defined.

(** The three-sheet workbook, whose only entries with sheet in their name
    are its worksheet parts; the parts left once Sheet2 is requested; and
    two scrapers that differ on an entry that is not selected. *)
Lemma get_zipsheetnames_selects_witness :
  get_zipsheetnames book3
  = List.filter Spec.worksheet_part (NameToInfo_keys book3) ∧
  sublist ["xl/worksheets/sheet1.xml"; "xl/worksheets/sheet3.xml"]
          (get_zipsheetnames book3) ∧
  scrape_py "<Types/>" ∅ ≠ scrape_other "<Types/>" ∅ ∧
  readxl scrape_py (disk book3) "book.xlsx" []
  = readxl scrape_other (disk book3) "book.xlsx" [].
Proof.
  destruct get_zipsheetnames_selects as (Hsel & Hpop & Hext & _).
  split; [|split; [|split]].
  - destruct (Hsel book3) as (_ & _ & Honly). apply Honly.
    intros name Hin Hsheet. vm_compute in Hin.
    each_part Hin; (by vm_compute) || (by vm_compute in Hsheet).
  - apply (Hpop book3 ["Sheet1"; "Sheet2"; "Sheet3"] ["Sheet2"]). by vm_compute.
  - by vm_compute.
  - apply (Hext scrape_py scrape_other (disk book3) "book.xlsx" [] book3);
      [by vm_compute|].
    intros name text ss Hin Hread. vm_compute in Hin. each_part Hin;
      vm_compute in Hread; injection Hread as <-; reflexivity.
Defined.

(** * Further properties *)

(** ** Joining what was split *)

Lemma split_go_nonempty (fuel : nat) (sep s : string) :
  Py.split_go fuel sep s ≠ [].
Proof.
  destruct fuel as [|fuel]; simpl; [done|].
  destruct (Py.startswith sep s); [done|].
  destruct s as [|c s]; [done|]. by destruct (Py.split_go fuel sep s).
Qed.

Lemma join_cons (sep x : string) (l : list string) :
  l ≠ [] → join sep (x :: l) = x +:+ sep +:+ join sep l.
Proof. by destruct l. Qed.

Lemma join_cons_first (sep : string) (c : ascii) (l : list string) :
  l ≠ [] → join sep (Py.cons_first c l) = String c (join sep l).
Proof. destruct l as [|x [|y l]]; done. Qed.

Lemma join_snoc (sep e : string) (l : list string) :
  l ≠ [] → join sep (l ++ [e]) = join sep l +:+ sep +:+ e.
Proof.
  induction l as [|x l IH]; [done|]. intros _.
  destruct l as [|y l]; [done|].
  change ((x :: y :: l) ++ [e]) with (x :: ((y :: l) ++ [e])).
  rewrite join_cons by (by destruct l). rewrite IH by done.
  rewrite (join_cons sep x (y :: l)) by done. by rewrite !app_assoc'.
Qed.

(** The pieces of a split, joined by the separator, give the text back. *)
Lemma join_split_go (fuel : nat) (sep s : string) :
  join sep (Py.split_go fuel sep s) = s.
Proof.
  revert s. induction fuel as [|fuel IH]; intros s; [done|]. simpl.
  destruct (Py.startswith sep s) eqn:E.
  - rewrite join_cons by apply split_go_nonempty. rewrite IH, app_empty_l.
    destruct (startswith_inv _ _ E) as [t ->]. by rewrite skip_app.
  - destruct s as [|c s]; [done|].
    rewrite join_cons_first by apply split_go_nonempty. by rewrite IH.
Qed.

Lemma join_split (sep s : string) : join sep (Py.split sep s) = s.
Proof. apply join_split_go. Qed.

Lemma cons_first_app (c : ascii) (l k : list string) :
  l ≠ [] → Py.cons_first c (l ++ k) = Py.cons_first c l ++ k.
Proof. by destruct l. Qed.

(** Splitting at a single character splits both sides of an occurrence. *)
Lemma split_char_app (c : ascii) (u r : string) :
  Py.split (String c "") (u +:+ String c r)
  = Py.split (String c "") u ++ Py.split (String c "") r.
Proof.
  induction u as [|d u IH].
  - rewrite app_empty_l, (split_eq c "" (String c r)).
    cbn [Py.startswith Py.skip String.length]. by rewrite Ascii.eqb_refl.
  - rewrite app_cons, (split_eq c "" (String d (u +:+ String c r))),
      (split_eq c "" (String d u)).
    cbn [Py.startswith Py.skip String.length]. rewrite !andb_true_r.
    destruct (Ascii.eqb c d).
    + by rewrite IH.
    + rewrite IH. apply cons_first_app, split_nonempty.
Qed.

Lemma split_absent (a : ascii) (sep' u : string) :
  Py.contains (String a sep') u = false → Py.split (String a sep') u = [u].
Proof.
  induction u as [|c u IH]; intros Hu; [done|].
  apply contains_false_inv in Hu as [Hs Hu].
  rewrite split_eq, Hs, IH; done.
Qed.

(** ** check_excelfile *)

Lemma last_split_extension (stem ext : string) :
  Py.contains "." ext = false →
  List.last (Py.split "." (stem +:+ "." +:+ ext)) "" = ext.
Proof.
  intros Hext. change ("." +:+ ext) with (String "." ext).
  rewrite split_char_app, (split_absent "." "" ext) by done.
  apply last_last.
Qed.

Lemma last_split_suffix (fn : string) :
  has_extension (List.last (Py.split "." fn) "") fn.
Proof.
  pose proof (join_split "." fn) as Hjoin.
  destruct (exists_last (split_nonempty "." fn)) as (init & e & Hsplit).
  rewrite Hsplit in *. rewrite last_last.
  destruct init as [|x init]; [by left|].
  right. exists (join "." (x :: init)). by rewrite <- Hjoin, join_snoc.
Qed.

(** X1.  [check_excelfile] lets a path through exactly when it names a file and
    is the extension xlsx or xlsm alone, or ends in a dot and one of them,
    in lower case. *)
Theorem check_excelfile_accepts (fs : filesystem) (fn : string) :
  check_excelfile fs fn = Ok ()
  ↔ is_Some (fs !! fn) ∧ (has_extension "xlsx" fn ∨ has_extension "xlsm" fn).
Proof.
  unfold check_excelfile. case_bool_decide as Hfile.
  { rewrite Hfile. split; [done|]. by intros [[? ?] _]. }
  case_bool_decide as Hext.
  - split; [intros _ | done]. split.
    + by destruct (fs !! fn); [eexists|].
    + pose proof (last_split_suffix fn) as Hsuf.
      apply elem_of_cons in Hext as [Hext|Hext];
        [|apply list_elem_of_singleton in Hext]; rewrite Hext in Hsuf; auto.
  - split; [done|]. intros [_ Hhas]. exfalso. apply Hext.
    destruct Hhas as [[->|[stem ->]]|[->|[stem ->]]].
    + compute_done.
    + rewrite last_split_extension by done. compute_done.
    + compute_done.
    + rewrite last_split_extension by done. compute_done.
Qed.

(** ** What readxl returns and raises *)

Lemma pop_length (i : nat) (l l' : list string) :
  Py.pop i l = Some l' → length l = S (length l').
Proof.
  revert i l'. induction l as [|y l IH]; intros i l'; [done|].
  destruct i as [|i]; simpl.
  - by intros [= <-].
  - destruct (Py.pop i l) as [l0|] eqn:E; [|done]. intros [= <-].
    simpl. f_equal. by eapply IH.
Qed.

Lemma index_Some (sn : string) (l : list string) (i : nat) :
  Py.index sn l = Some i → sn ∈ l.
Proof.
  intros H. destruct (decide (sn ∈ l)) as [|Hout]; [done|].
  apply index_None in Hout. congruence.
Qed.

Lemma pop_sheetnames_inv (sh_names parts sheetnames parts' : list string) :
  pop_sheetnames sh_names parts sheetnames = Ok parts' →
  Forall (λ sn, sn ∈ sh_names) sheetnames ∧
  length parts = (length sheetnames + length parts')%nat.
Proof.
  revert parts. induction sheetnames as [|sn sns IH]; intros parts; simpl.
  - intros [= <-]. by split; [constructor|].
  - destruct (Py.index sn sh_names) as [i|] eqn:Ei; [|done].
    destruct (Py.pop i parts) as [ps|] eqn:Ep; [|done]. simpl. intros H.
    destruct (IH _ H) as [Hall Hlen]. split.
    + constructor; [by eapply index_Some | done].
    + apply pop_length in Ep. lia.
Qed.

Lemma pop_sheetnames_raise (sh_names parts sheetnames : list string)
  (e : exception) :
  pop_sheetnames sh_names parts sheetnames = Raise e →
  e = IndexError ∨
  ∃ sn, sn ∈ sheetnames ∧ (sn ∉ sh_names) ∧
        e = ValueError ("Error - Sheetname (" +:+ sn
                        +:+ ") is not in the workbook.").
Proof.
  revert parts. induction sheetnames as [|sn sns IH]; intros parts; [done|].
  simpl. destruct (Py.index sn sh_names) as [i|] eqn:Ei.
  - destruct (Py.pop i parts) as [ps|]; simpl; [|intros [= <-]; by left].
    intros H. destruct (IH _ H) as [->|(x & Hx & Hout & ->)]; [by left|].
    right. exists x. split_and!; [by right | done..].
  - intros [= <-]. right. exists sn.
    split_and!; [by left | by apply index_None | done].
Qed.

Lemma zip_read_raise (f_zip : archive) (name : string) (e : exception) :
  zip_read f_zip name = Raise e →
  e = KeyError_name name ∧ name ∉ NameToInfo_keys f_zip.
Proof.
  unfold NameToInfo_keys. induction f_zip as [|[n t] f IH]; simpl.
  - intros [= <-]. split; [done | apply not_elem_of_nil].
  - destruct (String.eqb n name) eqn:E; [done|]. apply String.eqb_neq in E.
    intros H. destruct (IH H) as [-> Hout]. split; [done|].
    apply not_elem_of_cons. by split.
Qed.

Lemma zip_read_absent (f_zip : archive) (name : string) :
  name ∉ NameToInfo_keys f_zip → zip_read f_zip name = Raise (KeyError_name name).
Proof.
  intros Hout. destruct (zip_read f_zip name) as [t|e] eqn:E.
  - exfalso. apply Hout. clear Hout. revert E. unfold NameToInfo_keys.
    induction f_zip as [|[n t'] f IH]; simpl; [done|].
    destruct (String.eqb n name) eqn:En.
    + apply String.eqb_eq in En as ->. intros _. by left.
    + intros H. right. by apply IH.
  - by apply zip_read_raise in E as [-> _].
Qed.

Lemma get_sheetnames_raise (text : string) (e : exception) :
  get_sheetnames text = Raise e → e = IndexError.
Proof.
  unfold get_sheetnames.
  destruct (Re.first_between _ _ text); simpl; [|by intros [= <-]].
  apply sheetnames_of_lines_raise.
Qed.

Lemma put_all_lookup_Some {V : Type} (kvs : list (string * V))
  (m : gmap string V) (k : string) (v : V) :
  put_all m kvs !! k = Some v → m !! k = Some v ∨ (k, v) ∈ kvs.
Proof.
  revert m. induction kvs as [|[k' v'] kvs IH]; intros m; [by left|].
  unfold put_all in *. simpl. intros H.
  destruct (IH _ H) as [Hm|Hin]; [|by right; right].
  destruct (decide (k' = k)) as [->|Hne].
  - rewrite lookup_insert_eq in Hm. injection Hm as ->. right. by left.
  - rewrite lookup_insert_ne in Hm by done. by left.
Qed.

Section assembled.

Context (scrape : string → shared → result grid) (f_zip : archive)
  (sh_names : list string) (ss : shared).

Lemma add_sheets_inv (parts : list string) (i : nat) (db0 db : Database) :
  add_sheets scrape f_zip sh_names ss i parts db0 = Ok db →
  ∃ grids, Forall2 (scraped scrape f_zip ss) parts grids ∧
           (parts ≠ [] → (i + length parts ≤ length sh_names)%nat) ∧
           db = put_all db0 (zip (take (length parts) (drop i sh_names)) grids).
Proof.
  revert i db0. induction parts as [|p ps IH]; intros i db0; simpl.
  - intros [= <-]. exists []. split; [constructor|]. split; [done|]. reflexivity.
  - destruct (zip_read f_zip p) as [text|] eqn:Hp; simpl; [|done].
    destruct (sh_names !! i) as [name|] eqn:Hname; simpl; [|done].
    destruct (scrape text ss) as [g|] eqn:Hg; simpl; [|done].
    intros H. destruct (IH _ _ H) as (grids & Hgrids & Hlen & ->).
    exists (g :: grids). split_and!.
    + constructor; [by exists text | done].
    + intros _. apply lookup_lt_Some in Hname.
      destruct ps as [|q ps]; simpl in *; [lia|]. specialize (Hlen ltac:(done)). lia.
    + by rewrite (drop_S _ _ _ Hname).
Qed.

Lemma add_sheets_raise (parts : list string) (i : nat) (db0 : Database)
  (e : exception) :
  (∀ part, part ∈ parts → part ∈ NameToInfo_keys f_zip) →
  add_sheets scrape f_zip sh_names ss i parts db0 = Raise e →
  e = IndexError ∨ ∃ text, scrape text ss = Raise e.
Proof.
  revert i db0. induction parts as [|p ps IH]; intros i db0 Hkeys; [done|].
  simpl. destruct (zip_read f_zip p) as [text|e0] eqn:Hp; simpl.
  - destruct (sh_names !! i); simpl; [|intros [= <-]; by left].
    destruct (scrape text ss) as [g|e1] eqn:Hg; simpl.
    + apply IH. intros part Hin. apply Hkeys. by right.
    + intros [= <-]. right. by exists text.
  - apply zip_read_raise in Hp as [_ Hout]. exfalso. apply Hout, Hkeys. by left.
Qed.

End assembled.

Lemma readxl_ok_inv (scrape : string → shared → result grid) (fs : filesystem)
  (fn : string) (sheetnames : list string) (db : Database) :
  readxl scrape fs fn sheetnames = Ok db →
  ∃ f_zip sh_names parts ss,
    check_excelfile fs fn = Ok () ∧
    fs !! fn = Some f_zip ∧
    zip_read f_zip "xl/workbook.xml" ≫= get_sheetnames = Ok sh_names ∧
    pop_sheetnames sh_names (get_zipsheetnames f_zip) sheetnames = Ok parts ∧
    load_sharedStrings f_zip = Ok ss ∧
    add_sheets scrape f_zip sh_names ss 0 parts ∅ = Ok db.
Proof.
  unfold readxl. destruct (check_excelfile fs fn) as [[]|] eqn:Hc; simpl; [|done].
  destruct (fs !! fn) as [f_zip|] eqn:Hfs; simpl; [|done].
  destruct (zip_read f_zip "xl/workbook.xml" ≫= get_sheetnames)
    as [sh_names|] eqn:Hn; simpl; [|done].
  destruct (pop_sheetnames _ _ _) as [parts|] eqn:Hpop; simpl; [|done].
  destruct (load_sharedStrings f_zip) as [ss|] eqn:Hl; simpl; [|done].
  intros H. by exists f_zip, sh_names, parts, ss.
Qed.

(** X2.  When [readxl] returns a Database, every requested name is declared, and
    the sheet names of the Database are the first declared names, as many as
    there are worksheet parts less the number of requested names. *)
Theorem readxl_ok_sheetnames (scrape : string → shared → result grid)
  (fs : filesystem) (fn : string) (sheetnames : list string) (f_zip : archive)
  (sh_names : list string) (db : Database) :
  fs !! fn = Some f_zip →
  zip_read f_zip "xl/workbook.xml" ≫= get_sheetnames = Ok sh_names →
  readxl scrape fs fn sheetnames = Ok db →
  Forall (λ sn, sn ∈ sh_names) sheetnames ∧
  (length sheetnames ≤ length (get_zipsheetnames f_zip))%nat ∧
  (length (get_zipsheetnames f_zip) - length sheetnames ≤ length sh_names)%nat ∧
  dom db = list_to_set
             (take (length (get_zipsheetnames f_zip) - length sheetnames) sh_names).
Proof.
  intros Hfs Hnames (f & names & parts & ss & _ & Hfs' & Hnames' & Hpop & _ & Hrun)%readxl_ok_inv.
  rewrite Hfs in Hfs'. injection Hfs' as <-.
  rewrite Hnames in Hnames'. injection Hnames' as <-.
  destruct (pop_sheetnames_inv _ _ _ _ Hpop) as [Hall Hlen].
  destruct (add_sheets_inv _ _ _ _ _ _ _ _ Hrun) as (grids & Hgrids & Hbound & ->).
  replace (length (get_zipsheetnames f_zip) - length sheetnames)%nat
    with (length parts) by lia.
  assert (length parts ≤ length sh_names)%nat as Hle.
  { destruct parts as [|p ps]; [simpl; lia|]. specialize (Hbound ltac:(done)). lia. }
  split_and!; [done | lia | done |].
  rewrite put_all_dom, dom_empty_L, (left_id_L ∅ (∪)), drop_0.
  rewrite fst_zip; [done|]. apply Forall2_length in Hgrids.
  rewrite length_take. lia.
Qed.

(** X3.  Every grid of a Database that [readxl] returns is what the scraper made
    of a worksheet part of the archive, with the archive's shared-string
    table, and stands under a declared sheet name. *)
Theorem readxl_ok_grids (scrape : string → shared → result grid)
  (fs : filesystem) (fn : string) (sheetnames : list string) (f_zip : archive)
  (sh_names : list string) (ss : shared) (db : Database) (name : string)
  (g : grid) :
  fs !! fn = Some f_zip →
  zip_read f_zip "xl/workbook.xml" ≫= get_sheetnames = Ok sh_names →
  load_sharedStrings f_zip = Ok ss →
  readxl scrape fs fn sheetnames = Ok db →
  db !! name = Some g →
  name ∈ sh_names ∧
  ∃ part, part ∈ get_zipsheetnames f_zip ∧ scraped scrape f_zip ss part g.
Proof.
  intros Hfs Hnames Hload
    (f & names & parts & ss' & _ & Hfs' & Hnames' & Hpop & Hload' & Hrun)%readxl_ok_inv.
  rewrite Hfs in Hfs'. injection Hfs' as <-.
  rewrite Hnames in Hnames'. injection Hnames' as <-.
  rewrite Hload in Hload'. injection Hload' as <-.
  destruct (add_sheets_inv _ _ _ _ _ _ _ _ Hrun) as (grids & Hgrids & _ & ->).
  intros [Hempty|Hin]%put_all_lookup_Some; [by rewrite lookup_empty in Hempty|].
  apply list_elem_of_lookup in Hin as (j & Hj).
  apply lookup_zip_with_Some in Hj as (n & g' & [= <- <-] & Hn & Hg).
  apply lookup_take_Some in Hn as [Hn _]. rewrite drop_0 in Hn. split.
  - by eapply list_elem_of_lookup_2.
  - destruct (Forall2_lookup_r _ _ _ _ _ Hgrids Hg) as (part & Hpart & Hscraped).
    exists part. split; [|done].
    eapply elem_of_sublist; [by eapply list_elem_of_lookup_2|].
    by eapply pop_sheetnames_sublist.
Qed.

(** X4.  The exceptions of [readxl]: the two of the file check, the [KeyError] of
    a missing manifest entry, [IndexError], the [ValueError] that names a
    requested sheet that is not declared, and what the scraper raises;
    nothing else, and for an archive with no manifest entry that is checked
    and opened it is that [KeyError]. *)
Theorem readxl_raises (scrape : string → shared → result grid)
  (fs : filesystem) (fn : string) (sheetnames : list string) :
  (∀ e, readxl scrape fs fn sheetnames = Raise e →
     e = ValueError ("Error - File (" +:+ fn +:+ ") does not exit.") ∨
     (∃ extension,
        e = ValueError ("Error - Incorrect Excel file extension ("
                        +:+ extension
                        +:+ "). File extension supported: .xlsx .xlsm")) ∨
     e = KeyError_name "xl/workbook.xml" ∨
     e = IndexError ∨
     (∃ sn, sn ∈ sheetnames ∧
            e = ValueError ("Error - Sheetname (" +:+ sn
                            +:+ ") is not in the workbook.")) ∨
     (∃ text ss, scrape text ss = Raise e)) ∧
  (∀ f_zip, check_excelfile fs fn = Ok () → fs !! fn = Some f_zip →
     "xl/workbook.xml" ∉ NameToInfo_keys f_zip →
     readxl scrape fs fn sheetnames = Raise (KeyError_name "xl/workbook.xml")).
Proof.
  split.
  - intros e. unfold readxl.
    destruct (check_excelfile fs fn) as [[]|e0] eqn:Hc; simpl.
    + destruct (fs !! fn) as [f_zip|] eqn:Hfs; simpl.
      2:{ unfold check_excelfile in Hc. by rewrite bool_decide_eq_true_2 in Hc. }
      destruct (zip_read f_zip "xl/workbook.xml") as [text|e1] eqn:Hm; simpl.
      2:{ intros [= <-]. apply zip_read_raise in Hm as [-> _]. auto. }
      destruct (get_sheetnames text) as [sh_names|e2] eqn:Hn; simpl.
      2:{ intros [= <-]. apply get_sheetnames_raise in Hn as ->. auto. }
      destruct (pop_sheetnames _ _ _) as [parts|e3] eqn:Hpop; simpl.
      2:{ intros [= <-]. apply pop_sheetnames_raise in Hpop as [->|(sn & Hin & _ & ->)].
          - auto.
          - do 4 right. left. by exists sn. }
      destruct (load_sharedStrings_ok f_zip) as [ss ->]. simpl. intros Hrun.
      apply add_sheets_raise in Hrun as [->|[text' Hs]].
      * auto.
      * do 5 right. by exists text', ss.
      * intros part Hin. eapply elem_of_sublist in Hin;
          [|by eapply pop_sheetnames_sublist].
        by apply get_zipsheetnames_elem in Hin as [? _].
    + intros [= <-]. unfold check_excelfile in Hc.
      case_bool_decide; [injection Hc as <-; by left|].
      case_bool_decide; [done|]. injection Hc as <-. right. left. by eexists.
  - intros f_zip Hc Hfs Hout. unfold readxl. rewrite Hc. simpl. rewrite Hfs. simpl.
    by rewrite (zip_read_absent _ _ Hout).
Qed.

(** ** Parts of a text *)

Lemma contains_trans (a b c : string) :
  Py.contains a b = true → Py.contains b c = true → Py.contains a c = true.
Proof.
  intros (x & y & ->)%contains_inv (u & v & ->)%contains_inv.
  replace (u +:+ (x +:+ a +:+ y) +:+ v) with ((u +:+ x) +:+ a +:+ (y +:+ v))
    by (by rewrite !app_assoc').
  apply contains_intro.
Qed.

(** ** Reading back a shared-strings part *)

Lemma lazy_upto_length (close s cap rest : string) :
  Re.lazy_upto close s = Some (cap, rest) →
  (String.length rest ≤ String.length s)%nat.
Proof.
  revert cap. induction s as [|c s IH]; intros cap; simpl.
  - destruct (Py.startswith close ""); [|done]. intros [= <- <-].
    apply skip_length_le.
  - destruct (Py.startswith close (String c s)).
    + intros [= <- <-]. apply skip_length_le.
    + destruct (Ascii.eqb c Re.newline); [done|].
      destruct (Re.lazy_upto close s) as [[cap' rest']|]; [|done].
      intros [= <- <-]. specialize (IH _ eq_refl). simpl. lia.
Qed.

Lemma findall_between_go_fuel (a : ascii) (open' close : string) (n m : nat)
  (s : string) :
  (String.length s < n)%nat → (String.length s < m)%nat →
  Re.findall_between_go n (String a open') close s
  = Re.findall_between_go m (String a open') close s.
Proof.
  revert m s. induction n as [|n IH]; intros m s Hn Hm; [lia|].
  destruct m as [|m]; [lia|]. cbn [Re.findall_between_go].
  destruct s as [|c s]; [reflexivity|].
  cbn [String.length] in Hn, Hm.
  destruct (Py.startswith (String a open') (String c s)).
  - cbn [Py.skip String.length].
    destruct (Re.lazy_upto close (Py.skip (String.length open') s))
      as [[cap rest]|] eqn:E.
    + f_equal. apply lazy_upto_length in E.
      pose proof (skip_length_le (String.length open') s). apply IH; lia.
    + apply IH; lia.
  - apply IH; lia.
Qed.

(** The equation [findall_between] satisfies: the scan of [findall]. *)
Lemma findall_between_eq (a : ascii) (open' close s : string) :
  Re.findall_between (String a open') close s =
    match (if Py.startswith (String a open') s
           then Re.lazy_upto close (Py.skip (String.length (String a open')) s)
           else None) with
    | Some (cap, rest) => cap :: Re.findall_between (String a open') close rest
    | None =>
        match s with
        | "" => []
        | String _ s' => Re.findall_between (String a open') close s'
        end
    end.
Proof.
  unfold Re.findall_between at 1. cbn [Re.findall_between_go].
  destruct s as [|c s]; [reflexivity|].
  destruct (Py.startswith (String a open') (String c s)); [|done].
  cbn [Py.skip String.length].
  destruct (Re.lazy_upto close (Py.skip (String.length open') s))
    as [[cap rest]|] eqn:E; [|done].
  f_equal. apply lazy_upto_length in E.
  pose proof (skip_length_le (String.length open') s).
  apply findall_between_go_fuel; simpl; lia.
Qed.

(** No match starts in a text that does not hold the first character of the
    opening tag. *)
Lemma findall_between_after (a : ascii) (open' close u w : string) :
  occurs a u = false →
  Re.findall_between (String a open') close (u +:+ w)
  = Re.findall_between (String a open') close w.
Proof.
  induction u as [|c u IH]; [done|]. cbn [occurs].
  intros [Hc Hu]%orb_false_iff. rewrite app_cons, findall_between_eq.
  cbn [Py.startswith]. rewrite Hc. simpl. by apply IH.
Qed.

Lemma lazy_upto_section (b : ascii) (close' v rest : string) :
  occurs b close' = false →
  single_line v = true →
  Py.contains (String b close') v = false →
  Re.lazy_upto (String b close') (v +:+ String b close' +:+ rest) = Some (v, rest).
Proof.
  intros Hocc. induction v as [|c v IH]; intros Hline Hv.
  - rewrite app_empty_l.
    destruct (String b close' +:+ rest) eqn:E; [done|]. cbn [Re.lazy_upto].
    by rewrite <- E, startswith_app, skip_app.
  - apply contains_false_inv in Hv as [Hs Hv]. simpl in Hline.
    apply andb_true_iff in Hline as [Hc Hline]. apply negb_true_iff in Hc.
    rewrite app_cons. cbn [Re.lazy_upto]. rewrite <- app_cons.
    rewrite startswith_cut, Hs, Hc by done.
    by rewrite (IH Hline Hv).
Qed.

Lemma findall_sst_items (vals : list string) (post : string) :
  Forall (λ v, single_line v = true ∧ Py.contains "</t>" v = false) vals →
  Re.findall_between "<t>" "</t>" (sst_items vals +:+ post)
  = vals ++ Re.findall_between "<t>" "</t>" post.
Proof.
  induction 1 as [|v vals [Hline Hv] _ IH]; [done|].
  cbn [sst_items]. rewrite !app_assoc'.
  change ("<si><t>" +:+ v +:+ "</t></si>" +:+ sst_items vals +:+ post)
    with (String "<" ("si>" +:+ "<t>" +:+ v +:+ "</t>" +:+ "</si>" +:+ sst_items vals +:+ post)).
  rewrite findall_between_eq. cbn [Py.startswith Ascii.eqb Bool.eqb andb].
  rewrite findall_between_after by done.
  rewrite findall_between_eq, startswith_app, skip_app.
  rewrite (lazy_upto_section "<" "/t>") by done.
  change ("</si>" +:+ sst_items vals +:+ post)
    with (String "<" ("/si>" +:+ sst_items vals +:+ post)).
  rewrite findall_between_eq. cbn [Py.startswith Ascii.eqb Bool.eqb andb].
  rewrite findall_between_after by done. by rewrite IH.
Qed.

(** X6.  A shared-strings part that lists strings on one line, none of which
    holds a line feed or the closing tag, reads back as these strings under
    their positions, and nothing else. *)
Theorem get_sharedStrings_sst_xml (vals : list string) :
  Forall (λ v, single_line v = true ∧ Py.contains "</t>" v = false) vals →
  Re.findall_between "<t>" "</t>" (sst_xml vals) = vals ∧
  (∀ i : nat, get_sharedStrings (sst_xml vals) !! Z.of_nat i = vals !! i) ∧
  size (get_sharedStrings (sst_xml vals)) = length vals.
Proof.
  intros Hvals.
  assert (Re.findall_between "<t>" "</t>" (sst_xml vals) = vals) as Hfind.
  { unfold sst_xml.
    change ("<sst>" +:+ sst_items vals +:+ "</sst>")
      with (String "<" ("sst>" +:+ sst_items vals +:+ "</sst>")).
    rewrite findall_between_eq. cbn [Py.startswith Ascii.eqb Bool.eqb andb].
    rewrite findall_between_after, findall_sst_items by done.
    change (Re.findall_between "<t>" "</t>" "</sst>") with (@nil string).
    apply app_nil_r. }
  split_and!; [done | |].
  - intros i. unfold get_sharedStrings. rewrite Hfind.
    rewrite update_enumerated_lookup, lookup_empty. case_bool_decide as H.
    + f_equal. lia.
    + symmetry. apply lookup_ge_None. lia.
  - unfold get_sharedStrings. rewrite Hfind. clear.
    assert (∀ (l : list string) (i : Z) (d : shared),
              (∀ k, i ≤ k → d !! k = None) →
              size (update_enumerated i l d) = (size d + length l)%nat) as Hsize.
    { induction l as [|v l IH]; intros i d Hd; simpl; [lia|].
      rewrite IH.
      - rewrite map_size_insert_None by (apply Hd; lia). lia.
      - intros k Hk. rewrite lookup_insert_ne by lia. apply Hd. lia. }
    rewrite Hsize; [by rewrite map_size_empty | by intros; apply lookup_empty].
Qed.

(** ** Pieces and sections are parts of the text *)

Lemma startswith_refl (s : string) : Py.startswith s s = true.
Proof. induction s as [|c s IH]; [done|]. simpl. by rewrite Ascii.eqb_refl. Qed.

Lemma startswith_trans (p x s : string) :
  Py.startswith p x = true → Py.startswith x s = true → Py.startswith p s = true.
Proof.
  intros [t ->]%startswith_inv [u ->]%startswith_inv.
  rewrite app_assoc'. apply startswith_app.
Qed.

Lemma occurs_app (c : ascii) (s t : string) :
  occurs c (s +:+ t) = occurs c s || occurs c t.
Proof.
  induction s as [|d s IH]; [done|].
  rewrite app_cons. simpl. by rewrite IH, orb_assoc.
Qed.

Lemma single_line_part (p s : string) :
  Py.contains p s = true → single_line s = true → single_line p = true.
Proof.
  intros (a & b & ->)%contains_inv. rewrite !single_line_app.
  by intros [_ [? _]%andb_true_iff]%andb_true_iff.
Qed.

Lemma occurs_part (c : ascii) (p s : string) :
  Py.contains p s = true → occurs c s = false → occurs c p = false.
Proof.
  intros (a & b & ->)%contains_inv. rewrite !occurs_app.
  by intros [_ [? _]%orb_false_iff]%orb_false_iff.
Qed.

Lemma contains_part (x p s : string) :
  Py.contains p s = true → Py.contains x s = false → Py.contains x p = false.
Proof.
  intros Hp Hs. destruct (Py.contains x p) eqn:E; [|done].
  by rewrite (contains_trans _ _ _ E Hp) in Hs.
Qed.

(** A character of the pattern that the text lacks rules out the pattern. *)
Lemma contains_lacking (c : ascii) (p s : string) :
  occurs c p = true → occurs c s = false → Py.contains p s = false.
Proof.
  intros Hp Hs. destruct (Py.contains p s) eqn:E; [|done].
  apply contains_inv in E as (a & b & ->). rewrite !occurs_app, Hp in Hs.
  by rewrite orb_true_r in Hs.
Qed.

Lemma split_go_first_prefix (fuel : nat) (sep s x : string) (xs : list string) :
  Py.split_go fuel sep s = x :: xs → Py.startswith x s = true.
Proof.
  revert s x xs. induction fuel as [|fuel IH]; intros s x xs; simpl.
  - intros [= <- <-]. apply startswith_refl.
  - destruct (Py.startswith sep s); [by intros [= <- <-]|].
    destruct s as [|c s]; [by intros [= <- <-]|].
    destruct (Py.split_go fuel sep s) as [|y ys] eqn:E;
      [by apply split_go_nonempty in E|].
    simpl. intros [= <- <-]. simpl. by rewrite Ascii.eqb_refl, (IH _ _ _ E).
Qed.

Lemma split_go_parts (fuel : nat) (sep s p : string) :
  p ∈ Py.split_go fuel sep s → Py.contains p s = true.
Proof.
  revert s. induction fuel as [|fuel IH]; intros s; cbn [Py.split_go].
  - intros ->%list_elem_of_singleton. apply startswith_contains, startswith_refl.
  - destruct (Py.startswith sep s).
    + intros [->|Hin]%elem_of_cons; [by destruct s|].
      eapply contains_skip. by apply IH.
    + destruct s as [|c s]; [by intros ->%list_elem_of_singleton|].
      destruct (Py.split_go fuel sep s) as [|y ys] eqn:E;
        [by apply split_go_nonempty in E|].
      cbn [Py.cons_first]. intros [->|Hin]%elem_of_cons.
      * apply startswith_contains. simpl.
        by rewrite Ascii.eqb_refl, (split_go_first_prefix _ _ _ _ _ E).
      * apply contains_cons, IH. rewrite E. by right.
Qed.

(** Every piece of a split is a part of the text that was split. *)
Lemma split_parts (sep s p : string) :
  p ∈ Py.split sep s → Py.contains p s = true.
Proof. apply split_go_parts. Qed.

Lemma split_go_no_sep (a : ascii) (sep' : string) (fuel : nat) (s : string) :
  (String.length s < fuel)%nat →
  Forall (λ p, Py.contains (String a sep') p = false)
         (Py.split_go fuel (String a sep') s).
Proof.
  revert s. induction fuel as [|fuel IH]; intros s Hfuel; [lia|].
  cbn [Py.split_go]. destruct (Py.startswith (String a sep') s) eqn:Es.
  - constructor; [done|]. apply IH. destruct s as [|c s]; [done|].
    pose proof (skip_length_le (String.length sep') s). simpl in *. lia.
  - destruct s as [|c s]; [by repeat constructor|].
    simpl in Hfuel. specialize (IH s ltac:(lia)).
    destruct (Py.split_go fuel (String a sep') s) as [|y ys] eqn:E;
      [by apply split_go_nonempty in E|].
    apply Forall_cons in IH as [Hy Hys]. simpl. constructor; [|done].
    cbn [Py.contains]. rewrite Hy, orb_false_r.
    destruct (Py.startswith (String a sep') (String c y)) eqn:Ey; [|done].
    rewrite <- Es. symmetry. eapply startswith_trans; [done|].
    simpl. by rewrite Ascii.eqb_refl, (split_go_first_prefix _ _ _ _ _ E).
Qed.

(** No piece of a split holds the separator. *)
Lemma split_no_sep (a : ascii) (sep' s : string) :
  Forall (λ p, Py.contains (String a sep') p = false)
         (Py.split (String a sep') s).
Proof. apply split_go_no_sep. lia. Qed.

Lemma greedy_upto_prefix (close s cap : string) :
  Re.greedy_upto close s = Some cap →
  Py.startswith cap s = true ∧ single_line cap = true.
Proof.
  revert cap. induction s as [|c s IH]; intros cap; simpl.
  - destruct (Py.startswith close ""); [by intros [= <-]|done].
  - destruct (Ascii.eqb c Re.newline) eqn:Ec.
    + destruct (Py.startswith close (String c s)); [by intros [= <-]|done].
    + destruct (Re.greedy_upto close s) as [cap'|].
      * intros [= <-]. destruct (IH _ eq_refl) as [Hp Hl]. simpl.
        by rewrite Ascii.eqb_refl, Hp, Ec, Hl.
      * destruct (Py.startswith close (String c s)); [by intros [= <-]|done].
Qed.

(** The section a pattern finds is a part of the text and holds no line
    feed. *)
Lemma first_between_part (open close s sec : string) :
  Re.first_between open close s = Some sec →
  Py.contains sec s = true ∧ single_line sec = true.
Proof.
  induction s as [|c s IH].
  - cbn [Re.first_between]. destruct (Py.startswith open ""); [|done].
    destruct (Re.greedy_upto close _) as [cap|] eqn:E; [|done].
    intros [= <-]. apply greedy_upto_prefix in E as [Hp Hl]. split; [|done].
    eapply contains_skip. by apply startswith_contains.
  - rewrite first_between_cons.
    destruct (if Py.startswith open (String c s) then _ else None) as [cap|] eqn:E.
    + intros [= <-]. destruct (Py.startswith open (String c s)); [|done].
      apply greedy_upto_prefix in E as [Hp Hl]. split; [|done].
      eapply contains_skip. by apply startswith_contains.
    + intros H. destruct (IH H) as [Hc Hl]. split; [|done]. by apply contains_cons.
Qed.

(** The cell fragments of a worksheet text are parts of it. *)
Lemma tag_cr_lines_parts (text sec line : string) :
  Re.first_between "<sheetData>" "</sheetData>" text = Some sec →
  line ∈ tail (Py.split "<c r=" sec) →
  Py.contains line text = true ∧ single_line line = true.
Proof.
  intros [Hsec Hl]%first_between_part Hin.
  assert (Py.contains line sec = true) as Hline.
  { apply split_parts with "<c r=". destruct (Py.split "<c r=" sec); [done|]. by right. }
  split; [by eapply contains_trans | by eapply single_line_part].
Qed.

(** ** What scrape_worksheetxml raises and returns *)

Lemma cell_of_line_raise (ss : shared) (line : string) (e : exception) :
  cell_of_line ss line = Raise e →
  e = IndexError ∨
  Py.contains string_marker line = true ∧
  ∃ tok, Re.first_between "<v>" "</v>" line = Some tok ∧
         (Py.int tok = None ∧ e = ValueError_int tok ∨
          ∃ i, Py.int tok = Some i ∧ ss !! i = None ∧ e = KeyError_int i).
Proof.
  unfold cell_of_line.
  destruct (Re.first_cell_address line); simpl; [|intros [= <-]; by left].
  destruct (Re.first_between "<v>" "</v>" line) as [tok|]; simpl;
    [|intros [= <-]; by left].
  destruct (Py.contains string_marker line); [|done].
  destruct (Py.int tok) as [i|] eqn:Ei; simpl.
  - destruct (ss !! i) eqn:Es; simpl; [done|]. intros [= <-].
    right. split; [done|]. exists tok. split; [done|]. right. by exists i.
  - intros [= <-]. right. split; [done|]. exists tok. split; [done|]. by left.
Qed.

Lemma cell_of_line_ok (ss : shared) (line addr v : string) :
  cell_of_line ss line = Ok (addr, v) →
  Re.first_cell_address line = Some addr ∧
  ∃ tok, Re.first_between "<v>" "</v>" line = Some tok ∧
         (Py.contains string_marker line = false ∧ v = tok ∨
          Py.contains string_marker line = true ∧
          ∃ i, Py.int tok = Some i ∧ ss !! i = Some v).
Proof.
  unfold cell_of_line.
  destruct (Re.first_cell_address line) as [a|]; simpl; [|done].
  destruct (Re.first_between "<v>" "</v>" line) as [tok|]; simpl; [|done].
  destruct (Py.contains string_marker line).
  - destruct (Py.int tok) as [i|] eqn:Ei; simpl; [|done].
    destruct (ss !! i) as [s|] eqn:Es; simpl; [|done]. intros [= <- <-].
    split; [done|]. exists tok. split; [done|]. right. split; [done|].
    by exists i.
  - simpl. intros [= <- <-]. split; [done|]. exists tok. split; [done|]. by left.
Qed.

Lemma scrape_lines_raise_inv (ss : shared) (lines : list string) (data : grid)
  (e : exception) :
  scrape_lines ss lines data = Raise e →
  ∃ line, line ∈ lines ∧ cell_of_line ss line = Raise e.
Proof.
  revert data. induction lines as [|l ls IH]; intros data; [done|]. simpl.
  destruct (cell_of_line ss l) as [cell|e0] eqn:El; simpl.
  - intros H. destruct (IH _ H) as (line & Hin & Hline).
    exists line. split; [by right | done].
  - intros [= <-]. exists l. split; [by left | done].
Qed.

Lemma scrape_lines_ext (ss1 ss2 : shared) (lines : list string) (data : grid) :
  (∀ line, line ∈ lines → cell_of_line ss1 line = cell_of_line ss2 line) →
  scrape_lines ss1 lines data = scrape_lines ss2 lines data.
Proof.
  revert data. induction lines as [|l ls IH]; intros data Hext; [done|]. simpl.
  rewrite (Hext l) by (by left).
  destruct (cell_of_line ss2 l); simpl; [|done].
  apply IH. intros line Hin. apply Hext. by right.
Qed.

Lemma cell_of_line_no_marker (ss1 ss2 : shared) (line : string) :
  Py.contains string_marker line = false →
  cell_of_line ss1 line = cell_of_line ss2 line.
Proof. intros H. unfold cell_of_line. by rewrite H. Qed.

(** X7.  [scrape_worksheetxml] raises [IndexError], the [ValueError] of [int] for
    a token of the text that [int] does not accept, or the [KeyError] of an
    index the table lacks, and nothing else; on a text that nowhere holds
    the string marker it raises nothing but [IndexError]. *)
Theorem scrape_worksheetxml_raises (text : string) (ss : option shared)
  (e : exception) :
  scrape_worksheetxml text ss = Raise e →
  (e = IndexError ∨
   (∃ tok, Py.contains tok text = true ∧ Py.int tok = None ∧
           e = ValueError_int tok) ∨
   (∃ i, default ∅ ss !! i = None ∧ e = KeyError_int i)) ∧
  (Py.contains string_marker text = false → e = IndexError).
Proof.
  unfold scrape_worksheetxml.
  destruct (Re.first_between "<sheetData>" "</sheetData>" text) as [sec|] eqn:Hsec;
    simpl; [|intros [= <-]; by split; [left|]].
  intros (line & Hin & Hline)%scrape_lines_raise_inv.
  destruct (tag_cr_lines_parts _ _ _ Hsec Hin) as [Hpart _].
  apply cell_of_line_raise in Hline as [->|(Hm & tok & Htok & Hcase)].
  { by split; [left|]. }
  split.
  - destruct Hcase as [[Hint ->]|(i & Hint & Hss & ->)].
    + right. left. exists tok. split_and!; [|done..].
      apply first_between_part in Htok as [Htok _]. by eapply contains_trans.
    + right. right. by exists i.
  - intros Hno. by rewrite (contains_trans _ _ _ Hm Hpart) in Hno.
Qed.

(** X8.  A cell fragment with no value token -- an empty cell, a cell with an
    inline string -- makes the scrape of its worksheet fail, with
    [IndexError] when the cells before it scrape. *)
Theorem cell_without_value_raises (text : string) (ss : shared) (sec : string)
  (before after : list string) (line : string) :
  Re.first_between "<sheetData>" "</sheetData>" text = Some sec →
  tail (Py.split "<c r=" sec) = before ++ line :: after →
  Re.first_between "<v>" "</v>" line = None →
  (∃ e, scrape_worksheetxml text (Some ss) = Raise e) ∧
  (Forall (λ l, is_Ok (cell_of_line ss l)) before →
   scrape_worksheetxml text (Some ss) = Raise IndexError).
Proof.
  intros Hsec Hlines Hv. eapply scrape_worksheetxml_raise; [done..|].
  unfold cell_of_line. rewrite Hv.
  by destruct (Re.first_cell_address line).
Qed.

Lemma tag_cr_lines_nil (sec : string) :
  tail (Py.split "<c r=" sec) = [] ↔ Py.contains "<c r=" sec = false.
Proof.
  split.
  - intros Htail. pose proof (join_split "<c r=" sec) as Hjoin.
    pose proof (split_no_sep "<" "c r=" sec) as Hno.
    destruct (Py.split "<c r=" sec) as [|x xs]; [by simpl in Hjoin; subst sec|].
    simpl in Htail. subst xs.
    simpl in Hjoin. subst x. by apply Forall_cons in Hno as [? _].
  - intros H. by rewrite (split_absent "<" "c r=" sec H).
Qed.

(** X9.  The grid of a worksheet is empty exactly when its sheet data holds no
    cell marker: rows and other markup alone give the empty grid. *)
Theorem scrape_empty_grid (text : string) (ss : option shared) (sec : string) :
  Re.first_between "<sheetData>" "</sheetData>" text = Some sec →
  (Py.contains "<c r=" sec = false → scrape_worksheetxml text ss = Ok ∅) ∧
  (∀ g, scrape_worksheetxml text ss = Ok g →
        g = ∅ ↔ Py.contains "<c r=" sec = false).
Proof.
  intros Hsec. unfold scrape_worksheetxml. rewrite Hsec. simpl.
  assert (Py.contains "<c r=" sec = false →
          scrape_lines (default ∅ ss) (tail (Py.split "<c r=" sec)) ∅ = Ok ∅) as Hempty.
  { intros H. apply tag_cr_lines_nil in H. by rewrite H. }
  split; [done|]. intros g Hg. split.
  - intros ->. apply tag_cr_lines_nil.
    apply scrape_lines_spec in Hg as (cells & Hcells & Hput).
    destruct cells as [|c cs]; [by inversion Hcells|]. exfalso.
    assert (c.1 ∈ dom (put_cells ∅ (c :: cs))) as Hin.
    { unfold put_cells. rewrite put_all_dom. apply elem_of_union_r.
      rewrite fmap_cons, list_to_set_cons. by apply elem_of_union_l, elem_of_singleton. }
    rewrite <- Hput, dom_empty_L in Hin. by apply not_elem_of_empty in Hin.
  - intros H. rewrite (Hempty H) in Hg. by injection Hg.
Qed.

Lemma cell_of_line_weaken (ss ss' : shared) (line : string)
  (cell : string * string) :
  ss ⊆ ss' → cell_of_line ss line = Ok cell → cell_of_line ss' line = Ok cell.
Proof.
  intros Hsub. unfold cell_of_line.
  destruct (Re.first_cell_address line); simpl; [|done].
  destruct (Re.first_between "<v>" "</v>" line) as [tok|]; simpl; [|done].
  destruct (Py.contains string_marker line); [|done].
  destruct (Py.int tok) as [i|]; simpl; [|done].
  destruct (ss !! i) as [v|] eqn:Ev; simpl; [|done].
  by rewrite (lookup_weaken _ _ _ _ Ev Hsub).
Qed.

(** X10.  The shared-string table matters to a scrape only through the marked
    cells: a text that nowhere holds the string marker scrapes alike with
    every table, and a scrape that succeeds with a table succeeds with the
    same grid for every table that extends it. *)
Theorem scrape_worksheetxml_table (text : string) :
  (Py.contains string_marker text = false →
   ∀ ss1 ss2 : option shared,
     scrape_worksheetxml text ss1 = scrape_worksheetxml text ss2) ∧
  (∀ (ss ss' : shared) (g : grid),
     ss ⊆ ss' → scrape_worksheetxml text (Some ss) = Ok g →
     scrape_worksheetxml text (Some ss') = Ok g).
Proof.
  split.
  - intros Hno ss1 ss2. unfold scrape_worksheetxml.
    destruct (Re.first_between "<sheetData>" "</sheetData>" text) as [sec|] eqn:Hsec;
      simpl; [|done].
    apply scrape_lines_ext. intros line Hin. apply cell_of_line_no_marker.
    destruct (tag_cr_lines_parts _ _ _ Hsec Hin) as [Hpart _].
    by eapply contains_part.
  - intros ss ss' g Hsub. unfold scrape_worksheetxml.
    destruct (Re.first_between "<sheetData>" "</sheetData>" text) as [sec|];
      simpl; [|done].
    rewrite !scrape_lines_spec. intros (cells & Hcells & ->).
    exists cells. split; [|done]. eapply Forall2_impl; [done|].
    intros line cell. by apply cell_of_line_weaken.
Qed.

Lemma upto_quote_prefix (s : string) :
  Py.startswith (Re.upto_quote s) s = true ∧ occurs quote (Re.upto_quote s) = false.
Proof.
  induction s as [|c s [IH1 IH2]]; [done|]. cbn [Re.upto_quote].
  destruct (Ascii.eqb c quote) eqn:Ec; [done|].
  cbn [Py.startswith occurs].
  rewrite Ascii.eqb_refl, IH1, IH2, orb_false_r, Ascii.eqb_sym. by split.
Qed.

Lemma first_cell_address_shape (s addr : string) :
  Re.first_cell_address s = Some addr →
  Py.contains addr s = true ∧ occurs quote addr = false ∧
  ∃ c d r, addr = String c (String d r) ∧ Re.address_start c = true.
Proof.
  induction s as [|c s IH]; [done|]. cbn [Re.first_cell_address].
  destruct s as [|d s]; [done|].
  destruct (Re.address_start c && negb (Ascii.eqb d quote)) eqn:E.
  - intros [= <-]. apply andb_true_iff in E as [Hc Hd]. apply negb_true_iff in Hd.
    destruct (upto_quote_prefix (String d s)) as [Hp Hq].
    cbn [Re.upto_quote] in Hp, Hq. split_and!.
    + apply startswith_contains. cbn [Py.startswith].
      by rewrite Ascii.eqb_refl, Hp.
    + cbn [occurs]. rewrite Hq, orb_false_r.
      by destruct c as [[] [] [] [] [] [] [] []].
    + rewrite Hd. by eexists _, _, _.
  - intros H. destruct (IH H) as (Hc & Hq & Hshape).
    split_and!; [by apply contains_cons | done..].
Qed.

(** X11.  Every address of a scraped grid is a text of two characters or more
    taken from the worksheet, without double quote or line feed; every value
    is a token taken from the worksheet, without line feed, or an entry of
    the shared-string table. *)
Theorem scrape_grid_entries (text : string) (ss : option shared) (g : grid)
  (addr v : string) :
  scrape_worksheetxml text ss = Ok g →
  g !! addr = Some v →
  (Py.contains addr text = true ∧ (2 ≤ String.length addr)%nat ∧
   occurs quote addr = false ∧ single_line addr = true) ∧
  (Py.contains v text = true ∧ single_line v = true ∨
   ∃ i, default ∅ ss !! i = Some v).
Proof.
  unfold scrape_worksheetxml.
  destruct (Re.first_between "<sheetData>" "</sheetData>" text) as [sec|] eqn:Hsec;
    simpl; [|done].
  intros (cells & Hcells & ->)%scrape_lines_spec
    [Hempty|Hin]%put_all_lookup_Some; [by rewrite lookup_empty in Hempty|].
  apply list_elem_of_lookup in Hin as (j & Hj).
  destruct (Forall2_lookup_r _ _ _ _ _ Hcells Hj) as (line & Hline & Hcell).
  apply list_elem_of_lookup_2 in Hline.
  destruct (tag_cr_lines_parts _ _ _ Hsec Hline) as [Hpart Hsingle].
  apply cell_of_line_ok in Hcell as (Haddr & tok & Htok & Hcase).
  apply first_cell_address_shape in Haddr as (Ha & Hq & c & d & r & -> & _).
  split.
  - split_and!; [by eapply contains_trans | simpl; lia | done |].
    by eapply single_line_part.
  - destruct Hcase as [[_ ->]|(_ & i & _ & Hv)]; [left | right; by exists i].
    apply first_between_part in Htok as [Ht Hl].
    split; [by eapply contains_trans | done].
Qed.

(** ** Reading back a worksheet written cell by cell *)

(** Two texts written with different bracketing of their parts. *)
Ltac text_eq :=
  repeat first [rewrite app_cons | rewrite app_assoc' | rewrite app_empty_l];
  reflexivity.

Lemma startswith_around (c : ascii) (p u w : string) :
  occurs c p = false →
  Py.startswith p (u +:+ String c w) = Py.startswith p u.
Proof.
  revert u. induction p as [|a p IH]; intros u Hp; [done|].
  cbn [occurs] in Hp. apply orb_false_iff in Hp as [Hca Hp].
  destruct u as [|b u].
  - rewrite app_empty_l. cbn [Py.startswith]. by rewrite Ascii.eqb_sym, Hca.
  - rewrite app_cons. cbn [Py.startswith]. by rewrite IH.
Qed.

Lemma contains_around (c : ascii) (p u w : string) :
  occurs c p = false →
  Py.contains p (u +:+ String c w) = Py.contains p u || Py.contains p w.
Proof.
  intros Hp. induction u as [|b u IH].
  - rewrite app_empty_l. cbn [Py.contains].
    rewrite <- (app_empty_l (String c w)), (startswith_around c p "" w Hp).
    by rewrite orb_false_r.
  - rewrite app_cons. cbn [Py.contains].
    rewrite <- app_cons, (startswith_around c p (String b u) w Hp), IH.
    by rewrite !orb_assoc.
Qed.

Lemma string_marker_quoted (u : string) :
  occurs quote u = false →
  Py.contains string_marker (String quote (u +:+ String quote "")) = false.
Proof.
  intros Hu. cbn [Py.contains]. rewrite orb_false_iff. split; [done|].
  induction u as [|b u IH]; [done|].
  cbn [occurs] in Hu. apply orb_false_iff in Hu as [Hb Hu].
  rewrite app_cons. cbn [Py.contains]. rewrite (IH Hu), orb_false_r.
  change string_marker
    with (String "t" (String "=" (String quote (String "s" (String quote ""))))).
  destruct u as [|c1 [|c2 u]].
  - rewrite app_empty_l. cbn [Py.startswith].
    change (Ascii.eqb "=" quote) with false. by rewrite andb_false_r.
  - rewrite app_cons, app_empty_l. cbn [Py.startswith].
    by rewrite !andb_false_r.
  - cbn [occurs] in Hu. apply orb_false_iff in Hu as [_ [Hc2 _]%orb_false_iff].
    rewrite !app_cons. cbn [Py.startswith]. by rewrite Hc2, !andb_false_r.
Qed.

Lemma cell_ok_inv (c : cell) :
  cell_ok c = true →
  (∃ a b r, address c = String a (String b r) ∧ Re.address_start a = true) ∧
  occurs quote (address c) = false ∧
  occurs "<" (address c) = false ∧
  single_line (address c) = true ∧
  occurs "<" (token c) = false ∧
  single_line (token c) = true ∧
  (shared_string c = false → Py.contains string_marker (token c) = false).
Proof.
  unfold cell_ok. rewrite !andb_true_iff, !negb_true_iff.
  intros ((((((Ha & ?) & ?) & ?) & ?) & ?) & Hm). split_and!; try done.
  - destruct (address c) as [|a [|b r]]; try done. by exists a, b, r.
  - intros Hs. rewrite Hs in Hm. by apply negb_true_iff in Hm.
Qed.

Lemma cell_line_address (c : cell) :
  cell_ok c = true → Re.first_cell_address (cell_line c) = Some (address c).
Proof.
  intros ((a & b & r & Ha & Hstart) & Hq & _)%cell_ok_inv. unfold cell_line.
  rewrite Ha in *. by apply first_cell_address_quoted.
Qed.

Lemma cell_line_value (c : cell) :
  cell_ok c = true → Re.first_between "<v>" "</v>" (cell_line c) = Some (token c).
Proof.
  intros (_ & _ & Hlt & _ & Hlt' & Hl & _)%cell_ok_inv. unfold cell_line.
  assert (∀ attrs, occurs "<" attrs = false →
    Re.first_between "<v>" "</v>"
      (String quote
         (address c +:+
          String quote (attrs +:+ "><v>" +:+ token c +:+ "</v></c>")))
    = Some (token c)) as Hgen.
  { intros attrs Hattrs.
    replace (String quote
               (address c +:+
                String quote (attrs +:+ "><v>" +:+ token c +:+ "</v></c>")))
      with ((String quote (address c +:+ String quote (attrs +:+ ">")))
            +:+ "<v>" +:+ (token c +:+ "</v>" +:+ "</c>")).
    2:{ text_eq. }
    assert (Re.greedy_upto "</v>" (token c +:+ "</v>" +:+ "</c>")
            = Some (token c)) as Hg.
    { by apply greedy_upto_section. }
    rewrite first_between_section; [done | done | | by rewrite Hg].
    apply (contains_lacking "<"); [done|].
    cbn [occurs]. rewrite !occurs_app. cbn [occurs]. rewrite !occurs_app.
    by rewrite Hlt, Hattrs. }
  destruct (shared_string c); by apply Hgen.
Qed.

Lemma cell_line_marker (c : cell) :
  cell_ok c = true → Py.contains string_marker (cell_line c) = shared_string c.
Proof.
  intros (_ & Hq & _ & _ & _ & _ & Hm)%cell_ok_inv. unfold cell_line.
  destruct (shared_string c).
  - replace (String quote
               (address c +:+
                String quote ((" " +:+ string_marker) +:+
                              "><v>" +:+ token c +:+ "</v></c>")))
      with ((String quote (address c +:+ String quote " ")) +:+ string_marker
            +:+ ("><v>" +:+ token c +:+ "</v></c>")).
    + apply contains_intro.
    + text_eq.
  - rewrite app_empty_l.
    replace (String quote
               (address c +:+ String quote ("><v>" +:+ token c +:+ "</v></c>")))
      with ((String quote (address c +:+ String quote "")) +:+
            String ">" ("<v" +:+ String ">" (token c +:+ String "<" "/v></c>"))).
    2:{ text_eq. }
    rewrite !contains_around by done.
    by rewrite string_marker_quoted, Hm.
Qed.

Lemma cell_line_single (c : cell) :
  cell_ok c = true → single_line (cell_line c) = true.
Proof.
  intros (_ & _ & _ & Ha & _ & Ht & _)%cell_ok_inv. unfold cell_line.
  cbn [single_line]. rewrite !single_line_app. cbn [single_line].
  rewrite !single_line_app, Ha, Ht. by destruct (shared_string c).
Qed.

Lemma cell_line_closed (c : cell) (rest : string) :
  cell_ok c = true →
  Py.contains "<c r=" (cell_line c +:+ rest) = Py.contains "<c r=" rest.
Proof.
  intros (_ & _ & Ha & _ & Ht & _ & _)%cell_ok_inv. unfold cell_line.
  assert (∀ attrs, occurs "<" attrs = false →
    Py.contains "<c r="
      (String quote
         (address c +:+
          String quote (attrs +:+ "><v>" +:+ token c +:+ "</v></c>")) +:+ rest)
    = Py.contains "<c r=" rest) as Hgen.
  { intros attrs Hattrs.
    replace (String quote
               (address c +:+
                String quote (attrs +:+ "><v>" +:+ token c +:+ "</v></c>"))
             +:+ rest)
      with ((String quote (address c +:+ String quote (attrs +:+ ">"))) +:+
            String "<" (("v>" +:+ token c) +:+
                        String "<" ("/v>" +:+ String "<" ("/c>" +:+ rest)))).
    2:{ text_eq. }
    rewrite contains_after.
    2:{ cbn [occurs]. rewrite !occurs_app. cbn [occurs]. rewrite !occurs_app.
        by rewrite Ha, Hattrs. }
    cbn [Py.contains Py.startswith]. rewrite app_cons. cbn [Py.startswith].
    rewrite andb_false_r, orb_false_l.
    change (String "v" (">" +:+ token c) +:+
            String "<" ("/v>" +:+ String "<" ("/c>" +:+ rest)))
      with (("v>" +:+ token c) +:+
            String "<" ("/v>" +:+ String "<" ("/c>" +:+ rest))).
    rewrite contains_after.
    2:{ rewrite occurs_app. by rewrite Ht. }
    cbn [Py.contains Py.startswith]. rewrite andb_false_r, orb_false_l.
    rewrite (contains_after "<" "c r=" "/v>") by done.
    cbn [Py.contains Py.startswith]. rewrite andb_false_r, orb_false_l.
    by rewrite (contains_after "<" "c r=" "/c>"). }
  destruct (shared_string c); by apply Hgen.
Qed.

Lemma cell_of_line_cell (ss : shared) (c : cell) :
  cell_ok c = true → cell_of_line ss (cell_line c) = cell_entry ss c.
Proof.
  intros Hc. unfold cell_of_line, cell_entry.
  rewrite (cell_line_address c Hc), (cell_line_value c Hc), (cell_line_marker c Hc).
  simpl. destruct (shared_string c); [|done].
  destruct (Py.int (token c)) as [i|]; simpl; [|done].
  by destruct (ss !! i).
Qed.

Lemma cells_xml_single (cells : list cell) :
  Forall (λ c, cell_ok c = true) cells → single_line (cells_xml cells) = true.
Proof.
  induction 1 as [|c cells Hc _ IH]; [done|]. cbn [cells_xml].
  rewrite !single_line_app, IH, (cell_line_single c Hc). done.
Qed.

Lemma split_cell_lines (c : cell) (cells : list cell) :
  cell_ok c = true → Forall (λ c, cell_ok c = true) cells →
  Py.split "<c r=" (cell_line c +:+ cells_xml cells)
  = cell_line c :: (cell_line <$> cells).
Proof.
  intros Hc Hcells. revert c Hc.
  induction Hcells as [|c' cells Hc' _ IH]; intros c Hc.
  - cbn [cells_xml]. rewrite app_empty_r. apply (split_absent "<" "c r=").
    rewrite <- (app_empty_r (cell_line c)). by rewrite cell_line_closed.
  - cbn [cells_xml]. rewrite (split_app "<" "c r="); [by rewrite IH | done |].
    rewrite <- (app_empty_r (cell_line c)). by rewrite cell_line_closed.
Qed.

Lemma tag_cr_lines_cells (cells : list cell) :
  Forall (λ c, cell_ok c = true) cells →
  tail (Py.split "<c r=" (cells_xml cells)) = cell_line <$> cells.
Proof.
  intros Hcells. destruct Hcells as [|c cells Hc Hcells]; [done|].
  cbn [cells_xml].
  rewrite <- (app_empty_l ("<c r=" +:+ cell_line c +:+ cells_xml cells)).
  rewrite (split_app "<" "c r=" ""); [|done..].
  by rewrite split_cell_lines.
Qed.

Lemma sheet_of_section (cells : list cell) :
  Forall (λ c, cell_ok c = true) cells →
  Re.first_between "<sheetData>" "</sheetData>" (sheet_of cells)
  = Some (cells_xml cells).
Proof.
  intros Hcells. unfold sheet_of.
  assert (Re.greedy_upto "</sheetData>"
            (cells_xml cells +:+ "</sheetData>" +:+ "</worksheet>")
          = Some (cells_xml cells)) as Hg.
  { apply greedy_upto_section; [done | by apply cells_xml_single | done]. }
  change ("<worksheet><sheetData>" +:+ cells_xml cells
          +:+ "</sheetData></worksheet>")
    with ("<worksheet>" +:+ "<sheetData>" +:+ cells_xml cells
          +:+ "</sheetData>" +:+ "</worksheet>").
  rewrite first_between_section; [done | done | done | by rewrite Hg].
Qed.

Lemma scrape_sheet_of_spec (ss : option shared) (cells : list cell) (g : grid) :
  Forall (λ c, cell_ok c = true) cells →
  scrape_worksheetxml (sheet_of cells) ss = Ok g
  ↔ ∃ entries,
      Forall2 (λ c e, cell_entry (default ∅ ss) c = Ok e) cells entries ∧
      g = put_cells ∅ entries.
Proof.
  intros Hcells. unfold scrape_worksheetxml.
  rewrite (sheet_of_section cells Hcells). simpl.
  rewrite (tag_cr_lines_cells cells Hcells), scrape_lines_spec.
  assert (∀ entries,
    Forall2 (λ line e, cell_of_line (default ∅ ss) line = Ok e)
            (cell_line <$> cells) entries
    ↔ Forall2 (λ c e, cell_entry (default ∅ ss) c = Ok e) cells entries) as Hall.
  { intros entries. rewrite Forall2_fmap_l. revert entries.
    induction Hcells as [|c cells Hc _ IH]; intros entries.
    - split; inversion 1; constructor.
    - split; inversion 1 as [|? e ? es He Hes]; subst; constructor;
        try (by apply IH).
      + unfold compose in He. by rewrite <- (cell_of_line_cell _ c Hc).
      + unfold compose. by rewrite (cell_of_line_cell _ c Hc). }
  split; intros (entries & Hentries & ->); exists entries;
    (split; [by apply Hall | done]).
Qed.

(** X12.  A worksheet written cell by cell is read back cell by cell: the scrape
    of [sheet_of cells] returns a grid exactly when every marked cell has an
    integer token that the shared-string table resolves, and the grid then
    is the one the cells' entries give, a later cell replacing an earlier
    one of the same address.  Where no cell is marked, the grid maps each
    address to its token, whatever the table. *)
Theorem scrape_sheet_of (ss : option shared) (cells : list cell) :
  Forall (λ c, cell_ok c = true) cells →
  (∀ g, scrape_worksheetxml (sheet_of cells) ss = Ok g
        ↔ ∃ entries,
            Forall2 (λ c e, cell_entry (default ∅ ss) c = Ok e) cells entries ∧
            g = put_cells ∅ entries) ∧
  (Forall (λ c, shared_string c = false) cells →
   scrape_worksheetxml (sheet_of cells) ss
   = Ok (put_cells ∅ ((λ c, (address c, token c)) <$> cells))).
Proof.
  intros Hcells. split; [intros g; by apply scrape_sheet_of_spec|].
  intros Hplain. apply scrape_sheet_of_spec; [done|].
  eexists. split; [|done]. apply Forall2_fmap_r, Forall_Forall2_diag.
  eapply Forall_impl; [exact Hplain|]. intros c Hc. unfold cell_entry.
  by rewrite Hc.
Qed.

(** ** The names get_sheetnames returns *)

Lemma sheetnames_of_lines_elem (sheet_lines names : list string) (name : string) :
  sheetnames_of_lines sheet_lines = Ok names → name ∈ names →
  ∃ line, line ∈ sheet_lines ∧ name ∈ Py.split (String quote "") line.
Proof.
  revert names. induction sheet_lines as [|l ls IH]; intros names; simpl.
  - intros [= <-] Hin. by apply elem_of_nil in Hin.
  - change (dq "'") with (String quote "").
    destruct (Py.split (String quote "") l !! 1%nat) as [n|] eqn:Hn; simpl; [|done].
    destruct (sheetnames_of_lines ls) as [ns|]; simpl; [|done].
    intros [= <-] [->|Hin]%elem_of_cons.
    + exists l. split; [by left|]. by eapply list_elem_of_lookup_2.
    + destruct (IH ns eq_refl Hin) as (line & Hline & Hname).
      exists line. split; [by right | done].
Qed.

Lemma elem_of_but_last {A : Type} (x : A) (l : list A) :
  x ∈ Py.but_last l → x ∈ l.
Proof.
  unfold Py.but_last. induction l as [|y l IH]; [done|].
  destruct l as [|z l]; simpl.
  - intros H. by apply elem_of_nil in H.
  - intros [->|Hin]%elem_of_cons; [by left | right; by apply IH].
Qed.

Lemma length_but_last {A : Type} (l : list A) :
  l ≠ [] → S (length (Py.but_last l)) = length l.
Proof.
  unfold Py.but_last. induction l as [|y l IH]; [done|]. intros _.
  destruct l as [|z l]; [done|].
  change (S (S (length (removelast (z :: l)))) = S (length (z :: l))).
  f_equal. by apply IH.
Qed.

Lemma contains_char (c : ascii) (s : string) :
  Py.contains (String c "") s = occurs c s.
Proof.
  induction s as [|a s IH]; [done|].
  cbn [Py.contains Py.startswith occurs]. by rewrite IH, andb_true_r.
Qed.

(** X13.  The names [get_sheetnames] returns are taken from the text: each is a
    part of the text that holds no double quote, no line feed and no
    declaration terminator; and there is one name for every terminator of
    the sheets section, a declaration that names nothing being an error and
    never skipped. *)
Theorem get_sheetnames_names (text : string) (names : list string) :
  get_sheetnames text = Ok names →
  Forall (λ name, Py.contains name text = true ∧ occurs quote name = false ∧
                  single_line name = true ∧ Py.contains "/>" name = false)
         names ∧
  ∃ sec, Re.first_between "<sheets>" "</sheets>" text = Some sec ∧
         S (length names) = length (Py.split "/>" sec).
Proof.
  unfold get_sheetnames.
  destruct (Re.first_between "<sheets>" "</sheets>" text) as [sec|] eqn:Hsec;
    simpl; [|done].
  intros Hnames. split.
  - apply Forall_forall. intros name Hin.
    destruct (sheetnames_of_lines_elem _ _ _ Hnames Hin) as (line & Hline & Hname).
    apply elem_of_but_last in Hline.
    pose proof (split_parts _ _ _ Hline) as Hpart.
    pose proof (split_parts _ _ _ Hname) as Hpart'.
    apply first_between_part in Hsec as [Hsec Hone].
    pose proof (split_no_sep "/" ">" sec) as Hno.
    rewrite Forall_forall in Hno. specialize (Hno line Hline).
    pose proof (split_no_sep quote "" line) as Hq.
    rewrite Forall_forall in Hq. specialize (Hq name Hname).
    rewrite contains_char in Hq.
    split_and!; [|done| |by eapply contains_part].
    + eapply contains_trans; [done|]. by eapply contains_trans.
    + eapply single_line_part; [done|]. by eapply single_line_part.
  - exists sec. split; [done|].
    apply sheetnames_of_lines_spec, Forall2_length in Hnames.
    rewrite <- Hnames. apply length_but_last, split_nonempty.
Qed.

(** ** Reading back a workbook *)

Lemma sheet_decl_eq (name : string) :
  sheet_decl name
  = "<sheet name=" +:+
    String quote (name +:+ String quote (dq " sheetId='1' r:id='rId1'")).
Proof. reflexivity. Qed.

Lemma name_ok_inv (name : string) :
  name_ok name = true →
  occurs quote name = false ∧ single_line name = true ∧
  Py.contains "/>" name = false.
Proof.
  unfold name_ok. rewrite !andb_true_iff, !negb_true_iff. by intros [[? ?] ?].
Qed.

Lemma sheet_decl_name (name : string) :
  name_ok name = true →
  Py.split (String quote "") (sheet_decl name) !! 1%nat = Some name.
Proof.
  intros (Hq & _ & _)%name_ok_inv. rewrite sheet_decl_eq.
  change ("<sheet name=" +:+
          String quote (name +:+ String quote (dq " sheetId='1' r:id='rId1'")))
    with ("<sheet name=" +:+ String quote "" +:+
          (name +:+ String quote "" +:+ dq " sheetId='1' r:id='rId1'")).
  rewrite (split_app quote ""); [|done..].
  rewrite (split_app quote ""); [done | done |]. by rewrite contains_char.
Qed.

Lemma sheet_decl_line (name : string) :
  name_ok name = true →
  single_line (sheet_decl name) = true ∧ Py.contains "/>" (sheet_decl name) = false.
Proof.
  intros (_ & Hl & Hc)%name_ok_inv. rewrite sheet_decl_eq. split.
  - rewrite single_line_app. cbn [single_line]. rewrite single_line_app, Hl.
    done.
  - rewrite !contains_around by done. by rewrite Hc.
Qed.

Lemma sheetnames_of_decls (names : list string) :
  Forall (λ name, name_ok name = true) names →
  sheetnames_of_lines (sheet_decl <$> names) = Ok names.
Proof.
  induction 1 as [|name names Hname _ IH]; [done|].
  rewrite fmap_cons. cbn [sheetnames_of_lines].
  change (dq "'") with (String quote "").
  by rewrite (sheet_decl_name name Hname), IH.
Qed.

Lemma get_sheetnames_workbook_xml (names : list string) :
  Forall (λ name, name_ok name = true) names →
  get_sheetnames (workbook_xml names) = Ok names.
Proof.
  intros Hnames.
  assert (Forall (λ d, single_line d = true ∧ Py.contains "/>" d = false)
                 (sheet_decl <$> names)) as Hdecls.
  { apply Forall_fmap. eapply Forall_impl; [done|].
    intros name. apply sheet_decl_line. }
  destruct (split_join_decls _ Hdecls) as [Hsplit Hline].
  unfold get_sheetnames, workbook_xml, manifest.
  pose proof (greedy_upto_section "<" "/sheets>" (join_decls (sheet_decl <$> names))
                "</workbook>" eq_refl Hline eq_refl) as Hg.
  rewrite first_between_section; [|done..|by rewrite Hg].
  rewrite Hg. simpl. rewrite Hsplit. by apply sheetnames_of_decls.
Qed.

Lemma zip_read_lookup (f_zip : archive) (name text : string) :
  NoDup (NameToInfo_keys f_zip) → (name, text) ∈ f_zip →
  zip_read f_zip name = Ok text.
Proof.
  unfold NameToInfo_keys. induction f_zip as [|[n t] f IH]; simpl.
  - by intros _ ?%elem_of_nil.
  - intros [Hn Hf]%NoDup_cons [[= -> ->]|Hin]%elem_of_cons.
    + by rewrite String.eqb_refl.
    + destruct (String.eqb_spec n name) as [->|_]; [|by apply IH].
      exfalso. apply Hn. apply list_elem_of_fmap. by exists (name, text).
Qed.

Lemma workbook_of_zipsheetnames (names strings : list string)
  (parts : list (string * list cell)) :
  Forall (λ p, Py.contains "sheet" p.1 = true) parts →
  get_zipsheetnames (workbook_of names strings parts) = parts.*1.
Proof.
  intros Hsheet. unfold get_zipsheetnames, NameToInfo_keys, workbook_of.
  rewrite !fmap_cons. cbn [List.filter fst].
  change (Py.contains "sheet" "xl/workbook.xml") with false.
  change (Py.contains "sheet" "xl/sharedStrings.xml") with false. cbn iota.
  induction Hsheet as [|[part cells] ps Hp _ IH]; [done|].
  rewrite !fmap_cons. cbn [List.filter fst prod_map id]. simpl in Hp.
  by rewrite Hp, IH.
Qed.

Lemma workbook_of_sharedStrings (names strings : list string)
  (parts : list (string * list cell)) :
  load_sharedStrings (workbook_of names strings parts)
  = Ok (get_sharedStrings (sst_xml strings)).
Proof. reflexivity. Qed.

Lemma workbook_of_manifest (names strings : list string)
  (parts : list (string * list cell)) :
  zip_read (workbook_of names strings parts) "xl/workbook.xml"
  = Ok (workbook_xml names).
Proof. reflexivity. Qed.

Lemma workbook_of_part (names strings : list string)
  (parts : list (string * list cell)) (part : string) (cells : list cell) :
  Forall (λ p, Py.contains "sheet" p.1 = true) parts →
  NoDup parts.*1 → (part, cells) ∈ parts →
  zip_read (workbook_of names strings parts) part = Ok (sheet_of cells).
Proof.
  intros Hsheet Hnodup Hin. unfold workbook_of. cbn [zip_read].
  rewrite Forall_forall in Hsheet. pose proof (Hsheet _ Hin) as Hp.
  simpl in Hp.
  destruct (String.eqb_spec "xl/workbook.xml" part) as [<-|_]; [done|].
  destruct (String.eqb_spec "xl/sharedStrings.xml" part) as [<-|_]; [done|].
  apply zip_read_lookup.
  - unfold NameToInfo_keys. rewrite <- list_fmap_compose.
    by replace (fst ∘ prod_map id sheet_of) with (@fst string (list cell)).
  - apply list_elem_of_fmap. by exists (part, cells).
Qed.

(** X14.  A workbook written sheet by sheet is read back sheet by sheet: asked
    for no sheet in particular, [readxl] with the scraper of the module
    returns, for an archive made of a manifest of distinct names, a
    shared-strings part and one worksheet part per name, a database whose
    sheets are the declared names, each with the grid of the cells written
    in the part at its position, string cells read through the table of the
    shared-strings part. *)
Theorem readxl_workbook_of (fs : filesystem) (fn : string)
  (names strings : list string) (parts : list (string * list cell)) :
  check_excelfile fs fn = Ok () →
  fs !! fn = Some (workbook_of names strings parts) →
  Forall (λ name, name_ok name = true) names → NoDup names →
  Forall (λ p, Py.contains "sheet" p.1 = true) parts → NoDup parts.*1 →
  length parts = length names →
  Forall (λ p, Forall (λ c, cell_ok c = true ∧
                            is_Ok (cell_entry (get_sharedStrings (sst_xml strings)) c))
                      p.2) parts →
  ∃ db, readxl scrape_py fs fn [] = Ok db ∧
        dom db = list_to_set names ∧
        ∀ (i : nat) name part cells,
          names !! i = Some name → parts !! i = Some (part, cells) →
          ∃ entries,
            Forall2 (λ c e, cell_entry (get_sharedStrings (sst_xml strings)) c = Ok e)
                    cells entries ∧
            db !! name = Some (put_cells ∅ entries).
Proof.
  intros Hcheck Hfs Hnames Hnodup Hsheet Hparts Hlen Hcells.
  set (ss := get_sharedStrings (sst_xml strings)) in *.
  assert (∀ part cells, (part, cells) ∈ parts →
            Forall (λ c, cell_ok c = true) cells ∧
            ∃ entries, Forall2 (λ c e, cell_entry ss c = Ok e) cells entries) as Hok.
  { intros part cells Hin. rewrite Forall_forall in Hcells.
    specialize (Hcells _ Hin). simpl in Hcells. split.
    - eapply Forall_impl; [done|]. by intros c [? _].
    - clear Hin. induction Hcells as [|c cs [_ [e He]] _ [es IH]]; [by exists []|].
      exists (e :: es). by constructor. }
  destruct (readxl_all_sheets scrape_py fs fn (workbook_of names strings parts)
              names ss Hcheck Hfs) as (db & Hdb & Hdom & _ & Hgrids).
  - rewrite workbook_of_manifest. simpl. by apply get_sheetnames_workbook_xml.
  - apply workbook_of_sharedStrings.
  - rewrite workbook_of_zipsheetnames by done. by rewrite length_fmap.
  - done.
  - intros part text. rewrite workbook_of_zipsheetnames by done.
    intros ([p cells] & -> & Hin)%list_elem_of_fmap. cbn [fst].
    rewrite (workbook_of_part _ _ _ _ _ Hsheet Hparts Hin). intros [= <-].
    destruct (Hok _ _ Hin) as [Hc [entries Hentries]].
    exists (put_cells ∅ entries). apply scrape_sheet_of_spec; [done|].
    by exists entries.
  - exists db. split_and!; [done..|]. intros i name part cells Hname Hpart.
    assert ((part, cells) ∈ parts) as Hin by (by eapply list_elem_of_lookup_2).
    destruct (Hgrids i name part (sheet_of cells) Hname) as (g & Hg & Hlook).
    + rewrite workbook_of_zipsheetnames by done.
      by rewrite list_lookup_fmap, Hpart.
    + by apply workbook_of_part.
    + destruct (Hok _ _ Hin) as [Hc _].
      apply scrape_sheet_of_spec in Hg as (entries & Hentries & ->); [|done].
      by exists entries.
Qed.

(** * The further theorems at sample inputs *)

(** The file book.xlsx, which exists, passes the check. *)
Lemma check_excelfile_accepts_witness :
  check_excelfile (disk book3) "book.xlsx" = Ok ().
Proof.
  apply (check_excelfile_accepts (disk book3) "book.xlsx"). split.
  - exists book3. by vm_compute.
  - left. right. by exists "book".
Defined.

(** The three-sheet workbook read for Sheet2: one requested name, three
    worksheet parts, and the first two declared names in the Database. *)
Lemma readxl_ok_sheetnames_witness :
  Forall (λ sn, sn ∈ ["Sheet1"; "Sheet2"; "Sheet3"]) ["Sheet2"] ∧
  (length ["Sheet2"] ≤ length (get_zipsheetnames book3))%nat ∧
  (length (get_zipsheetnames book3) - length ["Sheet2"]
   ≤ length ["Sheet1"; "Sheet2"; "Sheet3"])%nat ∧
  dom (<["Sheet1" := {["A1" := "1"]}]> {["Sheet2" := {["A1" := "3"]}]} : Database)
  = list_to_set (take (length (get_zipsheetnames book3) - length ["Sheet2"])
                      ["Sheet1"; "Sheet2"; "Sheet3"]).
Proof.
  apply (readxl_ok_sheetnames scrape_py (disk book3) "book.xlsx" ["Sheet2"] book3
           ["Sheet1"; "Sheet2"; "Sheet3"]); by vm_compute.
Defined.

(** The grid that stands under Sheet2 there is the scrape of a worksheet
    part of the archive. *)
Lemma readxl_ok_grids_witness :
  "Sheet2" ∈ ["Sheet1"; "Sheet2"; "Sheet3"] ∧
  ∃ part, part ∈ get_zipsheetnames book3 ∧
          scraped scrape_py book3 ∅ part {["A1" := "3"]}.
Proof.
  apply (readxl_ok_grids scrape_py (disk book3) "book.xlsx" ["Sheet2"] book3
           ["Sheet1"; "Sheet2"; "Sheet3"] ∅
           (<["Sheet1" := {["A1" := "1"]}]> {["Sheet2" := {["A1" := "3"]}]}));
    by vm_compute.
Defined.

(** A file that is not there, and an archive with a worksheet part and no
    manifest. *)
Lemma readxl_raises_witness :
  (ValueError "Error - File (other.xlsx) does not exit."
   = ValueError ("Error - File (" +:+ "other.xlsx" +:+ ") does not exit.") ∨
   (∃ extension,
      ValueError "Error - File (other.xlsx) does not exit."
      = ValueError ("Error - Incorrect Excel file extension ("
                    +:+ extension
                    +:+ "). File extension supported: .xlsx .xlsm")) ∨
   ValueError "Error - File (other.xlsx) does not exit."
   = KeyError_name "xl/workbook.xml" ∨
   ValueError "Error - File (other.xlsx) does not exit." = IndexError ∨
   (∃ sn, sn ∈ [] ∧
          ValueError "Error - File (other.xlsx) does not exit."
          = ValueError ("Error - Sheetname (" +:+ sn
                        +:+ ") is not in the workbook.")) ∨
   (∃ text ss, scrape_py text ss
               = Raise (ValueError "Error - File (other.xlsx) does not exit."))) ∧
  readxl scrape_py (disk [("xl/worksheets/sheet1.xml", sheet_xml "1")])
         "book.xlsx" []
  = Raise (KeyError_name "xl/workbook.xml").
Proof.
  split.
  - apply (proj1 (readxl_raises scrape_py (disk book3) "other.xlsx" [])).
    by vm_compute.
  - apply (proj2 (readxl_raises scrape_py
                    (disk [("xl/worksheets/sheet1.xml", sheet_xml "1")])
                    "book.xlsx" [])
             [("xl/worksheets/sheet1.xml", sheet_xml "1")]);
      [by vm_compute.. | compute_done].
Defined.

(** A shared-strings part that lists Alice and Bob. *)
Lemma get_sharedStrings_sst_xml_witness :
  Re.findall_between "<t>" "</t>" (sst_xml ["Alice"; "Bob"]) = ["Alice"; "Bob"] ∧
  (∀ i : nat, get_sharedStrings (sst_xml ["Alice"; "Bob"]) !! Z.of_nat i
              = ["Alice"; "Bob"] !! i) ∧
  size (get_sharedStrings (sst_xml ["Alice"; "Bob"])) = length ["Alice"; "Bob"].
Proof.
  apply (get_sharedStrings_sst_xml ["Alice"; "Bob"]).
  repeat (constructor; [split; by vm_compute|]). constructor.
Defined.

(** A string cell with the token 1.5. *)
Lemma scrape_worksheetxml_raises_witness :
  (ValueError_int "1.5" = IndexError ∨
   (∃ tok, Py.contains tok sheet_fraction = true ∧ Py.int tok = None ∧
           ValueError_int "1.5" = ValueError_int tok) ∨
   (∃ i, default ∅ (Some two_names) !! i = None ∧
         ValueError_int "1.5" = KeyError_int i)) ∧
  (Py.contains string_marker sheet_fraction = false →
   ValueError_int "1.5" = IndexError).
Proof.
  apply (scrape_worksheetxml_raises sheet_fraction (Some two_names)).
  by vm_compute.
Defined.

(** A sheet whose second cell holds an inline string and no value
    element. *)
Lemma cell_without_value_raises_witness :
  scrape_worksheetxml
    (worksheet ("<row r='1'><c r='A1'><v>7</v></c>"
                +:+ "<c r='B1' t='inlineStr'><is><t>x</t></is></c></row>"))
    (Some ∅)
  = Raise IndexError.
Proof.
  destruct (cell_without_value_raises
              (worksheet ("<row r='1'><c r='A1'><v>7</v></c>"
                          +:+ "<c r='B1' t='inlineStr'><is><t>x</t></is></c></row>"))
              ∅
              (dq ("<row r='1'><c r='A1'><v>7</v></c>"
                   +:+ "<c r='B1' t='inlineStr'><is><t>x</t></is></c></row>"))
              [dq "'A1'><v>7</v></c>"] []
              (dq "'B1' t='inlineStr'><is><t>x</t></is></c></row>"))
    as [_ Hraise]; [by vm_compute..|].
  apply Hraise. constructor; [|constructor]. eexists. by vm_compute.
Defined.

(** A sheet with a row and no cell, and a sheet with one cell. *)
Lemma scrape_empty_grid_witness :
  scrape_worksheetxml (worksheet "<row r='1'></row>") None = Ok ∅ ∧
  (({["A1" := "1"]} : grid) = ∅
   ↔ Py.contains "<c r=" (dq "<row r='1'><c r='A1'><v>1</v></c></row>") = false).
Proof.
  split.
  - apply (proj1 (scrape_empty_grid (worksheet "<row r='1'></row>") None
                    (dq "<row r='1'></row>") ltac:(by vm_compute)));
      by vm_compute.
  - apply (proj2 (scrape_empty_grid (sheet_xml "1") None
                    (dq "<row r='1'><c r='A1'><v>1</v></c></row>")
                    ltac:(by vm_compute)));
      by vm_compute.
Defined.

(** A sheet of one literal cell scraped with no table and with a table, and
    a sheet of one string cell scraped with a table and with a larger
    one. *)
Lemma scrape_worksheetxml_table_witness :
  scrape_worksheetxml (sheet_xml "1") None
  = scrape_worksheetxml (sheet_xml "1") (Some two_names) ∧
  scrape_worksheetxml
    (worksheet "<row r='1'><c r='A1' t='s'><v>1</v></c></row>") (Some three_names)
  = Ok {["A1" := "Bob"]}.
Proof.
  split.
  - apply (proj1 (scrape_worksheetxml_table (sheet_xml "1"))). by vm_compute.
  - apply (proj2 (scrape_worksheetxml_table
                    (worksheet "<row r='1'><c r='A1' t='s'><v>1</v></c></row>"))
             two_names three_names).
    + apply insert_subseteq. by vm_compute.
    + by vm_compute.
Defined.

(** The one entry of the sheet with cell A1 of value 1. *)
Lemma scrape_grid_entries_witness :
  (Py.contains "A1" (sheet_xml "1") = true ∧ (2 ≤ String.length "A1")%nat ∧
   occurs quote "A1" = false ∧ single_line "A1" = true) ∧
  (Py.contains "1" (sheet_xml "1") = true ∧ single_line "1" = true ∨
   ∃ i, default ∅ (None : option shared) !! i = Some "1").
Proof.
  apply (scrape_grid_entries (sheet_xml "1") None {["A1" := "1"]} "A1" "1");
    by vm_compute.
Defined.

(** A string cell and a literal cell, read with the table Alice, Bob; and a
    literal cell read with no table. *)
Lemma scrape_sheet_of_witness :
  scrape_worksheetxml (sheet_of [Cell "A1" true "1"; Cell "B2" false "42"])
                      (Some two_names)
  = Ok (put_cells ∅ [("A1", "Bob"); ("B2", "42")]) ∧
  scrape_worksheetxml (sheet_of [Cell "B2" false "42"]) None
  = Ok (put_cells ∅ ((λ c, (address c, token c)) <$> [Cell "B2" false "42"])).
Proof.
  split.
  - apply (proj1 (scrape_sheet_of (Some two_names)
                    [Cell "A1" true "1"; Cell "B2" false "42"]
                    ltac:(repeat constructor))).
    exists [("A1", "Bob"); ("B2", "42")]. split; [|done].
    repeat (constructor; [by vm_compute|]). constructor.
  - apply (proj2 (scrape_sheet_of None [Cell "B2" false "42"]
                    ltac:(repeat constructor))).
    repeat constructor.
Defined.

(** The names of a manifest of two sheets. *)
Lemma get_sheetnames_names_witness :
  Forall (λ name, Py.contains name (workbook_xml ["Sheet1"; "Sheet2"]) = true ∧
                  occurs quote name = false ∧ single_line name = true ∧
                  Py.contains "/>" name = false)
         ["Sheet1"; "Sheet2"] ∧
  ∃ sec, Re.first_between "<sheets>" "</sheets>" (workbook_xml ["Sheet1"; "Sheet2"])
         = Some sec ∧
         S (length ["Sheet1"; "Sheet2"]) = length (Py.split "/>" sec).
Proof.
  apply (get_sheetnames_names (workbook_xml ["Sheet1"; "Sheet2"])).
  by vm_compute.
Defined.

(** A workbook of two sheets, the first with a string cell and a literal
    cell, the second empty. *)
Lemma readxl_workbook_of_witness :
  ∃ db,
    readxl scrape_py
      (disk (workbook_of ["Data"; "Notes"] ["Alice"; "Bob"]
               [("xl/worksheets/sheet1.xml",
                 [Cell "A1" true "1"; Cell "B2" false "42"]);
                ("xl/worksheets/sheet2.xml", [])]))
      "book.xlsx" []
    = Ok db ∧
    dom db = list_to_set ["Data"; "Notes"] ∧
    ∀ (i : nat) name part cells,
      ["Data"; "Notes"] !! i = Some name →
      [("xl/worksheets/sheet1.xml", [Cell "A1" true "1"; Cell "B2" false "42"]);
       ("xl/worksheets/sheet2.xml", [])] !! i = Some (part, cells) →
      ∃ entries,
        Forall2 (λ c e, cell_entry (get_sharedStrings (sst_xml ["Alice"; "Bob"])) c
                        = Ok e)
                cells entries ∧
        db !! name = Some (put_cells ∅ entries).
Proof.
  apply (readxl_workbook_of
           (disk (workbook_of ["Data"; "Notes"] ["Alice"; "Bob"]
                    [("xl/worksheets/sheet1.xml",
                      [Cell "A1" true "1"; Cell "B2" false "42"]);
                     ("xl/worksheets/sheet2.xml", [])]))
           "book.xlsx" ["Data"; "Notes"] ["Alice"; "Bob"]
           [("xl/worksheets/sheet1.xml",
             [Cell "A1" true "1"; Cell "B2" false "42"]);
            ("xl/worksheets/sheet2.xml", [])]).
  - by vm_compute.
  - by vm_compute.
  - repeat constructor.
  - compute_done.
  - repeat constructor.
  - compute_done.
  - done.
  - repeat (constructor; [|]); try (by vm_compute); try (eexists; by vm_compute).
Defined.
